(** * Apple on-device AI: generation-request orchestration core

    A shallow embedding of the orchestration code of the repository:

    - the Swift bridge ([apple_ai_generate_unified] and its helpers): the
      transcript builder ([prepareConversationContext],
      [convertMessagesToTranscript]), the [StreamingCoordinator] actor, the
      mode dispatch of [appleAIGenerateUnified] and the two streaming loops;
    - the TypeScript tool-callback bridges of [apple-ai.ts]
      ([chatWithEphemeralTools], [streamChatWithExternalTools],
      [streamChatForVercelAISDK]) and the chunk consumers of
      [streamResponse] and [streamChatCompletion];
    - the availability queries and the JSON-schema compiler of the Swift
      bridge ([convertJSONSchemaToDynamic], [buildSchemasFromJson]);
    - the message and stream conversions of the AI SDK model of
      [apple-ai-chat-model.ts].

    The sources hold two versions of the Swift bridge; this development
    follows the later one (the one that de-duplicates tool outputs and
    extracts the system text in tool mode).

    Platform functions the code calls but does not define (Foundation's JSON
    reader and writer, the language-model session, the grouping of a text
    into [Character]s, [JSON.parse], [JSON.stringify]) are fields of a
    class, and every theorem holds for all of its instances.

    Part I holds the definitions, Part II the lemmas and theorems. *)

From Stdlib Require Import ZArith QArith Lia Bool Ascii String.
From stdpp Require Import base option list gmap strings pretty.

Set Warnings "-register-all,-clear-no-such-hyp".

Local Open Scope string_scope.
Local Open Scope Z_scope.
Local Open Scope list_scope.

(** * Part I: definitions *)

(** ** Swift integers and strings *)

(** [Int] is a 64-bit signed integer whose arithmetic traps on overflow. *)
Module SwiftInt.

Definition max : Z := 2 ^ 63 - 1.

(** [x += 1]: the incremented value, or [None] when the addition traps. *)
Definition succ (x : Z) : option Z :=
  if x <? max then Some (x + 1) else None.

End SwiftInt.

(** A Swift [String] is modelled by the [string] of its code units. How
    the code units group into [Character]s (extended grapheme clusters:
    CR LF, a letter with its combining marks, an emoji sequence are one
    [Character] each) is decided by the segmentation rules of Unicode,
    which are not in the sources: the platform gives them ([characters],
    below), and the streaming loops, which cut the text of the model by
    [Character]s, go through it. *)
Module SwiftString.

Definition isEmpty (s : string) : bool :=
  match s with EmptyString => true | String _ _ => false end.

(** [count] and [dropFirst] on a text every [Character] of which is one
    code unit. The schema compiler uses them to cut the literal
    [#/definitions/] off the front of a reference that starts with it. *)
Definition count (s : string) : nat := String.length s.

(** [String(s.dropFirst(k))], on such a text. *)
Fixpoint dropFirst (k : nat) (s : string) : string :=
  match k, s with
  | O, _ => s
  | S _, EmptyString => EmptyString
  | S k', String _ s' => dropFirst k' s'
  end.

Definition lowercasedCharacter (c : ascii) : ascii :=
  let n := nat_of_ascii c in
  if ((65 <=? n) && (n <=? 90))%nat then ascii_of_nat (n + 32) else c.

(** [s.lowercased()]. The code only compares the result with the literals
    [system], [user], [assistant] and [tool], for which lowercasing the
    letters A to Z decides the same as Unicode lowercasing. *)
Fixpoint lowercased (s : string) : string :=
  match s with
  | EmptyString => EmptyString
  | String c s' => String (lowercasedCharacter c) (lowercased s')
  end.

(** The NUL character, which ends a C string. *)
Definition NUL : ascii := Ascii.zero.

(** What a C callee reads from [s.withCString] (and what [strdup] copies):
    the characters of [s] before its first NUL. *)
Fixpoint withCString (s : string) : string :=
  match s with
  | EmptyString => EmptyString
  | String c s' =>
      if Ascii.eqb c NUL then EmptyString else String c (withCString s')
  end.

(** [s] holds no NUL character. *)
Fixpoint nulFree (s : string) : bool :=
  match s with
  | EmptyString => true
  | String c s' => negb (Ascii.eqb c NUL) && nulFree s'
  end.

End SwiftString.

(** The result of a throwing call, with the thrown error kept as its
    [localizedDescription]. *)
Inductive Try (A : Type) :=
| Threw (localizedDescription : string)
| Returned (value : A).
Arguments Threw {A} _.
Arguments Returned {A} _.

(** ** JSON values ([Any] trees read by [JSONSerialization]) *)

Inductive JSON :=
| JNull
| JBool (b : bool)
| JNumber (n : Z)
| JDouble (literal : string)
| JString (s : string)
| JArray (items : list JSON)
| JObject (fields : list (string * JSON)).

(** [[String: Any]]. *)
Definition Dictionary := list (string * JSON).

(** [dict[key]]. *)
Fixpoint subscript (dict : Dictionary) (key : string) : option JSON :=
  match dict with
  | [] => None
  | (k, v) :: dict' => if String.eqb k key then Some v else subscript dict' key
  end.

(** [value as? String]. *)
Definition asString (value : option JSON) : option string :=
  match value with Some (JString s) => Some s | _ => None end.

(** [value as? [String: Any]]. *)
Definition asDictionary (value : option JSON) : option Dictionary :=
  match value with Some (JObject fields) => Some fields | _ => None end.

(** [value as? [[String: Any]]]: every element has to be a dictionary. *)
Definition asDictionaries (value : option JSON) : option (list Dictionary) :=
  match value with
  | Some (JArray items) => mapM (fun item => asDictionary (Some item)) items
  | _ => None
  end.

(** [value as? UInt64]. *)
Definition asUInt64 (value : option JSON) : option Z :=
  match value with
  | Some (JNumber n) => if (0 <=? n) && (n <? 2 ^ 64) then Some n else None
  | _ => None
  end.

(** ** Messages and transcript entries *)

Record ChatMessage := mkChatMessage {
  role : string;
  content : option string;
  name : option string;
  tool_call_id : option string;
  tool_calls : option (list Dictionary)
}.

(** [Transcript.Segment]; the code builds text segments only. *)
Inductive Segment :=
| textSegment (content : string).

(** [GenerationSchema], kept as the JSON schema it is compiled from (the
    schema compiler is modelled further down, on its own). *)
Record GenerationSchema := mkGenerationSchema {
  schemaSource : Dictionary
}.

Record ToolDefinition := mkToolDefinition {
  definitionName : string;
  definitionDescription : string;
  definitionParameters : GenerationSchema
}.

Record Instructions := mkInstructions {
  instructionSegments : list Segment;
  toolDefinitions : list ToolDefinition
}.

Record Prompt := mkPrompt {
  promptSegments : list Segment
}.

Record Response := mkResponse {
  assetIDs : list string;
  responseSegments : list Segment
}.

(** [Transcript.ToolCall]; [callArguments] is the text the
    [GeneratedContent] is made from. *)
Record ToolCall := mkToolCall {
  callID : string;
  callToolName : string;
  callArguments : string;
  callDescription : string
}.

Record ToolOutput := mkToolOutput {
  outputID : string;
  outputToolName : string;
  outputSegments : list Segment
}.

(** [Transcript.Entry]. *)
Inductive Entry :=
| instructionsEntry (instructions : Instructions)
| promptEntry (prompt : Prompt)
| toolCallsEntry (toolCalls : list ToolCall)
| responseEntry (response : Response)
| toolOutputEntry (toolOutput : ToolOutput).

Record GenerationOptions := mkGenerationOptions {
  temperature : option Q;
  maximumResponseTokens : option Z
}.

Inductive UnavailableReason :=
| deviceNotEligible
| appleIntelligenceNotEnabled
| modelNotReady
| unknownReason.

Inductive Availability :=
| available
| unavailable (reason : UnavailableReason)
| unknownAvailability.

Inductive ConversationError :=
| intelligenceUnavailable (reason : string)
| invalidJSON (reason : string)
| noMessages.

(** What a [throws] function of the bridge can throw: a
    [ConversationError], or any other error, kept as its
    [localizedDescription]. *)
Inductive Thrown :=
| conversationError (e : ConversationError)
| otherError (localizedDescription : string).

(** The proxy tool handed to the session ([struct JSProxyTool]). *)
Record JSProxyTool := mkJSProxyTool {
  toolID : Z;
  toolName : string;
  toolDescription : string;
  parametersSchema : GenerationSchema
}.

(** ** The platform

    What the bridge calls and does not define. *)

(** What the language-model runtime does during one streamed generation,
    in order: it reports a cumulative snapshot of the text, or it calls a
    tool of the session. *)
Inductive StreamEvent :=
| snapshot (cumulative : string)
| toolInvocation (tool : JSProxyTool) (arguments : JSON).

(** A streamed generation: its events, and the error it ends with when it
    fails. *)
Record StreamedGeneration := mkStreamedGeneration {
  streamEvents : list StreamEvent;
  streamFailure : option string
}.

(** A generation that is not streamed: the tools the runtime called, and
    the response text or the error. *)
Record Generation := mkGeneration {
  invocations : list (JSProxyTool * JSON);
  generated : Try string
}.

(** A schema-constrained response: [generatedContentToJSON] of the content
    and [String(describing:)] of it. *)
Record StructuredContent := mkStructuredContent {
  objectJson : JSON;
  textRepresentation : string
}.

Class Platform := {
  (** [SystemLanguageModel.default.availability] *)
  availability : Availability;
  (** [JSONSerialization.jsonObject(with:)] on the UTF-8 data of a text *)
  jsonObject : string -> Try JSON;
  (** [JSONSerialization.data(withJSONObject:)], read as the UTF-8 text
      it holds *)
  jsonData : JSON -> Try string;
  (** [JSONDecoder().decode([ChatMessage].self, from:)] *)
  decodeMessages : string -> Try (list ChatMessage);
  (** string interpolation of an [Any] value *)
  describing : JSON -> string;
  (** [GenerationSchema(root:dependencies:)] on the schemas built from a
      JSON schema: the error it throws, if any *)
  schemaError : Dictionary -> option string;
  (** the [UUID().uuidString] drawn for a collected tool call, by the
      number of calls collected before it *)
  uuidString : nat -> string;
  (** [session.respond(to:options:)] *)
  respond : list Entry -> list JSProxyTool -> string -> GenerationOptions ->
            Generation;
  (** [session.respond(to:schema:includeSchemaInPrompt:options:)] *)
  respondStructured : list Entry -> string -> GenerationSchema ->
                      GenerationOptions -> Try StructuredContent;
  (** [session.streamResponse(to:options:)] *)
  streamResponse : list Entry -> list JSProxyTool -> string ->
                   GenerationOptions -> StreamedGeneration;
  (** the [Character]s of a text, in order: its extended grapheme
      clusters *)
  characters : string -> list string
}.

(** ** The transcript builder *)

Section TranscriptBuilder.
Context `{Platform}.

(** [createInstructions] has no caller in this version of the bridge. *)
Definition createInstructions (message : ChatMessage) : Instructions :=
  {| instructionSegments := [textSegment (default "" (content message))];
     toolDefinitions := [] |}.

Definition createPrompt (message : ChatMessage) : Prompt :=
  {| promptSegments := [textSegment (default "" (content message))] |}.

Definition createResponse (message : ChatMessage) : Response :=
  {| assetIDs := [];
     responseSegments := [textSegment (default "" (content message))] |}.

(** The test both [allSatisfy] calls of [createAssistantEntry] make: the
    call has a [function] dictionary with some [name]. *)
Definition namesFunction (call : Dictionary) : bool :=
  match asDictionary (subscript call "function") with
  | Some function =>
      match subscript function "name" with Some _ => true | None => false end
  | None => false
  end.

(** The [arguments] text of a function, read as a JSON object. *)
Definition parsedArguments (function : Dictionary) : option Dictionary :=
  argsString ← asString (subscript function "arguments");
  match jsonObject argsString with
  | Returned args => asDictionary (Some args)
  | Threw _ => None
  end.

(** The content is built from the JSON text of the dictionary. *)
Definition createGeneratedContentFromDictionary (dict : Dictionary)
    : option string :=
  match jsonData (JObject dict) with
  | Returned jsonString => Some jsonString
  | Threw _ => None
  end.

Definition convertOpenAIToolCalls (calls : list Dictionary) : list ToolCall :=
  omap (fun call =>
    id ← asString (subscript call "id");
    function ← asDictionary (subscript call "function");
    name ← asString (subscript function "name");
    let arguments := default [] (parsedArguments function) in
    let description :=
      default "" (asString (subscript function "description")) in
    content ← createGeneratedContentFromDictionary arguments;
    Some {| callID := id; callToolName := name;
            callArguments := content; callDescription := description |})
  calls.

(** The summary of tool calls found in the content of a legacy assistant
    message (the arguments of a call in the order of the list; Swift
    leaves the order of a dictionary open). *)
Definition toolCallsSummary (calls : list Dictionary) : string :=
  String.concat ", "
    (omap (fun call =>
       function ← asDictionary (subscript call "function");
       name ← asString (subscript function "name");
       Some match parsedArguments function with
            | Some args =>
                let argsList :=
                  String.concat ", "
                    (map (fun kv => kv.1 +:+ "=" +:+ describing kv.2) args) in
                name +:+ "(" +:+ argsList +:+ ")"
            | None => name +:+ "()"
            end)
     calls).

(** The tool calls a legacy assistant message carries in its content. *)
Definition legacyToolCalls (message : ChatMessage) : option (list Dictionary) :=
  content ← content message;
  match jsonObject content with
  | Returned value =>
      calls ← asDictionaries (Some value);
      if negb (bool_decide (calls = [])) && forallb namesFunction calls
      then Some calls else None
  | Threw _ => None
  end.

Definition createAssistantEntry (message : ChatMessage) : Entry :=
  match tool_calls message with
  | Some calls =>
      if negb (bool_decide (calls = [])) && forallb namesFunction calls
      then toolCallsEntry (convertOpenAIToolCalls calls)
      else
        match legacyToolCalls message with
        | Some legacy =>
            responseEntry {| assetIDs := [];
                        responseSegments := [textSegment (toolCallsSummary legacy)] |}
        | None => responseEntry (createResponse message)
        end
  | None =>
      match legacyToolCalls message with
      | Some legacy =>
          responseEntry {| assetIDs := [];
                      responseSegments := [textSegment (toolCallsSummary legacy)] |}
      | None => responseEntry (createResponse message)
      end
  end.

(** The text segments of a tool-output record. *)
Definition transcriptSegments (segments : list Dictionary) : list Segment :=
  omap (fun segment =>
    type ← asString (subscript segment "type");
    if String.eqb type "text"
    then content ← asString (subscript segment "text"); Some (textSegment content)
    else None)
  segments.

(** One record of the [tool_calls] array of a tool message; a record
    without a string [id], a string [toolName] or a [segments] array of
    dictionaries is skipped. *)
Definition toolOutputRecord (toolCall : Dictionary) : option ToolOutput :=
  id ← asString (subscript toolCall "id");
  toolName ← asString (subscript toolCall "toolName");
  segments ← asDictionaries (subscript toolCall "segments");
  Some {| outputID := id; outputToolName := toolName;
          outputSegments := transcriptSegments segments |}.

(** The records a message carries. *)
Definition toolOutputRecords (message : ChatMessage) : list ToolOutput :=
  if negb (String.eqb (role message) "tool") then []
  else
    match content message with
    | None => []
    | Some content =>
        match jsonObject content with
        | Threw _ => []
        | Returned value =>
            match asDictionary (Some value) with
            | None => []
            | Some messageObject =>
                match asDictionaries (subscript messageObject "tool_calls") with
                | None => []
                | Some records => omap toolOutputRecord records
                end
            end
        end
    end.

Definition createToolOutputEntry (message : ChatMessage) : list Entry :=
  map toolOutputEntry (toolOutputRecords message).

(** The [filter] of [convertMessagesToTranscript], whose closure reads and
    updates [seenToolOutputIDs]: the entries kept, and the set after. *)
Fixpoint filterSeen (seenToolOutputIDs : gset string) (entries : list Entry)
    : list Entry * gset string :=
  match entries with
  | [] => ([], seenToolOutputIDs)
  | toolOutputEntry output :: rest =>
      if decide (outputID output ∈ seenToolOutputIDs)
      then filterSeen seenToolOutputIDs rest
      else
        let '(kept, seen) :=
          filterSeen ({[outputID output]} ∪ seenToolOutputIDs) rest in
        (toolOutputEntry output :: kept, seen)
  | entry :: rest =>
      let '(kept, seen) := filterSeen seenToolOutputIDs rest in
      (entry :: kept, seen)
  end.

(** One turn of the loop of [convertMessagesToTranscript], on [entries] and
    [seenToolOutputIDs]. *)
Definition appendMessage (state : list Entry * gset string)
    (message : ChatMessage) : list Entry * gset string :=
  let '(entries, seenToolOutputIDs) := state in
  let lowered := SwiftString.lowercased (role message) in
  if String.eqb lowered "user"
  then (entries ++ [promptEntry (createPrompt message)], seenToolOutputIDs)
  else if String.eqb lowered "assistant"
  then (entries ++ [createAssistantEntry message], seenToolOutputIDs)
  else if String.eqb lowered "tool"
  then
    let '(toolEntries, seen) :=
      filterSeen seenToolOutputIDs (createToolOutputEntry message) in
    (entries ++ toolEntries, seen)
  else (entries ++ [promptEntry (createPrompt message)], seenToolOutputIDs).

Definition isSystem (message : ChatMessage) : bool :=
  String.eqb (SwiftString.lowercased (role message)) "system".

Definition convertMessagesToTranscript (messages : list ChatMessage)
    : list Entry :=
  let nonSystemMessages :=
    List.filter (fun message => negb (isSystem message)) messages in
  (foldl appendMessage ([], ∅) nonSystemMessages).1.

Record ConversationContext := mkConversationContext {
  currentPrompt : string;
  transcriptEntries : list Entry;
  options : GenerationOptions
}.

Definition unavailableDescription (a : Availability) : string :=
  match a with
  | available => "Available"
  | unavailable deviceNotEligible =>
      "Device not eligible for Apple Intelligence"
  | unavailable appleIntelligenceNotEnabled =>
      "Apple Intelligence not enabled"
  | unavailable modelNotReady => "AI model not ready"
  | unavailable unknownReason => "Unknown availability issue"
  | unknownAvailability => "Unknown availability status"
  end.

Definition createGenerationOptions (temperature : Q) (maxTokens : Z)
    : GenerationOptions :=
  if (0 <? Qnum temperature)%Z
  then {| temperature := Some temperature;
          maximumResponseTokens :=
            if 0 <? maxTokens then Some maxTokens else None |}
  else if 0 <? maxTokens
  then {| temperature := None; maximumResponseTokens := Some maxTokens |}
  else {| temperature := None; maximumResponseTokens := None |}.

(** The current prompt and the messages that go to the transcript, given
    the decoded messages and the last of them. *)
Definition separateLatest (messages : list ChatMessage)
    (lastMessage : ChatMessage) : string * list ChatMessage :=
  let lowered := SwiftString.lowercased (role lastMessage) in
  if String.eqb lowered "tool" then ("", messages)
  else if String.eqb lowered "user"
  then (default "" (content lastMessage), removelast messages)
  else ("", messages).

(** [prepareConversationContext] from the decoded messages on. *)
Definition contextOfMessages (messages : list ChatMessage)
    (temperature : Q) (maxTokens : Z) : Thrown + ConversationContext :=
  match messages with
  | [] => inl (conversationError noMessages)
  | first :: _ =>
      let lastMessage := List.last messages first in
      let '(currentPrompt, previousMessages) :=
        separateLatest messages lastMessage in
      inr {| currentPrompt := currentPrompt;
             transcriptEntries := convertMessagesToTranscript previousMessages;
             options := createGenerationOptions temperature maxTokens |}
  end.

Definition prepareConversationContext (messagesJsonString : string)
    (temperature : Q) (maxTokens : Z) : Thrown + ConversationContext :=
  match availability with
  | available =>
      match decodeMessages messagesJsonString with
      | Threw description => inl (otherError description)
      | Returned messages => contextOfMessages messages temperature maxTokens
      end
  | unavailability =>
      inl (conversationError
             (intelligenceUnavailable (unavailableDescription unavailability)))
  end.

End TranscriptBuilder.

(** ** The streaming coordinator ([actor StreamingCoordinator])

    The actor serialises its methods, so a history of the actor is a list
    of calls applied one after the other to its stored properties. *)
Module StreamingCoordinator.

Record State := mkState {
  expectedToolCount : Z;
  completedToolCount : Z;
  shouldStopAfterTools : bool;
  allToolsCompleted : bool
}.

(** The stored properties of a new instance. *)
Definition initial : State :=
  {| expectedToolCount := 0; completedToolCount := 0;
     shouldStopAfterTools := false; allToolsCompleted := false |}.

Definition reset (expectedTools : Z) (stopAfterToolCalls : bool)
    (st : State) : State :=
  {| expectedToolCount := expectedTools;
     completedToolCount := 0;
     shouldStopAfterTools := stopAfterToolCalls;
     allToolsCompleted := false |}.

(** [None] when [completedToolCount += 1] traps. *)
Definition toolCompleted (st : State) : option State :=
  n ← SwiftInt.succ (completedToolCount st);
  Some {| expectedToolCount := expectedToolCount st;
          completedToolCount := n;
          shouldStopAfterTools := shouldStopAfterTools st;
          allToolsCompleted := true |}.

Definition shouldTerminateStream (st : State) : bool :=
  shouldStopAfterTools st && (0 <? completedToolCount st).

Definition hasToolsToExecute (st : State) : bool :=
  0 <? expectedToolCount st.

(** One call on the actor. *)
Inductive Call :=
| callReset (expectedTools : Z) (stopAfterToolCalls : bool)
| callToolCompleted
| callShouldTerminateStream
| callHasToolsToExecute.

Definition isReset (c : Call) : bool :=
  match c with callReset _ _ => true | _ => false end.

Definition isToolCompleted (c : Call) : bool :=
  match c with callToolCompleted => true | _ => false end.

(** The state after a call; [None] when the call traps. *)
Definition step (c : Call) (st : State) : option State :=
  match c with
  | callReset expectedTools stopAfterToolCalls =>
      Some (reset expectedTools stopAfterToolCalls st)
  | callToolCompleted => toolCompleted st
  | callShouldTerminateStream => Some st
  | callHasToolsToExecute => Some st
  end.

Fixpoint run (calls : list Call) (st : State) : option State :=
  match calls with
  | [] => Some st
  | c :: calls' => st' ← step c st; run calls' st'
  end.

(** Number of tool-completed notifications in a history. *)
Definition completions (calls : list Call) : nat :=
  length (List.filter isToolCompleted calls).

(** No [reset] in a history. *)
Definition resetFree (calls : list Call) : bool :=
  forallb (fun c => negb (isReset c)) calls.

(** *** The one instance ([static let shared])

    Every streaming request of the process calls the same instance. A
    history of the process tags each call with the request that made
    it. *)

Definition RequestID := nat.

(** The state of [StreamingCoordinator.shared] after a history. *)
Definition runShared (history : list (RequestID * Call)) (st : State)
    : option State :=
  run (map snd history) st.

(** What a request reads from [shouldTerminateStream()] after a history:
    the answer of the shared instance, whoever asks. *)
Definition observed (request : RequestID)
    (history : list (RequestID * Call)) (st : State) : option bool :=
  shouldTerminateStream <$> runShared history st.

(** A history without the calls of one request. *)
Definition withoutRequest (request : RequestID)
    (history : list (RequestID * Call)) : list (RequestID * Call) :=
  List.filter (fun e => negb (Nat.eqb (fst e) request)) history.

(** The calls since the last [reset] of a history, and the flag that
    [reset] set ([None] when the history has no [reset]). *)
Fixpoint sinceLastReset (calls : list Call) : option bool * list Call :=
  match calls with
  | [] => (None, [])
  | c :: calls' =>
      match sinceLastReset calls' with
      | (Some stop, since) => (Some stop, since)
      | (None, since) =>
          match c with
          | callReset _ stop => (Some stop, since)
          | _ => (None, c :: since)
          end
      end
  end.

End StreamingCoordinator.

(** ** Process-wide state of the bridge *)

(** [ToolCallCollector.ToolCallRecord]. *)
Record ToolCallRecord := mkToolCallRecord {
  recordID : Z;
  recordName : string;
  recordArguments : Dictionary;
  callId : string
}.

(** The globals of the bridge: whether [jsToolCallback] is registered and
    the calls made to it, the calls of [ToolCallCollector.shared], and the
    state of [StreamingCoordinator.shared]. *)
Record Globals := mkGlobals {
  jsToolCallback : bool;
  forwarded : list (Z * string);
  collected : list ToolCallRecord;
  coordinator : StreamingCoordinator.State
}.

(** A chunk handed to [onChunk]: a C string, or [None] for [nil]. *)
Definition Chunk := option string.

(** Control-B marks an error string in streaming callbacks. *)
Definition ERROR_SENTINEL : ascii := ascii_of_nat 2.

(** The chunk [emitError] hands to [onChunk]. *)
Definition emitError (message : string) : Chunk :=
  Some (SwiftString.withCString (String ERROR_SENTINEL message)).

(** The three branches of [appleAIGenerateUnified]. *)
Inductive Mode :=
| TOOLS_MODE
| STRUCTURED_MODE
| BASIC_MODE.

(** [if let str = json, !str.isEmpty]. *)
Definition provided (json : option string) : option string :=
  match json with
  | Some str => if SwiftString.isEmpty str then None else Some str
  | None => None
  end.

Record Request := mkRequest {
  messagesJson : string;
  toolsJson : option string;
  schemaJson : option string;
  requestTemperature : Q;
  maxTokens : Z;
  stream : bool;
  stopAfterToolCalls : bool;
  (** whether an [onChunk] callback is given *)
  onChunk : bool
}.

(** What a call of [appleAIGenerateUnified] does: the branch it takes (if
    it gets there), the C string it returns ([None] for [nil]), the chunks
    handed to [onChunk] in order, the globals after, and whether the
    process trapped. *)
Record Outcome := mkOutcome {
  mode : option Mode;
  result : option string;
  chunks : list Chunk;
  globals : Globals;
  trapped : bool
}.

Section Dispatcher.
Context `{Platform}.

(** A UUID string without its dashes. *)
Definition withoutDashes (s : string) : string :=
  string_of_list_ascii
    (List.filter (fun c => negb (Ascii.eqb c "-"%char)) (list_ascii_of_string s)).

Definition prefix (k : nat) (s : string) : string :=
  String.substring 0 k s.

(** [ToolCallCollector.append]; the call id is [call_] and the first 12
    characters of a fresh UUID without its dashes. *)
Definition append (id : Z) (name : string) (arguments : Dictionary)
    (calls : list ToolCallRecord) : list ToolCallRecord :=
  let callId :=
    "call_" +:+ prefix 12 (withoutDashes (uuidString (length calls))) in
  calls ++ [{| recordID := id; recordName := name;
               recordArguments := arguments; callId := callId |}].

(** [JSProxyTool.call(arguments:)]: the text of the tool output and the
    globals after; [None] when the coordinator traps. *)
Definition call (tool : JSProxyTool) (arguments : JSON) (g : Globals)
    : option (string * Globals) :=
  if negb (jsToolCallback g) then Some ("Tool system not available", g)
  else
    match jsonData arguments with
    | Threw _ => Some ("Unable to process tool arguments", g)
    | Returned jsonStr =>
        let argsDict := default [] (asDictionary (Some arguments)) in
        c ← StreamingCoordinator.toolCompleted (coordinator g);
        Some ("Tool call executed",
              {| jsToolCallback := jsToolCallback g;
                 forwarded :=
                   forwarded g
                   ++ [(toolID tool, SwiftString.withCString jsonStr)];
                 collected :=
                   append (toolID tool) (toolName tool) argsDict (collected g);
                 coordinator := c |})
    end.

(** The tool calls of a generation that is not streamed, in order. *)
Fixpoint callAll (invocations : list (JSProxyTool * JSON)) (g : Globals)
    : option Globals :=
  match invocations with
  | [] => Some g
  | (tool, arguments) :: rest =>
      r ← call tool arguments g; callAll rest r.2
  end.

Definition handleBasicMode (context : ConversationContext)
    : Thrown + string :=
  let generation :=
    respond (transcriptEntries context) [] (currentPrompt context)
            (options context) in
  match generated generation with
  | Threw description => inl (otherError description)
  | Returned content =>
      match jsonData (JObject [("text", JString content)]) with
      | Threw description => inl (otherError description)
      | Returned json => inr json
      end
  end.

(** [String(cumulative.dropFirst(prev.count))]: [count] counts the
    [Character]s of [prev], [dropFirst] drops that many [Character]s of
    [cumulative], and the new string holds the remaining ones. *)
Definition delta (prev cumulative : string) : string :=
  String.concat ""
    (drop (length (characters prev)) (characters cumulative)).

(** The loop of [handleBasicModeStream] from [prev] on: the chunks handed
    to [onChunk]. A session without tools calls none. *)
Fixpoint basicStreamLoop (events : list StreamEvent) (prev : string)
    : list Chunk :=
  match events with
  | [] => []
  | snapshot cumulative :: rest =>
      let delta := delta prev cumulative in
      if SwiftString.isEmpty delta then basicStreamLoop rest cumulative
      else Some (SwiftString.withCString delta)
           :: basicStreamLoop rest cumulative
  | toolInvocation _ _ :: rest => basicStreamLoop rest prev
  end.

(** [handleBasicModeStream]: the chunks handed to [onChunk], and the error
    thrown, if any. *)
Definition handleBasicModeStream (context : ConversationContext)
    : list Chunk * option Thrown :=
  let generation :=
    streamResponse (transcriptEntries context) [] (currentPrompt context)
                   (options context) in
  let emitted := basicStreamLoop (streamEvents generation) "" in
  match streamFailure generation with
  | Some description => (emitted, Some (otherError description))
  | None => (emitted ++ [None], None)
  end.

Definition handleStructuredMode (context : ConversationContext)
    (schemaJsonString : string) : Thrown + string :=
  match jsonObject schemaJsonString with
  | Threw description => inl (otherError description)
  | Returned value =>
      match asDictionary (Some value) with
      | None => inl (conversationError (invalidJSON "Invalid JSON Schema"))
      | Some jsonObj =>
          match schemaError jsonObj with
          | Some description => inl (otherError description)
          | None =>
              match respondStructured (transcriptEntries context)
                      (currentPrompt context)
                      {| schemaSource := jsonObj |} (options context) with
              | Threw description => inl (otherError description)
              | Returned generatedContent =>
                  match jsonData
                          (JObject
                             [("text",
                               JString (textRepresentation generatedContent));
                              ("object", objectJson generatedContent)]) with
                  | Threw description => inl (otherError description)
                  | Returned json => inr json
                  end
              end
          end
      end
  end.

(** The proxy tools built from the array of tool descriptions. *)
Fixpoint buildTools (rawToolsArr : list Dictionary) : Try (list JSProxyTool) :=
  match rawToolsArr with
  | [] => Returned []
  | dict :: rest =>
      match asUInt64 (subscript dict "id"), asString (subscript dict "name") with
      | Some idNum, Some name =>
          let description :=
            default "" (asString (subscript dict "description")) in
          let paramsSchemaJson :=
            default [] (asDictionary (subscript dict "parameters")) in
          match schemaError paramsSchemaJson with
          | Some description => Threw description
          | None =>
              match buildTools rest with
              | Threw description => Threw description
              | Returned tools =>
                  Returned
                    ({| toolID := idNum; toolName := name;
                        toolDescription := description;
                        parametersSchema :=
                          {| schemaSource := paramsSchemaJson |} |} :: tools)
              end
          end
      | _, _ => buildTools rest
      end
  end.

(** The content of the first system message that has a string content. *)
Fixpoint firstSystemContent (messages : list Dictionary) : string :=
  match messages with
  | [] => ""
  | message :: rest =>
      match asString (subscript message "role"),
            asString (subscript message "content") with
      | Some role, Some content =>
          if String.eqb (SwiftString.lowercased role) "system" then content
          else firstSystemContent rest
      | _, _ => firstSystemContent rest
      end
  end.

Definition systemContentOf (messagesJsonString : string) : string :=
  match jsonObject messagesJsonString with
  | Returned value =>
      match asDictionaries (Some value) with
      | Some messages => firstSystemContent messages
      | None => ""
      end
  | Threw _ => ""
  end.

(** The entries of the transcript of a session with tools. *)
Definition finalEntries (context : ConversationContext)
    (tools : list JSProxyTool) (systemContent : string) : list Entry :=
  if negb (bool_decide (tools = [])) || negb (SwiftString.isEmpty systemContent)
  then
    instructionsEntry
      {| instructionSegments :=
           if SwiftString.isEmpty systemContent then []
           else [textSegment systemContent];
         toolDefinitions :=
           map (fun tool =>
                  {| definitionName := toolName tool;
                     definitionDescription := toolDescription tool;
                     definitionParameters := parametersSchema tool |})
               tools |}
    :: transcriptEntries context
  else transcriptEntries context.

(** How the loop of the streaming branch of [handleToolsMode] ends. *)
Inductive LoopExit :=
| exhausted
| terminatedEarly
| coordinatorTrapped.

(** The loop of the streaming branch of [handleToolsMode] from [prev] on:
    the chunks handed to [onChunk], how the loop ends, the globals after. *)
Fixpoint toolsStreamLoop (stopAfterToolCalls : bool)
    (events : list StreamEvent) (prev : string) (g : Globals)
    : list Chunk * LoopExit * Globals :=
  match events with
  | [] => ([], exhausted, g)
  | toolInvocation tool arguments :: rest =>
      match call tool arguments g with
      | Some (_, g') => toolsStreamLoop stopAfterToolCalls rest prev g'
      | None => ([], coordinatorTrapped, g)
      end
  | snapshot cumulative :: rest =>
      if stopAfterToolCalls
         && StreamingCoordinator.shouldTerminateStream (coordinator g)
      then ([], terminatedEarly, g)
      else
        let delta := delta prev cumulative in
        let '(emitted, exit, g') :=
          toolsStreamLoop stopAfterToolCalls rest cumulative g in
        if SwiftString.isEmpty delta then (emitted, exit, g')
        else (Some (SwiftString.withCString delta) :: emitted, exit, g')
  end.

(** What [handleToolsMode] does: the chunks handed to [onChunk], the value
    returned or the error thrown, the globals after, and whether the
    process trapped. *)
Record ToolsOutcome := mkToolsOutcome {
  toolsChunks : list Chunk;
  toolsResult : Thrown + string;
  toolsGlobals : Globals;
  toolsTrapped : bool
}.

Definition withCollector (calls : list ToolCallRecord) (g : Globals)
    : Globals :=
  {| jsToolCallback := jsToolCallback g; forwarded := forwarded g;
     collected := calls; coordinator := coordinator g |}.

Definition withCoordinator (c : StreamingCoordinator.State) (g : Globals)
    : Globals :=
  {| jsToolCallback := jsToolCallback g; forwarded := forwarded g;
     collected := collected g; coordinator := c |}.

(** The [toolCalls] value of the result of a generation with tools. *)
Definition formattedCalls (calls : list ToolCallRecord) : JSON :=
  JArray
    (map (fun call =>
       JObject
         [("id", JString (callId call));
          ("type", JString "function");
          ("function",
           JObject
             [("name", JString (recordName call));
              ("arguments",
               JString
                 match jsonData (JObject (recordArguments call)) with
                 | Returned arguments => arguments
                 | Threw _ => "{}"
                 end)])])
     calls).

(** The branch of [handleToolsMode] that is not streamed, from the
    generation of the session on: the runtime calls the tools, and the
    result is made of the calls collected or, when there is none, of the
    text. *)
Definition respondWithTools (generation : Generation) (g0 : Globals)
    : ToolsOutcome :=
  match callAll (invocations generation) g0 with
  | None =>
      {| toolsChunks := []; toolsResult := inr "";
         toolsGlobals := g0; toolsTrapped := true |}
  | Some g1 =>
      match generated generation with
      | Threw description =>
          {| toolsChunks := [];
             toolsResult := inl (otherError description);
             toolsGlobals := g1; toolsTrapped := false |}
      | Returned content =>
          let json :=
            if negb (bool_decide (collected g1 = []))
            then JObject
                   [("text", JString "");
                    ("toolCalls", formattedCalls (collected g1))]
            else JObject [("text", JString content)] in
          {| toolsChunks := [];
             toolsResult :=
               match jsonData json with
               | Threw description => inl (otherError description)
               | Returned text => inr text
               end;
             toolsGlobals := g1; toolsTrapped := false |}
      end
  end.

(** The streamed branch of [handleToolsMode], from the reset of the
    coordinator on. *)
Definition streamWithTools (stopAfterToolCalls : bool) (expectedTools : Z)
    (generation : StreamedGeneration) (g0 : Globals) : ToolsOutcome :=
  let g1 :=
    withCoordinator
      (StreamingCoordinator.reset expectedTools stopAfterToolCalls
                                  (coordinator g0))
      g0 in
  let '(emitted, exit, g2) :=
    toolsStreamLoop stopAfterToolCalls (streamEvents generation) "" g1 in
  match exit, streamFailure generation with
  | coordinatorTrapped, _ =>
      {| toolsChunks := emitted; toolsResult := inr "";
         toolsGlobals := g2; toolsTrapped := true |}
  | exhausted, Some description =>
      {| toolsChunks := emitted;
         toolsResult := inl (otherError description);
         toolsGlobals := g2; toolsTrapped := false |}
  | _, _ =>
      {| toolsChunks := emitted ++ [None];
         toolsResult := inr "";
         toolsGlobals := g2; toolsTrapped := false |}
  end.

Definition handleToolsMode (context : ConversationContext)
    (toolsJsonString messagesJsonString : string)
    (streaming stopAfterToolCalls onChunk : bool) (g : Globals)
    : ToolsOutcome :=
  let throw e :=
    {| toolsChunks := []; toolsResult := inl e; toolsGlobals := g;
       toolsTrapped := false |} in
  match jsonObject toolsJsonString with
  | Threw description => throw (otherError description)
  | Returned value =>
      match asDictionaries (Some value) with
      | None => throw (conversationError (invalidJSON "Invalid tools JSON"))
      | Some rawToolsArr =>
          match buildTools rawToolsArr with
          | Threw description => throw (otherError description)
          | Returned tools =>
              let entries :=
                finalEntries context tools
                             (systemContentOf messagesJsonString) in
              let g0 := withCollector [] g in
              if negb streaming then
                respondWithTools
                  (respond entries tools (currentPrompt context)
                           (options context))
                  g0
              else if negb onChunk then
                {| toolsChunks := [];
                   toolsResult :=
                     inl (conversationError
                            (invalidJSON "No callback provided for streaming"));
                   toolsGlobals := g0; toolsTrapped := false |}
              else
                streamWithTools stopAfterToolCalls (Z.of_nat (length tools))
                  (streamResponse entries tools (currentPrompt context)
                                  (options context))
                  g0
          end
      end
  end.

(** The text reported for a thrown error when the request is not
    streamed. *)
Definition errorResult (e : Thrown) : string :=
  match e with
  | conversationError (intelligenceUnavailable reason) =>
      "Error: Apple Intelligence not available - " +:+ reason
  | conversationError (invalidJSON reason) => "Error: " +:+ reason
  | conversationError noMessages => "Error: No messages provided"
  | otherError description => "Error: " +:+ description
  end.

(** The chunk emitted for a thrown error when the request is streamed. *)
Definition errorChunk (e : Thrown) : Chunk :=
  match e with
  | conversationError (intelligenceUnavailable reason) =>
      emitError ("Apple Intelligence not available - " +:+ reason)
  | conversationError (invalidJSON reason) => emitError reason
  | conversationError noMessages => emitError "No messages"
  | otherError description => emitError description
  end.

Definition appleAIGenerateUnified (request : Request) (g : Globals)
    : Outcome :=
  if stream request && negb (onChunk request) then
    {| mode := None;
       result :=
         Some (SwiftString.withCString
                 "Error: Streaming requested but no callback provided");
       chunks := []; globals := g; trapped := false |}
  else if negb (stream request) then
    let returning (m : option Mode) (r : Thrown + string) (g' : Globals)
                  (t : bool) :=
      {| mode := m;
         result :=
           Some (SwiftString.withCString
                   match r with inl e => errorResult e | inr text => text end);
         chunks := []; globals := g'; trapped := t |} in
    match prepareConversationContext (messagesJson request)
            (requestTemperature request) (maxTokens request) with
    | inl e => returning None (inl e) g false
    | inr context =>
        match provided (toolsJson request) with
        | Some toolsStr =>
            let o :=
              handleToolsMode context toolsStr (messagesJson request) false
                (stopAfterToolCalls request) false g in
            returning (Some TOOLS_MODE) (toolsResult o) (toolsGlobals o)
                      (toolsTrapped o)
        | None =>
            match provided (schemaJson request) with
            | Some schemaStr =>
                returning (Some STRUCTURED_MODE)
                          (handleStructuredMode context schemaStr) g false
            | None =>
                returning (Some BASIC_MODE) (handleBasicMode context) g false
            end
        end
    end
  else
    let streaming (m : option Mode) (emitted : list Chunk)
                  (thrown : option Thrown) (g' : Globals) (t : bool) :=
      {| mode := m; result := None;
         chunks :=
           emitted ++ match thrown with
                      | Some e => if t then [] else [errorChunk e]
                      | None => []
                      end;
         globals := g'; trapped := t |} in
    match prepareConversationContext (messagesJson request)
            (requestTemperature request) (maxTokens request) with
    | inl e => streaming None [] (Some e) g false
    | inr context =>
        match provided (toolsJson request) with
        | Some toolsStr =>
            let o :=
              handleToolsMode context toolsStr (messagesJson request) true
                (stopAfterToolCalls request) (onChunk request) g in
            streaming (Some TOOLS_MODE) (toolsChunks o)
                      match toolsResult o with
                      | inl e => Some e
                      | inr _ => None
                      end
                      (toolsGlobals o) (toolsTrapped o)
        | None =>
            match provided (schemaJson request) with
            | Some schemaStr =>
                streaming (Some STRUCTURED_MODE)
                  [emitError "Structured generation does not support streaming"]
                  None g false
            | None =>
                let '(emitted, thrown) := handleBasicModeStream context in
                streaming (Some BASIC_MODE) emitted thrown g false
            end
        end
    end.

End Dispatcher.

(** ** The TypeScript tool bridges ([apple-ai.ts]) *)

(** A JavaScript value a tool handler produces or a caller injects:
    [undefined], a JSON value ([JNull] is [null]), or a value
    [JSON.stringify] throws on (a cycle, a BigInt), kept as the text of the
    error. *)
Inductive JSValue :=
| undefined
| jsonValue (value : JSON)
| unserializable (error : string).

(** The outcome of awaiting a handler: the value it resolves to, or
    [String(error)] of what it throws or rejects with. *)
Inductive Settled :=
| fulfilled (value : JSValue)
| rejected (error : string).

Class JavaScript := {
  (** [JSON.parse]; [Threw] carries [String(error)] *)
  JSON_parse : string -> Try JSON;
  (** [JSON.stringify] of a JSON value *)
  JSON_stringify : JSON -> string
}.

(** [EphemeralTool]. *)
Record EphemeralTool := mkEphemeralTool {
  ephemeralName : string;
  ephemeralDescription : option string;
  jsonSchema : JSON;
  handler : JSON -> Settled
}.

(** An entry of [pendingToolCalls]; its [resolve] and [reject] resume the
    callback that waits for the call. *)
Record PendingToolCall := mkPendingToolCall {
  pendingToolId : Z
}.

(** What is pushed to [readable]. *)
Inductive Pushed :=
| textPart (text : string)
| toolCallPart (toolCallId toolName : string) (args : JSON)
| endOfStream.

(** The state of one request of the TypeScript layer: the calls of
    [toolBindings.toolResult] so far, the [pendingToolCalls] map, what was
    pushed to [readable], the error [readable] was destroyed with, and
    whether the tool callback is registered. *)
Record Bridge := mkBridge {
  toolResults : list (Z * string);
  pendingToolCalls : gmap string PendingToolCall;
  readable : list Pushed;
  destroyed : option string;
  registered : bool
}.

(** The state of the iterator of [streamResponse]: its closure variables,
    and the calls it has made to the resolve and reject functions of the
    consumer's promises, in order. *)
Inductive IteratorResult :=
| yielded (value : string)
| finished
| thrown (error : string).

Record StreamIterator := mkStreamIterator {
  queue : list string;
  done : bool;
  error : option string;
  pendingResolve : bool;
  pendingReject : bool;
  signalled : list IteratorResult
}.

Section ToolBridge.
Context `{JavaScript}.

(** [JSON.stringify(value)]: the text, [None] for [undefined]. *)
Definition stringify (value : JSValue) : Try (option string) :=
  match value with
  | undefined => Returned None
  | jsonValue v => Returned (Some (JSON_stringify v))
  | unserializable error => Threw error
  end.

(** [JSON.stringify(value ?? null)]. *)
Definition stringifyOrNull (value : JSValue) : Try string :=
  match value with
  | undefined => Returned (JSON_stringify JNull)
  | jsonValue v => Returned (JSON_stringify v)
  | unserializable error => Threw error
  end.

(** [JSON.stringify({ error: String(error) })]. *)
Definition errorObject (error : string) : string :=
  JSON_stringify (JObject [("error", JString error)]).

(** [toolBindings.toolResult(toolId, resultJson)]. *)
Definition toolResult (toolId : Z) (resultJson : string) (b : Bridge)
    : Bridge :=
  {| toolResults := toolResults b ++ [(toolId, resultJson)];
     pendingToolCalls := pendingToolCalls b;
     readable := readable b;
     destroyed := destroyed b;
     registered := registered b |}.

(** The [toolMap] of [chatWithEphemeralTools]: tool ids count from 1. *)
Definition toolMapOf (tools : list EphemeralTool) : gmap Z EphemeralTool :=
  (foldl (fun '(toolMap, toolId) tool => (<[toolId := tool]> toolMap, toolId + 1))
         (∅, 1) tools).1.

(** The callback [chatWithEphemeralTools] registers. The native
    [toolResult] takes a string: handed [undefined], it throws, inside the
    [try]. *)
Definition ephemeralToolCallback (toolMap : gmap Z EphemeralTool)
    (err : option string) (toolId : Z) (argsJson : string) (b : Bridge)
    : Bridge :=
  match err with
  | Some _ => b
  | None =>
      match toolMap !! toolId with
      | None => toolResult toolId "{}" b
      | Some tool =>
          match JSON_parse argsJson with
          | Threw _ => toolResult toolId "{}" b
          | Returned args =>
              match handler tool args with
              | rejected _ => toolResult toolId "{}" b
              | fulfilled result =>
                  match stringify result with
                  | Returned (Some resultJson) =>
                      toolResult toolId resultJson b
                  | Returned None => toolResult toolId "{}" b
                  | Threw _ => toolResult toolId "{}" b
                  end
              end
          end
      end
  end.

(** [options.tools[id - 1]]. *)
Definition toolAt (tools : list EphemeralTool) (id : Z)
    : option EphemeralTool :=
  if 0 <=? id - 1 then tools !! Z.to_nat (id - 1) else None.

(** The callback [streamChatWithExternalTools] registers, up to its
    [await]; [uuid] is what [crypto.randomUUID()] returns. *)
Definition externalToolCallback (tools : list EphemeralTool)
    (err : option string) (id : Z) (argsJson : string) (uuid : string)
    (b : Bridge) : Bridge :=
  match err with
  | Some _ => toolResult id "{}" b
  | None =>
      match toolAt tools id with
      | None => toolResult id "{}" b
      | Some tool =>
          let toolCallId := "tool-call-" +:+ uuid in
          match JSON_parse argsJson with
          | Threw error => toolResult id (errorObject error) b
          | Returned args =>
              {| toolResults := toolResults b;
                 pendingToolCalls :=
                   <[toolCallId := {| pendingToolId := id |}]>
                     (pendingToolCalls b);
                 readable :=
                   readable b
                   ++ [toolCallPart toolCallId (ephemeralName tool) args];
                 destroyed := destroyed b;
                 registered := registered b |}
          end
      end
  end.

(** The rest of that callback, once the promise it awaits is resolved
    with [result]. *)
Definition resumeWith (id : Z) (result : JSValue) (b : Bridge) : Bridge :=
  match stringifyOrNull result with
  | Returned resultJson => toolResult id resultJson b
  | Threw error => toolResult id (errorObject error) b
  end.

(** [injectToolResult]. *)
Definition injectToolResult (toolCallId : string) (result : JSValue)
    (b : Bridge) : Bridge :=
  match pendingToolCalls b !! toolCallId with
  | Some pendingCall =>
      let b' := resumeWith (pendingToolId pendingCall) result b in
      {| toolResults := toolResults b';
         pendingToolCalls := delete toolCallId (pendingToolCalls b');
         readable := readable b';
         destroyed := destroyed b';
         registered := registered b' |}
  | None => b
  end.

(** The stream callback of [streamChatWithExternalTools]. *)
Definition externalStreamCallback (err : option string)
    (chunk : option string) (b : Bridge) : Bridge :=
  match err with
  | Some e =>
      {| toolResults := toolResults b;
         pendingToolCalls := pendingToolCalls b;
         readable := readable b;
         destroyed := Some e;
         registered := false |}
  | None =>
      match chunk with
      | Some (String c rest) =>
          {| toolResults := toolResults b;
             pendingToolCalls := pendingToolCalls b;
             readable := readable b ++ [textPart (String c rest)];
             destroyed := destroyed b;
             registered := registered b |}
      | _ =>
          {| toolResults := toolResults b;
             pendingToolCalls := pendingToolCalls b;
             readable := readable b ++ [endOfStream];
             destroyed := destroyed b;
             registered := false |}
      end
  end.

(** What happens to a request of [streamChatWithExternalTools]. The
    native layer calls the tool callback only while it is registered. *)
Inductive BridgeEvent :=
| toolInvoked (err : option string) (id : Z) (argsJson uuid : string)
| streamed (err : option string) (chunk : option string)
| injected (toolCallId : string) (result : JSValue).

Definition bridgeStep (tools : list EphemeralTool) (e : BridgeEvent)
    (b : Bridge) : Bridge :=
  match e with
  | toolInvoked err id argsJson uuid =>
      if registered b then externalToolCallback tools err id argsJson uuid b
      else b
  | streamed err chunk => externalStreamCallback err chunk b
  | injected toolCallId result => injectToolResult toolCallId result b
  end.

(** The state of a request after [setToolCallback]. *)
Definition started : Bridge :=
  {| toolResults := []; pendingToolCalls := ∅; readable := [];
     destroyed := None; registered := true |}.

Definition bridgeRun (tools : list EphemeralTool) (events : list BridgeEvent)
    : Bridge :=
  foldl (fun b e => bridgeStep tools e b) started events.

(** The request has ended: the stream signalled its end or an error. *)
Definition ended (b : Bridge) : bool :=
  existsb (fun p => match p with endOfStream => true | _ => false end)
          (readable b)
  || match destroyed b with Some _ => true | None => false end.

End ToolBridge.

(** [handleChunk] of [streamResponse]. *)
Definition handleChunk (err : option string) (chunk : option string)
    (it : StreamIterator) : StreamIterator :=
  match err with
  | Some e =>
      {| queue := queue it; done := true; error := Some e;
         pendingResolve := if pendingReject it then false else pendingResolve it;
         pendingReject := false;
         signalled :=
           if pendingReject it then signalled it ++ [thrown e] else signalled it |}
  | None =>
      match chunk with
      | Some (String c rest) =>
          if pendingResolve it
          then {| queue := queue it; done := done it; error := error it;
                  pendingResolve := false; pendingReject := pendingReject it;
                  signalled := signalled it ++ [yielded (String c rest)] |}
          else {| queue := queue it ++ [String c rest]; done := done it;
                  error := error it; pendingResolve := false;
                  pendingReject := pendingReject it; signalled := signalled it |}
      | _ =>
          {| queue := queue it; done := true; error := error it;
             pendingResolve := false; pendingReject := pendingReject it;
             signalled :=
               if pendingResolve it then signalled it ++ [finished]
               else signalled it |}
      end
  end.

(** Modelled from the spec: the native layer between [onChunk] and the
    JavaScript callback (not among the sources) hands a C string on as the
    chunk and [nil] as [null], with no error. *)
Definition forward (chunk : Chunk) (it : StreamIterator) : StreamIterator :=
  handleChunk None chunk it.

(** The iterator of a new stream. *)
Definition newIterator : StreamIterator :=
  {| queue := []; done := false; error := None; pendingResolve := false;
     pendingReject := false; signalled := [] |}.

(** [next()] of that iterator: the state after, and the result when the
    promise it returns is settled at once. *)
Definition next (it : StreamIterator)
    : StreamIterator * option IteratorResult :=
  match queue it with
  | value :: rest =>
      ({| queue := rest; done := done it; error := error it;
          pendingResolve := pendingResolve it;
          pendingReject := pendingReject it; signalled := signalled it |},
       Some (yielded value))
  | [] =>
      if done it then (it, Some finished)
      else
        match error it with
        | Some e => (it, Some (thrown e))
        | None =>
            ({| queue := []; done := false; error := None;
                pendingResolve := true; pendingReject := true;
                signalled := signalled it |},
             None)
        end
  end.

(** ** Notions the statements use *)

Section Notions.
Context `{Platform}.

(** The tool-output records the messages of a conversation carry, in
    order. *)
Definition carriedRecords (messages : list ChatMessage) : list ToolOutput :=
  flat_map toolOutputRecords messages.

(** The tool outputs among the entries of a transcript, in order. *)
Definition emittedToolOutputs (entries : list Entry) : list ToolOutput :=
  omap (fun entry =>
          match entry with toolOutputEntry output => Some output | _ => None end)
       entries.

(** From the specification: records whose id was already emitted are
    dropped, so of the records of one id only the first is kept. *)
Fixpoint keepFirstByID (emitted : gset string) (records : list ToolOutput)
    : list ToolOutput :=
  match records with
  | [] => []
  | record :: rest =>
      if decide (outputID record ∈ emitted) then keepFirstByID emitted rest
      else record :: keepFirstByID ({[outputID record]} ∪ emitted) rest
  end.

(** The number of entries of a transcript that are the tool output of
    one id. *)
Definition outputsWithID (id : string) (entries : list Entry) : nat :=
  length (List.filter (fun output => String.eqb (outputID output) id)
                      (emittedToolOutputs entries)).

Definition isInstructions (entry : Entry) : bool :=
  match entry with instructionsEntry _ => true | _ => false end.

(** A message whose role sends it to the [tool] case of the builder. *)
Definition isTool (message : ChatMessage) : bool :=
  String.eqb (SwiftString.lowercased (role message)) "tool".

(** The entry the builder appends for a message that is neither a system
    nor a tool message. *)
Definition entryOf (message : ChatMessage) : Entry :=
  if String.eqb (SwiftString.lowercased (role message)) "assistant"
  then createAssistantEntry message
  else promptEntry (createPrompt message).

End Notions.

(** A chunk that is the C string of a non-empty delta. *)
Definition deltaChunk (chunk : Chunk) : Prop :=
  exists delta,
    SwiftString.isEmpty delta = false
    /\ chunk = Some (SwiftString.withCString delta).

(** A stream event whose snapshot holds no NUL character. *)
Definition nulFreeEvent (event : StreamEvent) : bool :=
  match event with
  | snapshot cumulative => SwiftString.nulFree cumulative
  | toolInvocation _ _ => true
  end.

(** ** A sample platform

    Instances of the two classes for the examples: a JSON writer, and
    readers that know the few texts the examples use and reject any other
    text. *)

Definition quoted (s : string) : string :=
  String (ascii_of_nat 34) (s +:+ String (ascii_of_nat 34) EmptyString).

(** A string with its double quotes and backslashes escaped. *)
Fixpoint escaped (s : string) : string :=
  match s with
  | EmptyString => EmptyString
  | String c rest =>
      if Ascii.eqb c (ascii_of_nat 34) || Ascii.eqb c (ascii_of_nat 92)
      then String (ascii_of_nat 92) (String c (escaped rest))
      else String c (escaped rest)
  end.

(** The compact JSON text of a value (of strings without control
    characters). *)
Fixpoint sampleWriter (value : JSON) : string :=
  match value with
  | JNull => "null"
  | JBool true => "true"
  | JBool false => "false"
  | JNumber n => pretty n
  | JDouble literal => literal
  | JString s => quoted (escaped s)
  | JArray items => "[" +:+ String.concat "," (map sampleWriter items) +:+ "]"
  | JObject fields =>
      "{"
      +:+ String.concat ","
            (map (fun field =>
                    quoted (escaped (fst field)) +:+ ":"
                    +:+ sampleWriter (snd field))
                 fields)
      +:+ "}"
  end.

(** The content of a tool message that carries one record, of id
    [call_1], tool [add] and one text segment. *)
Definition sampleRecords : JSON :=
  JObject
    [("tool_calls",
      JArray
        [JObject
           [("id", JString "call_1");
            ("toolName", JString "add");
            ("segments",
             JArray [JObject [("type", JString "text");
                              ("text", JString "5")]])]])].

(** A conversation of one user message. *)
Definition sampleMessages : list ChatMessage :=
  [{| role := "user"; content := Some "2+2?"; name := None;
      tool_call_id := None; tool_calls := None |}].

Definition sampleMessagesJson : string :=
  sampleWriter
    (JArray [JObject [("role", JString "user");
                      ("content", JString "2+2?")]]).

(** The [Character]s of a text of ASCII characters: CR LF is one
    [Character], any other character is a [Character] of its own. *)
Fixpoint sampleCharacters (s : string) : list string :=
  match s with
  | EmptyString => []
  | String c rest =>
      match rest with
      | String c' rest' =>
          if Ascii.eqb c (ascii_of_nat 13) && Ascii.eqb c' (ascii_of_nat 10)
          then String c (String c' EmptyString) :: sampleCharacters rest'
          else String c EmptyString :: sampleCharacters rest
      | EmptyString => [String c EmptyString]
      end
  end.

(** A schema of one string property. *)
Definition sampleSchema : JSON :=
  JObject [("type", JString "object");
           ("properties",
            JObject [("name", JObject [("type", JString "string")])])].

Definition samplePlatform : Platform :=
  {| availability := available;
     jsonObject := fun text =>
       if String.eqb text (sampleWriter sampleRecords)
       then Returned sampleRecords
       else if String.eqb text (sampleWriter sampleSchema)
       then Returned sampleSchema
       else Threw "The data is not in the correct format.";
     jsonData := fun value => Returned (sampleWriter value);
     decodeMessages := fun text =>
       if String.eqb text sampleMessagesJson then Returned sampleMessages
       else Threw "The data is not in the correct format.";
     describing := sampleWriter;
     schemaError := fun _ => None;
     uuidString := fun _ => "00000000-0000-0000-0000-000000000000";
     respond := fun _ _ _ _ =>
       {| invocations := []; generated := Returned "4" |};
     respondStructured := fun _ _ _ _ =>
       Returned {| objectJson := JObject [("name", JString "Ada")];
                   textRepresentation := "Ada" |};
     streamResponse := fun _ _ _ _ =>
       {| streamEvents := [snapshot "The"; snapshot "The answer";
                           snapshot "The answer is 4"];
          streamFailure := None |};
     characters := sampleCharacters |}.

Definition sampleJavaScript : JavaScript :=
  {| JSON_parse := fun text =>
       if String.eqb text "{}" then Returned (JObject [])
       else Threw "SyntaxError: JSON Parse error";
     JSON_stringify := sampleWriter |}.

(** A tool that adds its two arguments, here answering 5. *)
Definition sampleTool : EphemeralTool :=
  {| ephemeralName := "add"; ephemeralDescription := None;
     jsonSchema := JObject [("type", JString "object")];
     handler := fun _ => fulfilled (jsonValue (JNumber 5)) |}.

(** A conversation that opens with a system message, as it is decoded
    and as the JSON value [handleToolsMode] reads. *)
Definition briefMessages : list ChatMessage :=
  [{| role := "system"; content := Some "Be brief"; name := None;
      tool_call_id := None; tool_calls := None |};
   {| role := "user"; content := Some "Hi"; name := None;
      tool_call_id := None; tool_calls := None |}].

Definition briefMessagesJson : JSON :=
  JArray [JObject [("role", JString "system");
                   ("content", JString "Be brief")];
          JObject [("role", JString "user"); ("content", JString "Hi")]].

(** The text of the instructions a transcript begins with. *)
Definition instructionsText (entries : list Entry) : string :=
  match entries with
  | instructionsEntry instructions :: _ =>
      String.concat ""
        (map (fun segment => match segment with textSegment text => text end)
             (instructionSegments instructions))
  | _ => "no instructions"
  end.

(** A platform whose model answers with the instructions of its
    transcript, and whose readers also know the empty array and the
    conversation above. *)
Definition echoPlatform : Platform :=
  {| availability := available;
     jsonObject := fun text =>
       if String.eqb text "[]" then Returned (JArray [])
       else if String.eqb text (sampleWriter briefMessagesJson)
       then Returned briefMessagesJson
       else jsonObject (Platform := samplePlatform) text;
     jsonData := jsonData (Platform := samplePlatform);
     decodeMessages := fun text =>
       if String.eqb text (sampleWriter briefMessagesJson)
       then Returned briefMessages
       else decodeMessages (Platform := samplePlatform) text;
     describing := describing (Platform := samplePlatform);
     schemaError := schemaError (Platform := samplePlatform);
     uuidString := uuidString (Platform := samplePlatform);
     respond := fun entries _ _ _ =>
       {| invocations := []; generated := Returned (instructionsText entries) |};
     respondStructured := respondStructured (Platform := samplePlatform);
     streamResponse := fun entries _ _ _ =>
       {| streamEvents := [snapshot (instructionsText entries)];
          streamFailure := None |};
     characters := sampleCharacters |}.

(** ** Further notions the statements use *)

(** The system text of a message of the array [handleToolsMode] reads:
    its content, when its role is [system] in any letter case and its
    content is a string. *)
Definition systemText (message : Dictionary) : option string :=
  match asString (subscript message "role"),
        asString (subscript message "content") with
  | Some role, Some content =>
      if String.eqb (SwiftString.lowercased role) "system" then Some content
      else None
  | _, _ => None
  end.



Definition isToolOutput (entry : Entry) : bool :=
  match entry with toolOutputEntry _ => true | _ => false end.

(** A message that gets an entry of its own: neither a system nor a tool
    message. *)
Definition isTurn (message : ChatMessage) : bool :=
  negb (String.eqb (SwiftString.lowercased (role message)) "system")
  && negb (String.eqb (SwiftString.lowercased (role message)) "tool").

(** ** The availability queries *)

Section AvailabilityQueries.
Context `{Platform}.

Definition appleAICheckAvailability : Z :=
  match availability with
  | available => 1
  | unavailable deviceNotEligible => -1
  | unavailable appleIntelligenceNotEnabled => -2
  | unavailable modelNotReady => -3
  | unavailable unknownReason => -99
  | unknownAvailability => -99
  end.

Definition appleAIGetAvailabilityReason : string :=
  match availability with
  | available => "Model is available"
  | unavailable deviceNotEligible =>
      "Device not eligible for Apple Intelligence. Supported devices: iPhone 15 Pro/Pro Max or newer, iPad with M1 chip or newer, Mac with Apple Silicon"
  | unavailable appleIntelligenceNotEnabled =>
      "Apple Intelligence not enabled. Enable it in Settings > Apple Intelligence & Siri"
  | unavailable modelNotReady =>
      "AI model not ready. Models are downloaded automatically based on network status, battery level, and system load. Please wait and try again later."
  | unavailable unknownReason => "Unknown availability issue"
  | unknownAvailability => "Unknown availability status"
  end.

End AvailabilityQueries.

(** ** Cumulative snapshots *)

Section CumulativeSnapshots.
Context `{Platform}.

(** [cumulative] extends [prev] by whole [Character]s: the [Character]s
    of [prev] are the first [Character]s of [cumulative]. *)
Definition extendsText (prev cumulative : string) : bool :=
  bool_decide (take (length (characters prev)) (characters cumulative)
               = characters prev).

(** Every snapshot of the events extends the one before it by whole
    [Character]s, starting from [prev]. *)
Fixpoint growing (prev : string) (events : list StreamEvent) : bool :=
  match events with
  | [] => true
  | snapshot cumulative :: rest =>
      extendsText prev cumulative && growing cumulative rest
  | toolInvocation _ _ :: rest => growing prev rest
  end.

End CumulativeSnapshots.

(** The last snapshot of the events, [prev] when they hold none. *)
Fixpoint lastSnapshot (prev : string) (events : list StreamEvent) : string :=
  match events with
  | [] => prev
  | snapshot cumulative :: rest => lastSnapshot cumulative rest
  | toolInvocation _ _ :: rest => lastSnapshot prev rest
  end.

(** The text a consumer gets by appending the chunks it receives, as in
    [fullContent += chunk]. *)
Definition joined (chunks : list Chunk) : string :=
  foldl (fun fullContent chunk => fullContent +:+ default "" chunk) "" chunks.

(** The sample platform with a model that is still being downloaded. *)
Definition unavailablePlatform : Platform :=
  {| availability := unavailable modelNotReady;
     jsonObject := jsonObject (Platform := samplePlatform);
     jsonData := jsonData (Platform := samplePlatform);
     decodeMessages := decodeMessages (Platform := samplePlatform);
     describing := describing (Platform := samplePlatform);
     schemaError := schemaError (Platform := samplePlatform);
     uuidString := uuidString (Platform := samplePlatform);
     respond := respond (Platform := samplePlatform);
     respondStructured := respondStructured (Platform := samplePlatform);
     streamResponse := streamResponse (Platform := samplePlatform);
     characters := sampleCharacters |}.

(** The sample platform with a model whose text begins with the character
    NUL. *)
Definition nulPlatform : Platform :=
  {| availability := available;
     jsonObject := jsonObject (Platform := samplePlatform);
     jsonData := jsonData (Platform := samplePlatform);
     decodeMessages := decodeMessages (Platform := samplePlatform);
     describing := describing (Platform := samplePlatform);
     schemaError := schemaError (Platform := samplePlatform);
     uuidString := uuidString (Platform := samplePlatform);
     respond := respond (Platform := samplePlatform);
     respondStructured := respondStructured (Platform := samplePlatform);
     streamResponse := fun _ _ _ _ =>
       {| streamEvents := [snapshot (String SwiftString.NUL EmptyString);
                           snapshot (String SwiftString.NUL "abc")];
          streamFailure := None |};
     characters := sampleCharacters |}.

Section ForwardedCalls.
Context `{Platform}.

(** A call forwarded to the JavaScript callback and the record collected
    for it: they have the same tool id; the text forwarded is the C
    string of the JSON text of the arguments; and the arguments collected
    are those arguments when they are a dictionary, the empty dictionary
    when they are not. *)
Definition sameCall (sent : Z * string) (record : ToolCallRecord) : Prop :=
  exists arguments jsonStr,
    jsonData arguments = Returned jsonStr
    /\ sent = (recordID record, SwiftString.withCString jsonStr)
    /\ recordArguments record
       = match arguments with JObject dict => dict | _ => [] end.

(** What tool calls do to the globals: the callback stays as it is, and
    the calls forwarded to it are the calls collected, one for one. *)
Definition extends (g g' : Globals) : Prop :=
  jsToolCallback g' = jsToolCallback g
  /\ exists sent records,
       forwarded g' = forwarded g ++ sent
       /\ collected g' = collected g ++ records
       /\ Forall2 sameCall sent records.

End ForwardedCalls.

(** ** The schema compiler ([convertJSONSchemaToDynamic],
    [buildSchemasFromJson])

    The compiler turns the dictionary of a JSON schema into the
    [DynamicGenerationSchema] values the platform builds a
    [GenerationSchema] from. Where the code walks a dictionary with
    [for (key, value) in], the model walks its entries in the order of the
    list; Swift leaves that order open. *)

(** The name a schema is created with: the name handed down, or a fresh
    [UUID().uuidString]. *)
Inductive SchemaName :=
| named (name : string)
| freshUUID.

Inductive PrimitiveType :=
| StringType
| DoubleType
| IntType
| BoolType.

(** [DynamicGenerationSchema], as the initialiser it is made with, and
    [DynamicGenerationSchema.Property]. *)
Inductive DynamicGenerationSchema :=
| referenceTo (name : string)
| anyOfStrings (name : SchemaName) (description : option string)
               (choices : list string)
| anyOfSchemas (name : SchemaName) (description : option string)
               (choices : list DynamicGenerationSchema)
| ofType (type : PrimitiveType)
| arrayOf (itemSchema : DynamicGenerationSchema)
          (minimumElements maximumElements : option Z)
| objectSchema (name : string) (description : option string)
               (properties : list Property)
with Property :=
| mkProperty (propertyName : string) (propertyDescription : option string)
             (propertySchema : DynamicGenerationSchema) (isOptional : bool).

(** The bridging of a JSON number to [Int] ([as? Int]), which Foundation
    also grants to booleans and to doubles without a fraction. *)
Class Bridging := {
  asInt : option JSON -> option Z
}.

(** [value as? [String]]: every element has to be a string. *)
Definition asStrings (value : option JSON) : option (list string) :=
  match value with
  | Some (JArray items) => mapM (fun item => asString (Some item)) items
  | _ => None
  end.

(** [name ?? UUID().uuidString]. *)
Definition orFreshUUID (name : option string) : SchemaName :=
  match name with Some name => named name | None => freshUUID end.

(** [if let enums = choice["enum"] as? [String], enums.count == 1]: the
    one value. *)
Definition singleEnum (choice : Dictionary) : option string :=
  match asStrings (subscript choice "enum") with
  | Some [value] => Some value
  | _ => None
  end.

(** The recursive calls of the compiler are made on dictionaries found
    inside the dictionary it is given. The helpers below find them; [f]
    stands for the recursive call and is handed the dictionary as the JSON
    value it is. *)

(** [(dict[key] as? [String: Any]).map(f)]. *)
Fixpoint dictionaryAt {A : Type} (f : JSON -> A) (dict : Dictionary)
    (key : string) : option A :=
  match dict with
  | [] => None
  | (k, v) :: dict' =>
      if String.eqb k key
      then match v with JObject _ => Some (f v) | _ => None end
      else dictionaryAt f dict' key
  end.

(** [f] on every element of an array of dictionaries; [None] when an
    element is no dictionary. *)
Fixpoint eachDictionary {A : Type} (f : JSON -> A) (items : list JSON)
    : option (list A) :=
  match items with
  | [] => Some []
  | (JObject _ as item) :: rest =>
      match eachDictionary f rest with
      | Some results => Some (f item :: results)
      | None => None
      end
  | _ :: _ => None
  end.

(** [(dict[key] as? [[String: Any]]).map { $0.map(f) }]. *)
Fixpoint dictionariesAt {A : Type} (f : JSON -> A) (dict : Dictionary)
    (key : string) : option (list A) :=
  match dict with
  | [] => None
  | (k, v) :: dict' =>
      if String.eqb k key
      then match v with JArray items => eachDictionary f items | _ => None end
      else dictionariesAt f dict' key
  end.

(** The loop over [properties]: [f] on every entry whose value is a
    dictionary; the other entries are skipped. *)
Fixpoint eachProperty {A : Type} (f : string -> JSON -> A)
    (properties : Dictionary) : list A :=
  match properties with
  | [] => []
  | (propName, (JObject _ as subSchemaAny)) :: rest =>
      f propName subSchemaAny :: eachProperty f rest
  | _ :: rest => eachProperty f rest
  end.

(** [(dict[key] as? [String: Any]).map { eachProperty(f, $0) }]. *)
Fixpoint propertiesAt {A : Type} (f : string -> JSON -> A)
    (dict : Dictionary) (key : string) : option (list A) :=
  match dict with
  | [] => None
  | (k, v) :: dict' =>
      if String.eqb k key
      then match v with
           | JObject properties => Some (eachProperty f properties)
           | _ => None
           end
      else propertiesAt f dict' key
  end.

Section SchemaCompiler.
Context `{Bridging}.

(** [convertJSONSchemaToDynamic] on the JSON value of the dictionary. A
    value that is no dictionary is never passed: the helpers above call
    [f] on dictionaries only. *)
Fixpoint convertSchema (schema : JSON) (name : option string) {struct schema}
    : DynamicGenerationSchema :=
  match schema with
  | JObject dict =>
      match asString (subscript dict "$ref") with
      | Some ref => referenceTo ref
      | None =>
          match
            dictionariesAt
              (fun choice =>
                 (singleEnum (default [] (asDictionary (Some choice))),
                  convertSchema choice None))
              dict "anyOf"
          with
          | Some anyOf =>
              let stringChoices := omap fst anyOf in
              let dynamicChoices :=
                omap (fun choice =>
                        match fst choice with
                        | Some _ => None
                        | None => Some (snd choice)
                        end)
                     anyOf in
              if negb (bool_decide (stringChoices = []))
                 && bool_decide (length dynamicChoices = 0%nat)
              then anyOfStrings (orFreshUUID name)
                                (asString (subscript dict "description"))
                                stringChoices
              else
                let choices :=
                  if bool_decide (length dynamicChoices = 0%nat)
                  then map snd anyOf else dynamicChoices in
                anyOfSchemas (orFreshUUID name)
                             (asString (subscript dict "description")) choices
          | None =>
              match asStrings (subscript dict "enum") with
              | Some enums =>
                  anyOfStrings (orFreshUUID name)
                               (asString (subscript dict "description")) enums
              | None =>
                  match asString (subscript dict "type") with
                  | None => ofType StringType
                  | Some type =>
                      if String.eqb type "string" then ofType StringType
                      else if String.eqb type "number" then ofType DoubleType
                      else if String.eqb type "integer" then ofType IntType
                      else if String.eqb type "boolean" then ofType BoolType
                      else if String.eqb type "array" then
                        match
                          dictionaryAt (fun items => convertSchema items None)
                                       dict "items"
                        with
                        | Some itemSchema =>
                            arrayOf itemSchema
                                    (asInt (subscript dict "minItems"))
                                    (asInt (subscript dict "maxItems"))
                        | None => arrayOf (ofType StringType) None None
                        end
                      else if String.eqb type "object" then
                        let required :=
                          default [] (asStrings (subscript dict "required")) in
                        let props :=
                          default []
                            (propertiesAt
                               (fun propName subSchema =>
                                  mkProperty propName
                                    (asString
                                       (subscript
                                          (default []
                                             (asDictionary (Some subSchema)))
                                          "description"))
                                    (convertSchema subSchema (Some propName))
                                    (negb (bool_decide (propName ∈ required))))
                               dict "properties") in
                        objectSchema (default "Object" name)
                                     (asString (subscript dict "description"))
                                     props
                      else ofType StringType
                  end
              end
          end
      end
  | _ => ofType StringType
  end.

Definition convertJSONSchemaToDynamic (dict : Dictionary)
    (name : option string) : DynamicGenerationSchema :=
  convertSchema (JObject dict) name.

(** The root schema and its dependencies. *)
Definition buildSchemasFromJson (json : Dictionary)
    : DynamicGenerationSchema * list DynamicGenerationSchema :=
  let rootNameFromRef :=
    match asString (subscript json "$ref") with
    | Some ref =>
        if String.prefix "#/definitions/" ref
        then Some (SwiftString.dropFirst
                     (SwiftString.count "#/definitions/") ref)
        else None
    | None => None
    end in
  let dependencies :=
    match asDictionary (subscript json "definitions") with
    | Some defs =>
        omap (fun '(name, subAny) =>
                match subAny with
                | JObject subDict =>
                    if bool_decide (rootNameFromRef = Some name) then None
                    else Some (convertJSONSchemaToDynamic subDict (Some name))
                | _ => None
                end)
             defs
    | None => []
    end in
  let fallback :=
    (convertJSONSchemaToDynamic json (asString (subscript json "title")),
     dependencies) in
  match rootNameFromRef with
  | Some name =>
      match asDictionary (subscript json "definitions") with
      | Some defs =>
          match asDictionary (subscript defs name) with
          | Some rootDef =>
              (convertJSONSchemaToDynamic rootDef (Some name), dependencies)
          | None => fallback
          end
      | None => fallback
      end
  | None => fallback
  end.

End SchemaCompiler.

(** The keys of a schema dictionary the compiler reads. *)
Definition schemaKeys : list string :=
  ["$ref"; "anyOf"; "description"; "enum"; "type"; "items"; "minItems";
   "maxItems"; "required"; "properties"].

(** A choice of an [anyOf] that is not an [enum] of one string. *)
Definition notSingleEnum (choice : Dictionary) : bool :=
  match singleEnum choice with Some _ => false | None => true end.

(** The bridging of integers alone. *)
Definition sampleBridging : Bridging :=
  {| asInt := fun value =>
       match value with
       | Some (JNumber n) =>
           if (- 2 ^ 63 <=? n) && (n <=? SwiftInt.max) then Some n else None
       | _ => None
       end |}.

(** ** More of the TypeScript layer *)

(** The tool descriptions sent to the native layer ([toolSchemas]): the
    tool at index [idx] gets the id [idx + 1]. *)
Definition toolSchemas (tools : list EphemeralTool) : list Dictionary :=
  imap (fun idx tool =>
          [("id", JNumber (Z.of_nat idx + 1));
           ("name", JString (ephemeralName tool));
           ("description", JString (default "" (ephemeralDescription tool)));
           ("parameters", jsonSchema tool)])
       tools.

(** A stream event that ends a request of [streamChatWithExternalTools]:
    an error, or the [null] or empty chunk. *)
Definition endsStream (e : BridgeEvent) : bool :=
  match e with
  | streamed (Some _) _ => true
  | streamed None (Some (String _ _)) => false
  | streamed None _ => true
  | _ => false
  end.

(** The tool invocations that reach the tool callback: those before the
    stream ends, after which the callback is cleared. *)
Fixpoint invocationsBeforeEnd (events : list BridgeEvent) : nat :=
  match events with
  | [] => 0
  | e :: rest =>
      if endsStream e then 0%nat
      else match e with
           | toolInvoked _ _ _ _ => S (invocationsBeforeEnd rest)
           | _ => invocationsBeforeEnd rest
           end
  end.

(** The UUIDs drawn for the tool invocations of a request. *)
Definition uuidsDrawn (events : list BridgeEvent) : list string :=
  omap (fun e => match e with
                 | toolInvoked _ _ _ uuid => Some uuid
                 | _ => None
                 end)
       events.

(** *** The consumer of [streamResponse]

    A consumer calls [next()] and the native layer calls [handleChunk], in
    any order. [pendingResolve] and [pendingReject] belong to the promise
    of the last [next()] that had to wait; a promise is settled by the
    first call of one of them, and later calls do nothing. *)

Inductive IteratorEvent :=
| chunkArrived (err : option string) (chunk : option string)
| nextCalled.

(** The iterator, whether the promise of the last waiting [next()] is
    still unsettled, and the results the consumer has got, in order. *)
Record Consumer := mkConsumer {
  iterator : StreamIterator;
  unsettled : bool;
  received : list IteratorResult
}.

Definition consumerStep (c : Consumer) (e : IteratorEvent) : Consumer :=
  match e with
  | nextCalled =>
      match next (iterator c) with
      | (it, Some settledAtOnce) =>
          {| iterator := it; unsettled := unsettled c;
             received := received c ++ [settledAtOnce] |}
      | (it, None) =>
          {| iterator := it; unsettled := true; received := received c |}
      end
  | chunkArrived err chunk =>
      let it := handleChunk err chunk (iterator c) in
      match drop (length (signalled (iterator c))) (signalled it) with
      | settles :: _ =>
          if unsettled c
          then {| iterator := it; unsettled := false;
                  received := received c ++ [settles] |}
          else {| iterator := it; unsettled := false;
                  received := received c |}
      | [] =>
          {| iterator := it; unsettled := unsettled c;
             received := received c |}
      end
  end.

Definition newConsumer : Consumer :=
  {| iterator := newIterator; unsettled := false; received := [] |}.

Definition consume (events : list IteratorEvent) : Consumer :=
  foldl consumerStep newConsumer events.

(** The chunks of text among the events, in order. *)
Definition textArrived (events : list IteratorEvent) : list string :=
  omap (fun e => match e with
                 | chunkArrived None (Some (String c rest)) =>
                     Some (String c rest)
                 | _ => None
                 end)
       events.

(** The values among the results a consumer has got. *)
Definition valuesOf (results : list IteratorResult) : list string :=
  omap (fun r => match r with yielded value => Some value | _ => None end)
       results.

Definition isThrown (r : IteratorResult) : bool :=
  match r with thrown _ => true | _ => false end.

(** The calls a bridge has answered or holds pending. *)
Definition accounted (b : Bridge) : nat :=
  (length (toolResults b) + size (pendingToolCalls b))%nat.

(** What holds of a consumer after any events. *)
Definition consistent (c : Consumer) (events : list IteratorEvent) : Prop :=
  unsettled c = pendingResolve (iterator c)
  /\ (pendingResolve (iterator c) = true ->
      pendingReject (iterator c) = true /\ queue (iterator c) = []
      /\ done (iterator c) = false)
  /\ (error (iterator c) <> None -> done (iterator c) = true)
  /\ valuesOf (received c) ++ queue (iterator c) = textArrived events.

(** *** [streamChatForVercelAISDK] *)

(** An entry of [collectedToolCalls]. *)
Record CollectedToolCall := mkCollectedToolCall {
  collectedId : Z;
  collectedToolName : string;
  collectedArgs : JSON
}.

(** The state of one request of [streamChatForVercelAISDK]: the calls of
    [toolBindings.toolResult] so far, [collectedToolCalls], what was pushed
    to [readable], the error [readable] was destroyed with,
    [generationComplete], and whether the tool callback is registered. *)
Record Vercel := mkVercel {
  vercelToolResults : list (Z * string);
  collectedToolCalls : list CollectedToolCall;
  vercelReadable : list Pushed;
  vercelDestroyed : option string;
  generationComplete : bool;
  vercelRegistered : bool
}.

Section VercelBridge.
Context `{JavaScript}.

(** [toolBindings.toolResult(id, resultJson)]. *)
Definition vercelToolResult (id : Z) (resultJson : string) (v : Vercel)
    : Vercel :=
  {| vercelToolResults := vercelToolResults v ++ [(id, resultJson)];
     collectedToolCalls := collectedToolCalls v;
     vercelReadable := vercelReadable v;
     vercelDestroyed := vercelDestroyed v;
     generationComplete := generationComplete v;
     vercelRegistered := vercelRegistered v |}.

(** The tool callback [streamChatForVercelAISDK] registers. *)
Definition vercelToolCallback (tools : list EphemeralTool)
    (err : option string) (id : Z) (argsJson : string) (v : Vercel)
    : Vercel :=
  match err with
  | Some _ => vercelToolResult id "{}" v
  | None =>
      match toolAt tools id with
      | None => vercelToolResult id "{}" v
      | Some tool =>
          match JSON_parse argsJson with
          | Returned args =>
              vercelToolResult id "{}"
                {| vercelToolResults := vercelToolResults v;
                   collectedToolCalls :=
                     collectedToolCalls v
                     ++ [{| collectedId := id;
                            collectedToolName := ephemeralName tool;
                            collectedArgs := args |}];
                   vercelReadable := vercelReadable v;
                   vercelDestroyed := vercelDestroyed v;
                   generationComplete := generationComplete v;
                   vercelRegistered := vercelRegistered v |}
          | Threw _ => vercelToolResult id "{}" v
          end
      end
  end.

(** [finishWithToolCalls]; [randomUUID k] is what the call of
    [crypto.randomUUID()] for the collected call of index [k] returns. *)
Definition finishWithToolCalls (randomUUID : nat -> string) (v : Vercel)
    : Vercel :=
  if generationComplete v then v
  else
    {| vercelToolResults := vercelToolResults v;
       collectedToolCalls := collectedToolCalls v;
       vercelReadable :=
         vercelReadable v
         ++ imap (fun k call =>
                    toolCallPart ("tool-call-" +:+ randomUUID k)
                                 (collectedToolName call) (collectedArgs call))
                 (collectedToolCalls v)
         ++ [endOfStream];
       vercelDestroyed := vercelDestroyed v;
       generationComplete := true;
       vercelRegistered := false |}.

(** The stream callback of [streamChatForVercelAISDK]. *)
Definition vercelStreamCallback (err : option string)
    (chunk : option string) (randomUUID : nat -> string) (v : Vercel)
    : Vercel :=
  match err with
  | Some e =>
      {| vercelToolResults := vercelToolResults v;
         collectedToolCalls := collectedToolCalls v;
         vercelReadable := vercelReadable v;
         vercelDestroyed := Some e;
         generationComplete := generationComplete v;
         vercelRegistered := false |}
  | None =>
      match chunk with
      | Some (String c rest) =>
          {| vercelToolResults := vercelToolResults v;
             collectedToolCalls := collectedToolCalls v;
             vercelReadable := vercelReadable v ++ [textPart (String c rest)];
             vercelDestroyed := vercelDestroyed v;
             generationComplete := generationComplete v;
             vercelRegistered := vercelRegistered v |}
      | _ => finishWithToolCalls randomUUID v
      end
  end.

(** What happens to a request of [streamChatForVercelAISDK]. The native
    layer calls the tool callback only while it is registered. *)
Inductive VercelEvent :=
| vercelToolInvoked (err : option string) (id : Z) (argsJson : string)
| vercelStreamed (err : option string) (chunk : option string)
                 (randomUUID : nat -> string).

Definition vercelStep (tools : list EphemeralTool) (v : Vercel)
    (e : VercelEvent) : Vercel :=
  match e with
  | vercelToolInvoked err id argsJson =>
      if vercelRegistered v then vercelToolCallback tools err id argsJson v
      else v
  | vercelStreamed err chunk randomUUID =>
      vercelStreamCallback err chunk randomUUID v
  end.

(** The state of a request after [setToolCallback]. *)
Definition vercelStarted : Vercel :=
  {| vercelToolResults := []; collectedToolCalls := [];
     vercelReadable := []; vercelDestroyed := None;
     generationComplete := false; vercelRegistered := true |}.

Definition vercelRun (tools : list EphemeralTool) (events : list VercelEvent)
    : Vercel :=
  foldl (vercelStep tools) vercelStarted events.

(** An event of a generation that goes on: a tool invocation, or a chunk
    of text. *)
Definition goesOn (e : VercelEvent) : bool :=
  match e with
  | vercelToolInvoked _ _ _ => true
  | vercelStreamed None (Some (String _ _)) _ => true
  | vercelStreamed _ _ _ => false
  end.

(** The chunks of text among the events. *)
Definition streamedTexts (events : list VercelEvent) : list string :=
  omap (fun e => match e with
                 | vercelStreamed None (Some (String c rest)) _ =>
                     Some (String c rest)
                 | _ => None
                 end)
       events.

(** The ids of the tool invocations among the events. *)
Definition invokedIds (events : list VercelEvent) : list Z :=
  omap (fun e => match e with
                 | vercelToolInvoked _ id _ => Some id
                 | _ => None
                 end)
       events.

(** The tool invocations among the events that name a tool of the request
    and come with arguments that parse, as the calls collected for
    them. *)
Definition collectable (tools : list EphemeralTool)
    (events : list VercelEvent) : list CollectedToolCall :=
  omap (fun e => match e with
                 | vercelToolInvoked None id argsJson =>
                     match toolAt tools id, JSON_parse argsJson with
                     | Some tool, Returned args =>
                         Some {| collectedId := id;
                                 collectedToolName := ephemeralName tool;
                                 collectedArgs := args |}
                     | _, _ => None
                     end
                 | _ => None
                 end)
       events.

End VercelBridge.

(** *** The messages of the AI SDK model ([apple-ai-chat-model.ts])

    [convertPromptToMessages] turns the prompt of the AI SDK into the
    messages sent to the native layer. A message is given here as the
    Swift layer decodes it from the JSON text of the request:
    [JSON.stringify] writes the fields below and [JSONDecoder] reads them
    back. *)

(** A [tool-result] part of a tool message. *)
Record ToolResultPart := mkToolResultPart {
  resultToolCallId : string;
  resultToolName : string;
  resultOutput : JSON
}.

(** A part of the content of an assistant message. *)
Inductive AssistantPart :=
| assistantText (text : string)
| assistantReasoning (text : string)
| assistantToolCall (toolCallId toolName : string) (input : JSON)
| assistantOther (type : string).

Section ChatModelMessages.
Context `{JavaScript}.

(** The object whose JSON text is the content of a tool message. *)
Definition toolCallsObject (parts : list ToolResultPart) : JSON :=
  JObject
    [("tool_calls",
      JArray
        (map (fun part =>
                JObject
                  [("id", JString (resultToolCallId part));
                   ("toolName", JString (resultToolName part));
                   ("segments",
                    JArray
                      [JObject
                         [("type", JString "text");
                          ("text",
                           JString (JSON_stringify (resultOutput part)))]])])
             parts))].

Definition convertToolMessage (parts : list ToolResultPart) : ChatMessage :=
  {| role := "tool";
     content := Some (JSON_stringify (toolCallsObject parts));
     name := None; tool_call_id := None; tool_calls := None |}.

(** The tool-call parts of a content, as the [tool_calls] of the
    message. *)
Definition assistantToolCalls (parts : list AssistantPart)
    : list Dictionary :=
  omap (fun part =>
          match part with
          | assistantToolCall toolCallId toolName input =>
              Some [("id", JString toolCallId);
                    ("type", JString "function");
                    ("function",
                     JObject [("name", JString toolName);
                              ("arguments",
                               JString (JSON_stringify input))])]
          | _ => None
          end)
       parts.

Definition assistantTexts (parts : list AssistantPart) : list string :=
  omap (fun part =>
          match part with assistantText text => Some text | _ => None end)
       parts.

(** [convertAssistantMessage], on a content that is a string or an array
    of parts. *)
Definition convertAssistantMessage (content : string + list AssistantPart)
    : ChatMessage :=
  match content with
  | inr parts =>
      match assistantToolCalls parts with
      | [] =>
          {| role := "assistant";
             content :=
               Some (String.concat (String (ascii_of_nat 10) "")
                       (map (fun part =>
                               match part with
                               | assistantText text => text
                               | assistantReasoning text => text
                               | assistantToolCall _ _ _ =>
                                   "[unsupported content - tool-call]"
                               | assistantOther type =>
                                   "[unsupported content - " +:+ type +:+ "]"
                               end)
                            parts));
             name := None; tool_call_id := None; tool_calls := None |}
      | toolCalls =>
          {| role := "assistant";
             content :=
               Some (String.concat (String (ascii_of_nat 10) "")
                                   (assistantTexts parts));
             name := None; tool_call_id := None;
             tool_calls := Some toolCalls |}
      end
  | inl text =>
      {| role := "assistant"; content := Some text; name := None;
         tool_call_id := None; tool_calls := None |}
  end.

End ChatModelMessages.

(** The id, the tool name and the input of the tool-call parts of a
    content. *)
Definition toolCallParts (parts : list AssistantPart)
    : list (string * string * JSON) :=
  omap (fun part =>
          match part with
          | assistantToolCall toolCallId toolName input =>
              Some (toolCallId, toolName, input)
          | _ => None
          end)
       parts.

(** *** [streamChatCompletion] and the streams of the AI SDK model *)

(** A [ChatCompletionChunk], without the fields that are the same in
    every chunk of a stream ([id], [object], [created], [model] and the
    index of the one choice): the role and the content of the delta, and
    the finish reason. *)
Record ChatCompletionChunk := mkChatCompletionChunk {
  deltaRole : option string;
  deltaContent : option string;
  finish_reason : option string
}.

Inductive ChatResult :=
| chatYielded (value : ChatCompletionChunk)
| chatFinished
| chatThrown (error : string).

(** The closure variables of the iterator of [streamChatCompletion], and
    the calls it has made to the resolve and reject functions of the
    consumer's promises, in order. *)
Record ChatIterator := mkChatIterator {
  chatQueue : list ChatCompletionChunk;
  chatDone : bool;
  isFirstChunk : bool;
  chatError : option string;
  chatPendingResolve : bool;
  chatPendingReject : bool;
  chatSignalled : list ChatResult
}.

(** [handleChunk] of [streamChatCompletion]. *)
Definition chatHandleChunk (err : option string) (chunk : option string)
    (it : ChatIterator) : ChatIterator :=
  match err with
  | Some e =>
      {| chatQueue := chatQueue it; chatDone := true;
         isFirstChunk := isFirstChunk it; chatError := Some e;
         chatPendingResolve :=
           if chatPendingReject it then false else chatPendingResolve it;
         chatPendingReject := false;
         chatSignalled :=
           if chatPendingReject it then chatSignalled it ++ [chatThrown e]
           else chatSignalled it |}
  | None =>
      let chatChunk :=
        match chunk with
        | Some (String c rest) =>
            {| deltaRole :=
                 if isFirstChunk it then Some "assistant" else None;
               deltaContent := Some (String c rest);
               finish_reason := None |}
        | _ =>
            {| deltaRole := None; deltaContent := None;
               finish_reason := Some "stop" |}
        end in
      let done :=
        match chunk with
        | Some (String _ _) => chatDone it
        | _ => true
        end in
      let first :=
        match chunk with
        | Some (String _ _) => false
        | _ => isFirstChunk it
        end in
      if chatPendingResolve it
      then {| chatQueue := chatQueue it; chatDone := done;
              isFirstChunk := first; chatError := chatError it;
              chatPendingResolve := false; chatPendingReject := false;
              chatSignalled := chatSignalled it ++ [chatYielded chatChunk] |}
      else {| chatQueue := chatQueue it ++ [chatChunk]; chatDone := done;
              isFirstChunk := first; chatError := chatError it;
              chatPendingResolve := false;
              chatPendingReject := chatPendingReject it;
              chatSignalled := chatSignalled it |}
  end.

(** The iterator of a new stream. *)
Definition newChatIterator : ChatIterator :=
  {| chatQueue := []; chatDone := false; isFirstChunk := true;
     chatError := None; chatPendingResolve := false;
     chatPendingReject := false; chatSignalled := [] |}.

(** [next()] of that iterator: the state after, and the result when the
    promise it returns is settled at once. *)
Definition chatNext (it : ChatIterator)
    : ChatIterator * option ChatResult :=
  match chatQueue it with
  | value :: rest =>
      ({| chatQueue := rest; chatDone := chatDone it;
          isFirstChunk := isFirstChunk it; chatError := chatError it;
          chatPendingResolve := chatPendingResolve it;
          chatPendingReject := chatPendingReject it;
          chatSignalled := chatSignalled it |},
       Some (chatYielded value))
  | [] =>
      if chatDone it then (it, Some chatFinished)
      else
        match chatError it with
        | Some e => (it, Some (chatThrown e))
        | None =>
            ({| chatQueue := []; chatDone := false;
                isFirstChunk := isFirstChunk it; chatError := None;
                chatPendingResolve := true; chatPendingReject := true;
                chatSignalled := chatSignalled it |},
             None)
        end
  end.

(** The chunks the native layer hands to [handleChunk] one after the
    other, with no error. *)
Definition chatFeed (chunks : list (option string)) (it : ChatIterator)
    : ChatIterator :=
  foldl (fun it chunk => chatHandleChunk None chunk it) it chunks.

(** A part of the stream of the AI SDK model
    ([LanguageModelV2StreamPart]). *)
Inductive StreamPart :=
| textStreamPart (text : string)
| toolCallStreamPart (toolCallId toolName input : string)
| finishStreamPart (finishReason : string).

(** The parts the loop of [createStreamFromEvents] enqueues for what was
    pushed to the stream of [streamChatForVercelAISDK]. The loop ends at
    the end of the stream, and [finishStream] adds the last part. *)
Fixpoint enqueuedParts `{JavaScript} (pushed : list Pushed)
    : list StreamPart :=
  match pushed with
  | [] => []
  | textPart text :: rest => textStreamPart text :: enqueuedParts rest
  | toolCallPart toolCallId toolName args :: rest =>
      toolCallStreamPart toolCallId toolName (JSON_stringify args)
      :: enqueuedParts rest
  | endOfStream :: _ => [finishStreamPart "stop"]
  end.

(** [createStreamFromEvents] on that stream: the parts of the stream it
    makes. When the stream it reads was destroyed with an error, its
    loop throws that error and the stream it makes is put in error with
    it ([controller.error]): that stream gets no finish part. *)
Definition createStreamFromEvents `{JavaScript} (pushed : list Pushed)
    (destroyed : option string) : Try (list StreamPart) :=
  match destroyed with
  | Some error => Threw error
  | None => Returned (enqueuedParts pushed)
  end.

(** The loop of [createStreamFromChunks] on a stream that is done: what
    [next()] hands over, call after call, until it reports the end; the
    parts enqueued for it; and whether the loop got to the end of the
    stream. The loop makes at most [calls] calls. *)
Fixpoint chunkLoop (calls : nat) (it : ChatIterator)
    : list StreamPart * bool :=
  match calls with
  | O => ([], false)
  | S calls' =>
      match chatNext it with
      | (it', Some (chatYielded chunk)) =>
          let '(parts, ended) := chunkLoop calls' it' in
          match deltaContent chunk with
          | Some (String c rest) => (textStreamPart (String c rest) :: parts, ended)
          | _ => (parts, ended)
          end
      | (_, Some chatFinished) => ([], true)
      | (_, _) => ([], false)
      end
  end.

(** [createStreamFromChunks] on a stream that is done, when the loop gets
    to its end within [calls] calls: the parts of the loop, then
    [finishStream]. *)
Definition createStreamFromChunks (calls : nat) (it : ChatIterator)
    : option (list StreamPart) :=
  match chunkLoop calls it with
  | (parts, true) => Some (parts ++ [finishStreamPart "stop"])
  | (_, false) => None
  end.

(** The chunk made for a chunk of text, and the final chunk. *)
Definition contentChunk (first : bool) (text : string) : ChatCompletionChunk :=
  {| deltaRole := if first then Some "assistant" else None;
     deltaContent := Some text; finish_reason := None |}.

Definition stopChunk : ChatCompletionChunk :=
  {| deltaRole := None; deltaContent := None; finish_reason := Some "stop" |}.

(** The chunks made for the texts of a response: the first carries the
    role. *)
Definition contentChunks (data : list string) : list ChatCompletionChunk :=
  match data with
  | [] => []
  | text :: rest => contentChunk true text :: map (contentChunk false) rest
  end.

(** * Part II: lemmas and theorems *)

(** ** The streaming coordinator *)

Section CoordinatorFacts.
Import StreamingCoordinator.

Lemma succ_Some (x : Z) : x < SwiftInt.max -> SwiftInt.succ x = Some (x + 1).
Proof.
  unfold SwiftInt.succ. intros Hlt.
  apply Z.ltb_lt in Hlt. now rewrite Hlt.
Qed.

Lemma completions_cons (c : Call) (calls : list Call) :
  completions (c :: calls)
  = (if isToolCompleted c then S (completions calls) else completions calls).
Proof. unfold completions. simpl. now destruct (isToolCompleted c). Qed.

Lemma completions_app (calls more : list Call) :
  completions (calls ++ more) = (completions calls + completions more)%nat.
Proof.
  unfold completions. rewrite List.filter_app. apply length_app.
Qed.

Lemma run_app (calls more : list Call) (st : State) :
  run (calls ++ more) st = st' ← run calls st; run more st'.
Proof.
  revert st. induction calls as [|c calls IH]; intros st; simpl; [done|].
  destruct (step c st) as [st1|]; simpl; [apply IH | done].
Qed.

(** A history without [reset] only counts: it succeeds unless the counter
    overflows, keeps the flag and adds its completions to the counter. *)
Lemma run_resetFree (calls : list Call) (st : State) :
  resetFree calls = true ->
  completedToolCount st + Z.of_nat (completions calls) <= SwiftInt.max ->
  exists st',
    run calls st = Some st'
    /\ shouldStopAfterTools st' = shouldStopAfterTools st
    /\ completedToolCount st'
       = completedToolCount st + Z.of_nat (completions calls).
Proof.
  revert st. induction calls as [|c calls IH]; intros st Hfree Hmax.
  - exists st. simpl. change (completions []) with 0%nat.
    repeat split; lia.
  - simpl in Hfree. apply andb_true_iff in Hfree as [Hc Hfree].
    rewrite completions_cons in Hmax.
    destruct c; simpl in Hc; try discriminate; simpl in Hmax.
    + (* toolCompleted *)
      simpl. unfold toolCompleted.
      rewrite succ_Some by lia. simpl.
      edestruct IH as (st' & Hrun & Hstop & Hcount); [exact Hfree | | ].
      2:{ exists st'. rewrite Hrun. split; [done|]. simpl in *.
          rewrite Hstop, Hcount, completions_cons. simpl. split; [done | lia]. }
      simpl. lia.
    + destruct (IH st Hfree Hmax) as (st' & Hrun & Hstop & Hcount).
      exists st'. simpl. rewrite completions_cons. simpl. auto.
    + destruct (IH st Hfree Hmax) as (st' & Hrun & Hstop & Hcount).
      exists st'. simpl. rewrite completions_cons. simpl. auto.
Qed.

(** The answer of the coordinator after any history, in terms of the last
    [reset] of the history. *)
Lemma run_sinceLastReset (calls : list Call) (st : State) :
  0 <= completedToolCount st ->
  completedToolCount st + Z.of_nat (completions calls) <= SwiftInt.max ->
  exists st',
    run calls st = Some st'
    /\ shouldTerminateStream st'
       = match sinceLastReset calls with
         | (Some stop, since) => stop && (0 <? Z.of_nat (completions since))
         | (None, since) =>
             shouldStopAfterTools st
             && (0 <? completedToolCount st + Z.of_nat (completions since))
         end.
Proof.
  revert st. induction calls as [|c calls IH]; intros st Hpos Hmax.
  - exists st. split; [done|]. simpl. change (completions []) with 0%nat.
    unfold shouldTerminateStream. now rewrite Z.add_0_r.
  - rewrite completions_cons in Hmax.
    assert (Hstep : exists st1, step c st = Some st1
              /\ 0 <= completedToolCount st1
              /\ completedToolCount st1 + Z.of_nat (completions calls)
                 <= SwiftInt.max
              /\ (isReset c = false ->
                  shouldStopAfterTools st1 = shouldStopAfterTools st
                  /\ completedToolCount st1
                     = completedToolCount st
                       + (if isToolCompleted c then 1 else 0))).
    { destruct c; simpl in *.
      - eexists. split; [done|]. simpl. repeat split; try lia; discriminate.
      - unfold toolCompleted. rewrite succ_Some by lia. simpl.
        eexists. split; [done|]. simpl. repeat split; lia.
      - exists st. repeat split; lia.
      - exists st. repeat split; lia. }
    destruct Hstep as (st1 & Hs & Hpos1 & Hmax1 & Hkeep).
    destruct (IH st1 Hpos1 Hmax1) as (st' & Hrun & Hans).
    exists st'. simpl. rewrite Hs. simpl. split; [exact Hrun|].
    rewrite Hans. destruct (sinceLastReset calls) as [[stop|] since];
      [done|].
    destruct c; simpl in *.
    + injection Hs as <-. simpl. done.
    + destruct (Hkeep eq_refl) as [-> ->]. rewrite completions_cons. simpl.
      f_equal. f_equal. lia.
    + destruct (Hkeep eq_refl) as [-> ->]. rewrite completions_cons. simpl.
      f_equal. f_equal. lia.
    + destruct (Hkeep eq_refl) as [-> ->]. rewrite completions_cons. simpl.
      f_equal. f_equal. lia.
Qed.

(** C3. After [reset(expectedTools, stopAfterToolCalls)] and any calls
    without a further [reset] (short of overflowing the counter), the
    coordinator answers [shouldTerminateStream() = true] if and only if
    [stopAfterToolCalls] is true and at least one [toolCompleted()] came
    since that [reset], whatever [expectedTools] is; and once it answers
    true it still answers true after any more calls without [reset]. *)
Theorem shouldTerminate_after_reset
    (st0 : State) (expectedTools : Z) (stop : bool)
    (calls more : list Call) :
  resetFree calls = true ->
  resetFree more = true ->
  Z.of_nat (completions (calls ++ more)) <= SwiftInt.max ->
  exists st st',
    run calls (reset expectedTools stop st0) = Some st
    /\ run more st = Some st'
    /\ (shouldTerminateStream st = true
        <-> stop = true /\ (0 < completions calls)%nat)
    /\ (shouldTerminateStream st = true -> shouldTerminateStream st' = true).
Proof.
  intros Hcalls Hmore Hmax. rewrite completions_app in Hmax.
  destruct (run_resetFree calls (reset expectedTools stop st0) Hcalls)
    as (st & Hrun & Hstop & Hcount); [simpl; lia|].
  destruct (run_resetFree more st Hmore) as (st' & Hrun' & Hstop' & Hcount');
    [rewrite Hcount; simpl; lia|].
  exists st, st'. split; [exact Hrun|]. split; [exact Hrun'|].
  simpl in Hstop, Hcount.
  unfold shouldTerminateStream.
  rewrite Hstop', Hcount', Hstop, Hcount. split.
  - rewrite andb_true_iff, Z.ltb_lt. split; intros [Hs Hc]; (split; [done | lia]).
  - rewrite !andb_true_iff, !Z.ltb_lt. intros [Hs Hc]. split; [done | lia].
Qed.

Lemma shouldTerminate_after_reset_witness :
  exists st st',
    run [callToolCompleted] (reset 3 true initial) = Some st
    /\ run [callShouldTerminateStream; callToolCompleted] st = Some st'
    /\ (shouldTerminateStream st = true
        <-> true = true /\ (0 < completions [callToolCompleted])%nat)
    /\ (shouldTerminateStream st = true -> shouldTerminateStream st' = true).
Proof.
  apply (shouldTerminate_after_reset initial 3 true [callToolCompleted]
           [callShouldTerminateStream; callToolCompleted]).
  - reflexivity.
  - reflexivity.
  - vm_compute. discriminate.
Defined.

(** C6, as stated, fails: request 0 resets the coordinator with
    [stopAfterToolCalls = true] and none of its tools completes; a tool of
    request 1 completes. Request 0 then reads [true], and would read
    [false] had request 1 done nothing. *)
Lemma coordinator_not_isolated :
  observed 0%nat [(0%nat, callReset 1 true); (1%nat, callToolCompleted)] initial
  = Some true
  /\ observed 0%nat
       (withoutRequest 1%nat
          [(0%nat, callReset 1 true); (1%nat, callToolCompleted)])
       initial
     = Some false.
Proof. split; reflexivity. Qed.

(** C6, amended. There is one coordinator for the process: after any
    history of calls by any requests (short of overflowing the counter),
    every request reads the same answer from [shouldTerminateStream()],
    and that answer is the [stopAfterToolCalls] flag of the most recent
    [reset], by whichever request, and whether at least one tool, of
    whichever request, completed since. *)
Theorem shared_coordinator_observation
    (a b : RequestID) (history : list (RequestID * Call)) :
  Z.of_nat (completions (map snd history)) <= SwiftInt.max ->
  observed a history initial = observed b history initial
  /\ observed a history initial
     = Some match sinceLastReset (map snd history) with
            | (Some stop, since) => stop && (0 <? Z.of_nat (completions since))
            | (None, since) => false
            end.
Proof.
  intros Hmax. split; [reflexivity|].
  unfold observed, runShared.
  destruct (run_sinceLastReset (map snd history) initial) as (st & Hrun & Hans);
    [simpl; lia | simpl; lia |].
  rewrite Hrun. simpl. rewrite Hans.
  now destruct (sinceLastReset (map snd history)) as [[stop|] since].
Qed.

Lemma shared_coordinator_observation_witness :
  observed 0%nat [(0%nat, callReset 1 true); (1%nat, callToolCompleted)] initial
  = observed 1%nat [(0%nat, callReset 1 true); (1%nat, callToolCompleted)] initial
  /\ observed 0%nat [(0%nat, callReset 1 true); (1%nat, callToolCompleted)] initial
     = Some match sinceLastReset
                    (map snd [(0%nat, callReset 1 true);
                              (1%nat, callToolCompleted)]) with
            | (Some stop, since) => stop && (0 <? Z.of_nat (completions since))
            | (None, since) => false
            end.
Proof.
  apply (shared_coordinator_observation 0%nat 1%nat
           [(0%nat, callReset 1 true); (1%nat, callToolCompleted)]).
  vm_compute. discriminate.
Defined.

(** One completed tool is enough, whatever number of tools is expected. *)
Example first_completed_tool_terminates :
  shouldTerminateStream <$> run [callToolCompleted] (reset 5 true initial)
  = Some true.
Proof. reflexivity. Qed.

(** Without [stopAfterToolCalls] no number of completed tools terminates. *)
Example no_termination_without_flag :
  shouldTerminateStream
  <$> run [callToolCompleted; callToolCompleted] (reset 2 false initial)
  = Some false.
Proof. reflexivity. Qed.

End CoordinatorFacts.

(** The shared coordinator at work in the bridge: a streamed request with
    tools has reset the coordinator and none of its tools has run; a tool
    of another request runs; the first snapshot of the first request is
    then dropped and its loop ends early. *)
Example foreign_tool_ends_stream :
  let tool :=
    {| toolID := 1; toolName := "add"; toolDescription := "";
       parametersSchema := {| schemaSource := [] |} |} in
  let g :=
    {| jsToolCallback := true; forwarded := []; collected := [];
       coordinator :=
         StreamingCoordinator.reset 1 true StreamingCoordinator.initial |} in
  (toolsStreamLoop (H := samplePlatform) true [snapshot "Hello"] "" g).1
  = ([Some "Hello"], exhausted)
  /\ (g' ← snd <$> call (H := samplePlatform) tool (JObject []) g;
      Some (toolsStreamLoop (H := samplePlatform) true [snapshot "Hello"] "" g').1)
     = Some ([], terminatedEarly).
Proof. split; vm_compute; reflexivity. Qed.

(** ** The transcript builder *)

Section TranscriptFacts.
Context `{Platform}.

Lemma lowercased_tool (s : string) :
  String.eqb (SwiftString.lowercased s) "tool" = false ->
  String.eqb s "tool" = false.
Proof.
  intros Hlow. destruct (String.eqb s "tool") eqn:E; [|done].
  apply String.eqb_eq in E. subst s. discriminate Hlow.
Qed.

Lemma toolOutputRecords_not_tool (message : ChatMessage) :
  isTool message = false -> toolOutputRecords message = [].
Proof.
  intros Hrole. unfold toolOutputRecords.
  now rewrite (lowercased_tool _ Hrole).
Qed.

Lemma isSystem_not_tool (message : ChatMessage) :
  isSystem message = true -> isTool message = false.
Proof.
  unfold isSystem, isTool. intros Hsys. apply String.eqb_eq in Hsys.
  now rewrite Hsys.
Qed.

Lemma emittedToolOutputs_app (entries more : list Entry) :
  emittedToolOutputs (entries ++ more)
  = emittedToolOutputs entries ++ emittedToolOutputs more.
Proof. apply omap_app. Qed.

Lemma createAssistantEntry_not_output (message : ChatMessage) :
  emittedToolOutputs [createAssistantEntry message] = []
  /\ isInstructions (createAssistantEntry message) = false.
Proof.
  unfold createAssistantEntry.
  destruct (tool_calls message) as [calls|];
    [destruct (negb (bool_decide (calls = [])) && forallb namesFunction calls)|];
    try destruct (legacyToolCalls message); auto.
Qed.

(** The [filter] keeps, of the records of a tool message, those whose id
    is new, and adds their ids to the set. *)
Lemma filterSeen_records (seen : gset string) (records : list ToolOutput) :
  filterSeen seen (map toolOutputEntry records)
  = (map toolOutputEntry (keepFirstByID seen records),
     seen ∪ list_to_set (map outputID records)).
Proof.
  revert seen. induction records as [|record rest IH]; intros seen; simpl.
  - f_equal. set_solver.
  - destruct (decide (outputID record ∈ seen)) as [Hin|Hnew].
    + rewrite IH. f_equal. set_solver.
    + rewrite IH. simpl. f_equal. set_solver.
Qed.

Lemma keepFirstByID_app (seen : gset string) (records more : list ToolOutput) :
  keepFirstByID seen (records ++ more)
  = keepFirstByID seen records
    ++ keepFirstByID (seen ∪ list_to_set (map outputID records)) more.
Proof.
  revert seen. induction records as [|record rest IH]; intros seen; simpl.
  - f_equal. set_solver.
  - destruct (decide (outputID record ∈ seen)) as [Hin|Hnew].
    + rewrite IH. do 2 f_equal. set_solver.
    + rewrite IH. simpl. do 3 f_equal. set_solver.
Qed.

Lemma emittedToolOutputs_map (records : list ToolOutput) :
  emittedToolOutputs (map toolOutputEntry records) = records.
Proof. induction records as [|r rest IH]; simpl; [done | now f_equal]. Qed.

(** One turn of the loop: the entries so far stay, and the tool outputs
    appended are the records of the message with a new id. *)
Lemma appendMessage_spec (entries : list Entry) (seen : gset string)
    (message : ChatMessage) :
  isSystem message = false ->
  exists appended,
    appendMessage (entries, seen) message
    = (entries ++ appended,
       seen ∪ list_to_set (map outputID (toolOutputRecords message)))
    /\ emittedToolOutputs appended
       = keepFirstByID seen (toolOutputRecords message)
    /\ forallb (fun e => negb (isInstructions e)) appended = true
    /\ (isTool message = false -> appended = [entryOf message]).
Proof.
  intros Hsys. unfold appendMessage, entryOf, isTool.
  destruct (String.eqb (SwiftString.lowercased (role message)) "user") eqn:Eu.
  { apply String.eqb_eq in Eu. rewrite Eu. simpl.
    rewrite toolOutputRecords_not_tool by (unfold isTool; now rewrite Eu).
    eexists. split; [f_equal; set_solver|]. done. }
  destruct (String.eqb (SwiftString.lowercased (role message)) "assistant")
    eqn:Ea.
  { apply String.eqb_eq in Ea.
    rewrite toolOutputRecords_not_tool by (unfold isTool; now rewrite Ea).
    rewrite Ea. simpl. eexists. split; [f_equal; set_solver|].
    destruct (createAssistantEntry_not_output message) as [Hout Hins].
    rewrite Hout. simpl. rewrite Hins. done. }
  destruct (String.eqb (SwiftString.lowercased (role message)) "tool") eqn:Et.
  { unfold createToolOutputEntry. rewrite filterSeen_records.
    eexists. split; [reflexivity|]. rewrite emittedToolOutputs_map.
    split; [done|]. split; [|done].
    induction (keepFirstByID seen (toolOutputRecords message)); simpl; auto. }
  rewrite toolOutputRecords_not_tool by (unfold isTool; now rewrite Et).
  eexists. split; [f_equal; set_solver|]. done.
Qed.

Lemma foldl_appendMessage (messages : list ChatMessage)
    (entries : list Entry) (seen : gset string) :
  forallb (fun m => negb (isSystem m)) messages = true ->
  exists appended,
    foldl appendMessage (entries, seen) messages
    = (entries ++ appended,
       seen ∪ list_to_set (map outputID (carriedRecords messages)))
    /\ emittedToolOutputs appended
       = keepFirstByID seen (carriedRecords messages)
    /\ forallb (fun e => negb (isInstructions e)) appended = true
    /\ (forall m, In m messages -> isTool m = false -> In (entryOf m) appended).
Proof.
  revert entries seen.
  induction messages as [|message rest IH]; intros entries seen Hall.
  - exists []. simpl. rewrite app_nil_r. split; [f_equal; set_solver|].
    repeat split; auto.
  - simpl in Hall. apply andb_true_iff in Hall as [Hm Hrest].
    apply negb_true_iff in Hm.
    destruct (appendMessage_spec entries seen message Hm)
      as (first & Hstep & Hout & Hins & Hent).
    change (foldl appendMessage (entries, seen) (message :: rest))
      with (foldl appendMessage (appendMessage (entries, seen) message) rest).
    rewrite Hstep.
    destruct (IH (entries ++ first)
                 (seen ∪ list_to_set (map outputID (toolOutputRecords message)))
                 Hrest)
      as (more & Hfold & Hout' & Hins' & Hent').
    exists (first ++ more). rewrite Hfold.
    unfold carriedRecords in *. simpl.
    split; [|split; [|split]].
    + rewrite <- app_assoc. f_equal. rewrite map_app, list_to_set_app_L.
      set_solver.
    + rewrite emittedToolOutputs_app, Hout, Hout'. symmetry.
      apply keepFirstByID_app.
    + rewrite forallb_app, Hins, Hins'. done.
    + intros m [<-|Hin] Hrole; apply in_or_app.
      * left. rewrite (Hent Hrole). now left.
      * right. now apply Hent'.
Qed.

Lemma filter_not_system (messages : list ChatMessage) :
  forallb (fun m => negb (isSystem m))
          (List.filter (fun message => negb (isSystem message)) messages)
  = true.
Proof.
  apply forallb_forall. intros m Hin. now apply List.filter_In in Hin as [_ ?].
Qed.

Lemma carriedRecords_filter (messages : list ChatMessage) :
  carriedRecords
    (List.filter (fun message => negb (isSystem message)) messages)
  = carriedRecords messages.
Proof.
  unfold carriedRecords. induction messages as [|m rest IH]; simpl; [done|].
  destruct (isSystem m) eqn:E; simpl.
  - rewrite (toolOutputRecords_not_tool m) by now apply isSystem_not_tool.
    exact IH.
  - now rewrite IH.
Qed.

(** What [convertMessagesToTranscript] returns. *)
Lemma convertMessagesToTranscript_spec (messages : list ChatMessage) :
  emittedToolOutputs (convertMessagesToTranscript messages)
  = keepFirstByID ∅ (carriedRecords messages)
  /\ forallb (fun e => negb (isInstructions e))
             (convertMessagesToTranscript messages) = true
  /\ (forall m, In m messages -> isSystem m = false -> isTool m = false ->
                In (entryOf m) (convertMessagesToTranscript messages)).
Proof.
  unfold convertMessagesToTranscript.
  destruct (foldl_appendMessage
              (List.filter (fun message => negb (isSystem message)) messages)
              [] ∅ (filter_not_system messages))
    as (appended & Hfold & Hout & Hins & Hent).
  rewrite Hfold. simpl. rewrite carriedRecords_filter in Hout.
  split; [exact Hout|]. split; [exact Hins|].
  intros m Hin Hsys Hrole. apply Hent; [|exact Hrole].
  apply List.filter_In. split; [exact Hin | now rewrite Hsys].
Qed.

End TranscriptFacts.

Section TranscriptTheorems.
Context `{Platform}.

Lemma keepFirstByID_count (id : string) (emitted : gset string)
    (records : list ToolOutput) :
  length (List.filter (fun output => String.eqb (outputID output) id)
                      (keepFirstByID emitted records))
  = if bool_decide (id ∈ emitted) then 0%nat
    else if bool_decide (id ∈ map outputID records) then 1%nat else 0%nat.
Proof.
  revert emitted. induction records as [|record rest IH]; intros emitted.
  - simpl. repeat case_bool_decide; try done; try set_solver.
  - cbn [keepFirstByID].
    destruct (decide (outputID record ∈ emitted)) as [Hin|Hnew].
    + rewrite IH. repeat case_bool_decide; try done; try set_solver.
    + cbn [List.filter].
      destruct (String.eqb (outputID record) id) eqn:E.
      * cbn [length]. rewrite IH. apply String.eqb_eq in E. subst id.
        repeat case_bool_decide; try done; try set_solver.
      * rewrite IH. apply String.eqb_neq in E.
        repeat case_bool_decide; try done; try set_solver.
Qed.

(** The filter on ids seen: the tool outputs emitted are the records
    [createToolOutputEntry] finds in the messages, with every record
    dropped whose id was already emitted; so there is exactly one for
    every id among those records, and none for any other id. *)
Lemma tool_outputs_deduplicated (messages : list ChatMessage) :
  emittedToolOutputs (convertMessagesToTranscript messages)
  = keepFirstByID ∅ (carriedRecords messages)
  /\ forall id : string,
       outputsWithID id (convertMessagesToTranscript messages)
       = if bool_decide (id ∈ map outputID (carriedRecords messages))
         then 1%nat else 0%nat.
Proof.
  destruct (convertMessagesToTranscript_spec messages) as (Hout & _ & _).
  split; [exact Hout|]. intros id. unfold outputsWithID.
  rewrite Hout, keepFirstByID_count. case_bool_decide; [set_solver | done].
Qed.


(** The decoded messages are what [prepareConversationContext] works on. *)
Lemma prepareConversationContext_decoded
    (messagesJsonString : string) (messages : list ChatMessage)
    (temperature : Q) (maxTokens : Z) :
  availability = available ->
  decodeMessages messagesJsonString = Returned messages ->
  prepareConversationContext messagesJsonString temperature maxTokens
  = contextOfMessages messages temperature maxTokens.
Proof.
  intros Hav Hdec. unfold prepareConversationContext. now rewrite Hav, Hdec.
Qed.

Lemma firstSystemContent_head (read : list Dictionary) :
  firstSystemContent read = default "" (head (omap systemText read)).
Proof.
  induction read as [|message rest IH]; [reflexivity|].
  cbn [firstSystemContent].
  change (omap systemText (message :: rest))
    with (from_option (fun text => text :: omap systemText rest)
                      (omap systemText rest) (systemText message)).
  unfold systemText.
  destruct (asString (subscript message "role")) as [role|]; [|exact IH].
  destruct (asString (subscript message "content")) as [content|];
    [|exact IH].
  destruct (String.eqb (SwiftString.lowercased role) "system");
    [reflexivity | exact IH].
Qed.

(** C7, amended. The builder emits no entry for a System message: its
    transcript is that of the conversation without its System messages
    and holds no [Instructions] entry. In tool mode the dispatcher makes
    the [Instructions] entry: once the tools are built, the session of a
    tools request, streamed or not, is given the transcript of the
    builder with one [Instructions] entry put first, unless there is
    neither a tool nor a system text. The segments of that entry carry
    the content of the first message the dispatcher reads whose role is
    [system] and whose content is a string (no segment when there is none
    or it is empty), and its tool definitions are those of the tools of
    the request. *)
Theorem system_messages_skipped (messages : list ChatMessage) :
  convertMessagesToTranscript messages
  = convertMessagesToTranscript
      (List.filter (fun message => negb (isSystem message)) messages)
  /\ forallb (fun entry => negb (isInstructions entry))
             (convertMessagesToTranscript messages) = true
  /\ (forall context toolsStr messagesStr stop g toolsValue rawToolsArr tools
             messagesValue read,
        jsonObject toolsStr = Returned toolsValue ->
        asDictionaries (Some toolsValue) = Some rawToolsArr ->
        buildTools rawToolsArr = Returned tools ->
        jsonObject messagesStr = Returned messagesValue ->
        asDictionaries (Some messagesValue) = Some read ->
        let systemContent := default "" (head (omap systemText read)) in
        let instructions :=
          {| instructionSegments :=
               if SwiftString.isEmpty systemContent then []
               else [textSegment systemContent];
             toolDefinitions :=
               map (fun tool =>
                      {| definitionName := toolName tool;
                         definitionDescription := toolDescription tool;
                         definitionParameters := parametersSchema tool |})
                   tools |} in
        let entries :=
          if bool_decide (tools = []) && SwiftString.isEmpty systemContent
          then transcriptEntries context
          else instructionsEntry instructions :: transcriptEntries context in
        handleToolsMode context toolsStr messagesStr false stop false g
        = respondWithTools
            (respond entries tools (currentPrompt context) (options context))
            (withCollector [] g)
        /\ handleToolsMode context toolsStr messagesStr true stop true g
           = streamWithTools stop (Z.of_nat (length tools))
               (streamResponse entries tools (currentPrompt context)
                               (options context))
               (withCollector [] g)).
Proof.
  split; [|split].
  - unfold convertMessagesToTranscript. f_equal. f_equal.
    induction messages as [|m rest IH]; simpl; [done|].
    destruct (isSystem m) eqn:E; simpl; [exact IH|]. rewrite E. simpl.
    now f_equal.
  - apply (convertMessagesToTranscript_spec messages).
  - intros context toolsStr messagesStr stop g toolsValue rawToolsArr tools
           messagesValue read Htools Harr Hbuilt Hmessages Hread
           systemContent instructions entries.
    assert (Hentries : finalEntries context tools (systemContentOf messagesStr)
                       = entries).
    { unfold systemContentOf. rewrite Hmessages, Hread.
      rewrite firstSystemContent_head. fold systemContent.
      unfold finalEntries, entries, instructions.
      destruct (bool_decide (tools = [])); destruct (SwiftString.isEmpty _);
        reflexivity. }
    unfold handleToolsMode. rewrite Htools, Harr, Hbuilt. cbn [negb].
    now rewrite Hentries.
Qed.

End TranscriptTheorems.


(** C7, as stated, fails: the builder emits nothing for a System message. *)
Lemma system_message_not_instructions :
  convertMessagesToTranscript (H := samplePlatform)
    [{| role := "system"; content := Some "Be brief"; name := None;
        tool_call_id := None; tool_calls := None |}]
  = [].
Proof. reflexivity. Qed.

(** On the platform that echoes its instructions, a tools request for the
    conversation that opens with the system message Be brief: the
    transcript of its session begins with the instructions Be brief, and
    that is the text of its result. *)
Lemma system_messages_skipped_witness :
  let context :=
    {| currentPrompt := "Hi";
       transcriptEntries :=
         convertMessagesToTranscript (H := echoPlatform)
           (removelast briefMessages);
       options := {| temperature := None; maximumResponseTokens := None |} |} in
  let g :=
    {| jsToolCallback := false; forwarded := []; collected := [];
       coordinator := StreamingCoordinator.initial |} in
  transcriptEntries context = []
  /\ handleToolsMode (H := echoPlatform) context "[]"
       (sampleWriter briefMessagesJson) false false false g
     = respondWithTools (H := echoPlatform)
         (respond (Platform := echoPlatform)
            [instructionsEntry
               {| instructionSegments := [textSegment "Be brief"];
                  toolDefinitions := [] |}]
            [] "Hi" (options context))
         (withCollector [] g)
  /\ toolsResult
       (handleToolsMode (H := echoPlatform) context "[]"
          (sampleWriter briefMessagesJson) false false false g)
     = inr (sampleWriter (JObject [("text", JString "Be brief")])).
Proof.
  intros context g.
  destruct (system_messages_skipped (H := echoPlatform)
              (removelast briefMessages)) as (_ & _ & Hsession).
  destruct (Hsession context "[]" (sampleWriter briefMessagesJson) false g
              (JArray []) [] [] briefMessagesJson
              [[("role", JString "system"); ("content", JString "Be brief")];
               [("role", JString "user"); ("content", JString "Hi")]]
              eq_refl eq_refl eq_refl eq_refl eq_refl) as [Hplain _].
  split; [reflexivity|]. split; [exact Hplain|].
  rewrite Hplain. reflexivity.
Defined.

(** C8 on the code. Two messages carry the same record, of id [call_1],
    and their role is Tool, spelled with a capital T. The builder takes
    them for Tool messages, as it puts a role in lower case before it
    looks at it; but [createToolOutputEntry] compares the role with
    [tool] as it is spelled, finds no record in either message, and the
    transcript holds no tool output for [call_1] where the claim has
    exactly one. With the role in lower case the same two messages give
    that one entry. *)
Theorem capitalised_tool_role_loses_outputs :
  let message role :=
    {| role := role; content := Some (sampleWriter sampleRecords);
       name := None; tool_call_id := None; tool_calls := None |} in
  isTool (message "Tool") = true
  /\ convertMessagesToTranscript (H := samplePlatform)
       [message "Tool"; message "Tool"]
     = []
  /\ convertMessagesToTranscript (H := samplePlatform)
       [message "tool"; message "tool"]
     = [toolOutputEntry {| outputID := "call_1"; outputToolName := "add";
                           outputSegments := [textSegment "5"] |}].
Proof. vm_compute. repeat split; reflexivity. Qed.

(** ** The dispatcher *)

Section DispatcherTheorems.
Context `{Platform}.



(** C9. A streamed request with a schema text and no tools text is
    answered by an error and by nothing else: in every case the caller
    gets one error, in a chunk that begins with the sentinel character
    or, without a callback, as the result, and the globals are left as
    they were. When the request passes validation, and so is in
    STRUCTURED_MODE, the one chunk is the sentinel followed by the words
    that structured generation does not support streaming; nothing is
    returned, nothing is generated, and the stream gets no other chunk. *)
Theorem structured_streaming_rejected
    (request : Request) (g : Globals) (schemaStr : string) :
  stream request = true ->
  provided (toolsJson request) = None ->
  provided (schemaJson request) = Some schemaStr ->
  let o := appleAIGenerateUnified request g in
  let rejected :=
    {| mode := Some STRUCTURED_MODE;
       result := None;
       chunks :=
         [Some (String ERROR_SENTINEL
                  "Structured generation does not support streaming")];
       globals := g;
       trapped := false |} in
  ((exists message,
      chunks o = [Some (String ERROR_SENTINEL message)] /\ result o = None)
   \/ (onChunk request = false
       /\ chunks o = []
       /\ result o
          = Some "Error: Streaming requested but no callback provided"))
  /\ globals o = g /\ trapped o = false
  /\ (mode o = Some STRUCTURED_MODE -> o = rejected)
  /\ (forall context,
        onChunk request = true ->
        prepareConversationContext (messagesJson request)
          (requestTemperature request) (maxTokens request) = inr context ->
        o = rejected).
Proof.
  intros Hstream Htools Hschema o rejected. subst o rejected.
  unfold appleAIGenerateUnified.
  rewrite Hstream, Htools, Hschema. cbn [andb negb].
  destruct (onChunk request) eqn:Ecb; cbn [negb].
  - destruct (prepareConversationContext _ _ _) as [e|context] eqn:Ectx;
      cbn [mode result chunks globals trapped app].
    + split; [left|repeat split; try discriminate; congruence].
      destruct e as [[reason|reason|]|description];
        cbn [errorChunk emitError SwiftString.withCString];
        change (Ascii.eqb ERROR_SENTINEL SwiftString.NUL) with false;
        cbn iota; eauto.
    + split; [left; eexists; split; reflexivity|].
      split; [reflexivity|]. split; [reflexivity|].
      split; [intros _; reflexivity|]. intros context' _ _. reflexivity.
  - cbn [mode result chunks globals trapped].
    split; [right; repeat split; reflexivity|].
    repeat split; discriminate.
Qed.

End DispatcherTheorems.

(** On the sample platform, the one chunk of a streamed request with a
    schema is the error. *)
Lemma structured_streaming_rejected_witness :
  let request :=
    {| messagesJson := sampleMessagesJson; toolsJson := None;
       schemaJson := Some (sampleWriter sampleSchema);
       requestTemperature := 0%Q; maxTokens := 0; stream := true;
       stopAfterToolCalls := true; onChunk := true |} in
  let g :=
    {| jsToolCallback := false; forwarded := []; collected := [];
       coordinator := StreamingCoordinator.initial |} in
  chunks (appleAIGenerateUnified (H := samplePlatform) request g)
  = [Some (String ERROR_SENTINEL
             "Structured generation does not support streaming")].
Proof.
  intros request g.
  destruct (structured_streaming_rejected (H := samplePlatform) request g
              (sampleWriter sampleSchema) eq_refl eq_refl eq_refl)
    as (_ & _ & _ & _ & Hcontext).
  rewrite (Hcontext _ eq_refl eq_refl). reflexivity.
Defined.



(** A request that carries both tools and a schema takes TOOLS_MODE. *)
Example tools_beat_schema :
  mode (appleAIGenerateUnified (H := samplePlatform)
          {| messagesJson := sampleMessagesJson;
             toolsJson := Some "[{}]";
             schemaJson := Some (sampleWriter sampleSchema);
             requestTemperature := 0%Q; maxTokens := 0; stream := false;
             stopAfterToolCalls := true; onChunk := false |}
          {| jsToolCallback := false; forwarded := []; collected := [];
             coordinator := StreamingCoordinator.initial |})
  = Some TOOLS_MODE.
Proof. vm_compute. reflexivity. Qed.

(** ** Streamed chunks *)

Section StreamFacts.
Context `{Platform}.

Lemma withCString_nulFree (s : string) :
  SwiftString.nulFree s = true -> SwiftString.withCString s = s.
Proof.
  induction s as [|c s IH]; [done|]. simpl. intros Hs.
  apply andb_true_iff in Hs as [Hc Hs]. apply negb_true_iff in Hc.
  rewrite Hc. now rewrite IH.
Qed.

Lemma basicStreamLoop_chunks (events : list StreamEvent) (prev : string) :
  Forall deltaChunk (basicStreamLoop events prev).
Proof.
  revert prev. induction events as [|[cumulative|tool arguments] rest IH];
    intros prev; cbn [basicStreamLoop].
  - constructor.
  - destruct (SwiftString.isEmpty (delta prev cumulative)) eqn:Edelta;
      [apply IH|].
    constructor; [|apply IH]. eexists. split; [exact Edelta | done].
  - apply IH.
Qed.

Lemma toolsStreamLoop_chunks (stop : bool) (events : list StreamEvent)
    (prev : string) (g : Globals) :
  Forall deltaChunk (toolsStreamLoop stop events prev g).1.1.
Proof.
  revert prev g. induction events as [|[cumulative|tool arguments] rest IH];
    intros prev g; cbn [toolsStreamLoop].
  - constructor.
  - destruct (stop && StreamingCoordinator.shouldTerminateStream (coordinator g));
      [constructor|].
    specialize (IH cumulative g).
    destruct (toolsStreamLoop stop rest cumulative g) as [[emitted exit] g'].
    cbn [fst] in IH.
    destruct (SwiftString.isEmpty (delta prev cumulative)) eqn:Edelta;
      cbn [fst]; [exact IH|].
    constructor; [|exact IH]. eexists. split; [exact Edelta | done].
  - destruct (call tool arguments g) as [[output g']|]; cbn [fst].
    + apply IH.
    + constructor.
Qed.

Lemma errorChunk_emitError (e : Thrown) :
  exists message, errorChunk e = emitError message.
Proof. destruct e as [[reason|reason|]|description]; simpl; eauto. Qed.

(** The chunks of [handleBasicModeStream]: deltas, then [nil] unless the
    stream failed. *)
Lemma handleBasicModeStream_chunks (context : ConversationContext) :
  exists data,
    Forall deltaChunk data
    /\ ((handleBasicModeStream context).1 = data ++ [None]
        /\ (handleBasicModeStream context).2 = None
        \/ (handleBasicModeStream context).1 = data
           /\ exists e, (handleBasicModeStream context).2 = Some e).
Proof.
  unfold handleBasicModeStream.
  set (generation := streamResponse _ _ _ _).
  exists (basicStreamLoop (streamEvents generation) "").
  split; [apply basicStreamLoop_chunks|].
  destruct (streamFailure generation); simpl; eauto.
Qed.

(** The chunks of the streaming branch of [handleToolsMode]: deltas, then
    [nil] unless an error was thrown or the process trapped. *)
Lemma handleToolsMode_chunks (context : ConversationContext)
    (toolsJsonString messagesJsonString : string) (stop : bool)
    (g : Globals) :
  let o :=
    handleToolsMode context toolsJsonString messagesJsonString true stop
                    true g in
  exists data,
    Forall deltaChunk data
    /\ (toolsChunks o = data ++ [None]
        /\ (exists text, toolsResult o = inr text)
        /\ toolsTrapped o = false
        \/ toolsChunks o = data
           /\ ((exists e, toolsResult o = inl e) \/ toolsTrapped o = true)).
Proof.
  unfold handleToolsMode, respondWithTools, streamWithTools.
  destruct (jsonObject toolsJsonString) as [description|value];
    [exists []; simpl; repeat split; eauto|].
  destruct (asDictionaries (Some value)) as [rawToolsArr|];
    [|exists []; simpl; repeat split; eauto].
  destruct (buildTools rawToolsArr) as [description|tools];
    [exists []; simpl; repeat split; eauto|].
  cbn [negb].
  set (generation := streamResponse _ _ _ _).
  set (g1 := withCoordinator _ _).
  pose proof (toolsStreamLoop_chunks stop (streamEvents generation) "" g1)
    as Hdelta.
  destruct (toolsStreamLoop stop (streamEvents generation) "" g1)
    as [[emitted exit] g2].
  simpl in Hdelta.
  exists emitted. split; [exact Hdelta|].
  destruct exit; destruct (streamFailure generation); simpl; eauto 6.
Qed.

End StreamFacts.

(** C10 on the code. The text of the model is the character NUL, then NUL
    followed by abc. The first delta is that one [Character], so it
    passes the guard on empty deltas; but the C string made of it ends at
    the NUL, and the chunk handed to the callback is the empty string. The
    chunks of the request are the empty string, abc and [nil]. The
    JavaScript layer reads the empty string as the end of the stream: a
    consumer of [streamResponse] that waits in [next()] is told that the
    stream is complete, and is not handed abc. *)
Theorem nul_delta_ends_stream_early :
  let request :=
    {| messagesJson := sampleMessagesJson; toolsJson := None;
       schemaJson := None; requestTemperature := 0%Q; maxTokens := 0;
       stream := true; stopAfterToolCalls := false; onChunk := true |} in
  let g :=
    {| jsToolCallback := false; forwarded := []; collected := [];
       coordinator := StreamingCoordinator.initial |} in
  SwiftString.isEmpty
    (delta (H := nulPlatform) "" (String SwiftString.NUL "")) = false
  /\ chunks (appleAIGenerateUnified (H := nulPlatform) request g)
     = [Some ""; Some "abc"; None]
  /\ done (forward (Some "") newIterator) = true
  /\ received
       (consume [nextCalled; chunkArrived None (Some "");
                 chunkArrived None (Some "abc"); chunkArrived None None])
     = [finished].
Proof. vm_compute. repeat split; reflexivity. Qed.

(** A streamed basic request on the sample platform. *)
Example basic_stream_chunks :
  chunks (appleAIGenerateUnified (H := samplePlatform)
            {| messagesJson := sampleMessagesJson; toolsJson := None;
               schemaJson := None; requestTemperature := 0%Q;
               maxTokens := 0; stream := true; stopAfterToolCalls := true;
               onChunk := true |}
            {| jsToolCallback := false; forwarded := []; collected := [];
               coordinator := StreamingCoordinator.initial |})
  = [Some "The"; Some " answer"; Some " is 4"; None].
Proof. vm_compute. reflexivity. Qed.

(** ** The tool bridges *)

Section BridgeTheorems.
Context `{JavaScript}.

(** C2, amended. Called without an error argument, the callback of
    [chatWithEphemeralTools] delivers exactly one result: the empty
    object for an unknown tool id, for arguments that do not parse and
    for a handler that throws, and the JSON text of the value for a
    handler that returns one. The callback of
    [streamChatWithExternalTools] delivers the empty object when it is
    called with an error argument or for an unknown tool id, and creates
    no pending call then; for arguments that do not parse it delivers an
    error object and creates no pending call; otherwise it creates one
    pending call and emits the tool-call event, and when a result is
    injected for that call, what is delivered is the JSON text of that
    result ([null] for [undefined], an error object when the result
    cannot be written as JSON), the pending call is removed, and a
    second injection for the call delivers nothing. *)
Theorem tool_callback_results :
  (forall toolMap toolId argsJson b,
     (exists resultJson,
        ephemeralToolCallback toolMap None toolId argsJson b
        = toolResult toolId resultJson b)
     /\ (toolMap !! toolId = None ->
         ephemeralToolCallback toolMap None toolId argsJson b
         = toolResult toolId "{}" b)
     /\ (forall error,
           JSON_parse argsJson = Threw error ->
           ephemeralToolCallback toolMap None toolId argsJson b
           = toolResult toolId "{}" b)
     /\ (forall tool args error,
           toolMap !! toolId = Some tool ->
           JSON_parse argsJson = Returned args ->
           handler tool args = rejected error ->
           ephemeralToolCallback toolMap None toolId argsJson b
           = toolResult toolId "{}" b)
     /\ (forall tool args value,
           toolMap !! toolId = Some tool ->
           JSON_parse argsJson = Returned args ->
           handler tool args = fulfilled (jsonValue value) ->
           ephemeralToolCallback toolMap None toolId argsJson b
           = toolResult toolId (JSON_stringify value) b))
  /\ (forall tools err id argsJson uuid b,
        (forall e, err = Some e ->
           externalToolCallback tools err id argsJson uuid b
           = toolResult id "{}" b)
        /\ (err = None -> toolAt tools id = None ->
            externalToolCallback tools err id argsJson uuid b
            = toolResult id "{}" b)
        /\ (forall tool error,
              err = None -> toolAt tools id = Some tool ->
              JSON_parse argsJson = Threw error ->
              externalToolCallback tools err id argsJson uuid b
              = toolResult id (errorObject error) b)
        /\ (forall tool args,
              err = None -> toolAt tools id = Some tool ->
              JSON_parse argsJson = Returned args ->
              let waiting := externalToolCallback tools err id argsJson uuid b in
              toolResults waiting = toolResults b
              /\ pendingToolCalls waiting
                 = <["tool-call-" +:+ uuid := {| pendingToolId := id |}]>
                     (pendingToolCalls b)
              /\ readable waiting
                 = readable b
                   ++ [toolCallPart ("tool-call-" +:+ uuid)
                                    (ephemeralName tool) args]
              /\ forall result,
                   let answered :=
                     injectToolResult ("tool-call-" +:+ uuid) result waiting in
                   toolResults answered
                   = toolResults b
                     ++ [(id,
                          match result with
                          | undefined => JSON_stringify JNull
                          | jsonValue value => JSON_stringify value
                          | unserializable error => errorObject error
                          end)]
                   /\ pendingToolCalls answered !! ("tool-call-" +:+ uuid)
                      = None
                   /\ forall again,
                        injectToolResult ("tool-call-" +:+ uuid) again answered
                        = answered)).
Proof.
  split.
  - intros toolMap toolId argsJson b. unfold ephemeralToolCallback.
    split; [|split; [|split; [|split]]].
    + destruct (toolMap !! toolId) as [tool|]; [|eauto].
      destruct (JSON_parse argsJson) as [error|args]; [eauto|].
      destruct (handler tool args) as [result|error]; [|eauto].
      destruct (stringify result) as [error|[resultJson|]]; eauto.
    + now intros ->.
    + intros error ->. now destruct (toolMap !! toolId).
    + now intros tool args error -> -> ->.
    + now intros tool args value -> -> ->.
  - intros tools err id argsJson uuid b. unfold externalToolCallback.
    split; [|split; [|split]].
    + now intros e ->.
    + now intros -> ->.
    + now intros tool error -> -> ->.
    + intros tool args -> -> ->. cbn zeta. simpl.
      split; [done|]. split; [done|]. split; [done|].
      intros result.
      set (answered := injectToolResult ("tool-call-" +:+ uuid) result _).
      assert (Hgone : pendingToolCalls answered !! ("tool-call-" +:+ uuid)
                      = None).
      { subst answered. unfold injectToolResult. simpl.
        rewrite lookup_insert_eq. simpl. unfold resumeWith.
        destruct (stringifyOrNull result); simpl; apply lookup_delete_eq. }
      split; [|split; [exact Hgone|]].
      * subst answered. unfold injectToolResult. simpl.
        rewrite lookup_insert_eq. simpl. unfold resumeWith.
        destruct result; reflexivity.
      * intros again. unfold injectToolResult at 1. now rewrite Hgone.
Qed.

(** The stream callback of [streamChatWithExternalTools] touches neither
    the pending calls nor the results. *)
Lemma externalStreamCallback_pending
    (err : option string) (chunk : option string) (b : Bridge) :
  pendingToolCalls (externalStreamCallback err chunk b) = pendingToolCalls b
  /\ toolResults (externalStreamCallback err chunk b) = toolResults b.
Proof.
  unfold externalStreamCallback.
  destruct err; [done|]. destruct chunk as [[|c rest]|]; done.
Qed.

End BridgeTheorems.

(** C2, as stated, fails: on arguments that do not parse, the callback of
    [streamChatWithExternalTools] delivers an error object, which is not
    the empty object. *)
Lemma decode_failure_error_object :
  toolResults
    (externalToolCallback (H := sampleJavaScript) [sampleTool] None 1
       "not json" "7f3c" started)
  = [(1, sampleWriter
           (JObject [("error", JString "SyntaxError: JSON Parse error")]))]
  /\ sampleWriter
       (JObject [("error", JString "SyntaxError: JSON Parse error")])
     <> "{}".
Proof. split; [reflexivity | vm_compute; discriminate]. Qed.

(** The callback of [chatWithEphemeralTools], called with an error
    argument, returns without a result. *)
Example ephemeral_callback_error_argument :
  ephemeralToolCallback (H := sampleJavaScript) (toolMapOf [sampleTool])
    (Some "callback failed") 1 "{}" started
  = started.
Proof. reflexivity. Qed.

(** The same callback, called for the sample tool. *)
Example ephemeral_callback_result :
  toolResults
    (ephemeralToolCallback (H := sampleJavaScript) (toolMapOf [sampleTool])
       None 1 "{}" started)
  = [(1, "5")].
Proof. vm_compute. reflexivity. Qed.

(** A result injected for a pending call is what is delivered for it; a
    second injection delivers nothing. *)
Example injected_result_delivered :
  toolResults
    (bridgeRun (H := sampleJavaScript) [sampleTool]
       [toolInvoked None 1 "{}" "7f3c";
        injected "tool-call-7f3c" (jsonValue (JNumber 5));
        injected "tool-call-7f3c" (jsonValue (JNumber 6))])
  = [(1, "5")].
Proof. vm_compute. reflexivity. Qed.

(** C5 on the code: the tool callback of [streamChatWithExternalTools] is
    called for tool 1, then the stream ends before a result is injected.
    The request has ended and its callback is unregistered, but the
    pending call is still in the map and no result, synthetic or other,
    was delivered for it. *)
Theorem pending_call_left_at_stream_end :
  let b :=
    bridgeRun (H := sampleJavaScript) [sampleTool]
      [toolInvoked None 1 "{}" "7f3c"; streamed None None] in
  ended b = true
  /\ registered b = false
  /\ pendingToolCalls b !! "tool-call-7f3c" = Some {| pendingToolId := 1 |}
  /\ toolResults b = [].
Proof. vm_compute. repeat split; reflexivity. Qed.

(** ** More on the transcript builder *)

Section TranscriptOrder.
Context `{Platform}.

Lemma entryOf_not_output (message : ChatMessage) :
  isToolOutput (entryOf message) = false.
Proof.
  unfold entryOf, createAssistantEntry.
  repeat case_match; reflexivity.
Qed.

Lemma filter_outputs_nil (records : list ToolOutput) :
  List.filter (fun e => negb (isToolOutput e)) (map toolOutputEntry records)
  = [].
Proof. induction records as [|r rest IH]; [done | exact IH]. Qed.

Lemma isTurn_spec (message : ChatMessage) :
  isTurn message = negb (isSystem message) && negb (isTool message).
Proof. reflexivity. Qed.

Lemma appendMessage_turns (entries : list Entry) (seen : gset string)
    (message : ChatMessage) :
  isSystem message = false ->
  List.filter (fun e => negb (isToolOutput e))
              (appendMessage (entries, seen) message).1
  = List.filter (fun e => negb (isToolOutput e)) entries
    ++ (if isTurn message then [entryOf message] else []).
Proof.
  intros Hsys. rewrite isTurn_spec, Hsys. cbn [negb andb].
  unfold appendMessage, isTool, entryOf.
  destruct (String.eqb (SwiftString.lowercased (role message)) "user") eqn:Huser.
  { apply String.eqb_eq in Huser. rewrite Huser. cbn [fst].
    rewrite List.filter_app. reflexivity. }
  destruct (String.eqb (SwiftString.lowercased (role message)) "assistant")
    eqn:Hassistant.
  { pose proof (entryOf_not_output message) as Hout.
    unfold entryOf in Hout. rewrite Hassistant in Hout.
    apply String.eqb_eq in Hassistant. rewrite Hassistant. cbn [fst].
    rewrite List.filter_app. f_equal.
    change (String.eqb "assistant" "tool") with false. cbn [negb].
    cbn [List.filter]. now rewrite Hout. }
  destruct (String.eqb (SwiftString.lowercased (role message)) "tool") eqn:Htool.
  { unfold createToolOutputEntry. rewrite filterSeen_records. cbn [fst negb].
    rewrite List.filter_app, filter_outputs_nil. reflexivity. }
  cbn [fst negb]. rewrite List.filter_app. reflexivity.
Qed.

Lemma foldl_appendMessage_turns (messages : list ChatMessage)
    (entries : list Entry) (seen : gset string) :
  forallb (fun m => negb (isSystem m)) messages = true ->
  List.filter (fun e => negb (isToolOutput e))
              (foldl appendMessage (entries, seen) messages).1
  = List.filter (fun e => negb (isToolOutput e)) entries
    ++ map entryOf (List.filter isTurn messages).
Proof.
  revert entries seen.
  induction messages as [|m rest IH]; intros entries seen Hall.
  - cbn. now rewrite app_nil_r.
  - cbn [forallb] in Hall. apply andb_true_iff in Hall as [Hm Hrest].
    apply negb_true_iff in Hm.
    cbn [foldl].
    destruct (appendMessage (entries, seen) m) as [entries' seen'] eqn:Hstep.
    rewrite (IH entries' seen' Hrest).
    cbn [List.filter]. pose proof (appendMessage_turns entries seen m Hm) as Hturns.
    rewrite Hstep in Hturns. cbn [fst] in Hturns. rewrite Hturns.
    destruct (isTurn m); cbn [map app].
    + rewrite <- app_assoc. reflexivity.
    + now rewrite app_nil_r.
Qed.

Lemma filter_turns_not_system (messages : list ChatMessage) :
  List.filter isTurn
    (List.filter (fun message => negb (isSystem message)) messages)
  = List.filter isTurn messages.
Proof.
  induction messages as [|m rest IH]; [done |].
  cbn [List.filter]. rewrite (isTurn_spec m).
  destruct (isSystem m) eqn:E; cbn [negb andb]; [exact IH |].
  cbn [List.filter]. rewrite (isTurn_spec m), E. cbn [negb andb].
  now rewrite IH.
Qed.

Lemma keepFirstByID_length (seen : gset string) (records : list ToolOutput) :
  length (keepFirstByID seen records)
  = size (list_to_set (map outputID records) ∖ seen : gset string).
Proof.
  revert seen. induction records as [|r rest IH]; intros seen.
  - cbn. replace (∅ ∖ seen) with (∅ : gset string) by set_solver.
    now rewrite size_empty.
  - cbn [keepFirstByID map list_to_set].
    destruct (decide (outputID r ∈ seen)) as [Hin|Hnot].
    + rewrite IH. f_equal. set_solver.
    + cbn [length]. rewrite IH.
      replace (({[outputID r]} ∪ list_to_set (map outputID rest)) ∖ seen)
        with ({[outputID r]}
              ∪ (list_to_set (map outputID rest) ∖ ({[outputID r]} ∪ seen))
              : gset string).
      * rewrite (size_union (C := gset string) {[outputID r]}) by set_solver.
        now rewrite size_singleton.
      * apply set_eq. intros x.
        destruct (decide (x = outputID r)); set_solver.
Qed.

Lemma filter_partition_length {A : Type} (p : A -> bool) (l : list A) :
  length l
  = (length (List.filter (fun x => negb (p x)) l)
     + length (List.filter p l))%nat.
Proof.
  induction l as [|x rest IH]; [done |].
  cbn [List.filter length]. destruct (p x); cbn [negb length]; lia.
Qed.

Lemma filter_outputs_length (entries : list Entry) :
  length (List.filter isToolOutput entries)
  = length (emittedToolOutputs entries).
Proof.
  induction entries as [|e rest IH]; [done |].
  destruct e; cbn; try exact IH. now f_equal.
Qed.

(** X1. The transcript keeps the conversation in order: without its
    tool outputs, it holds exactly one entry for every message that is
    neither a system nor a tool message, in the order of the messages; and
    its length is the number of those messages plus the number of distinct
    ids among the tool-output records the messages carry. *)
Theorem transcript_keeps_conversation_order (messages : list ChatMessage) :
  List.filter (fun e => negb (isToolOutput e))
              (convertMessagesToTranscript messages)
  = map entryOf (List.filter isTurn messages)
  /\ length (convertMessagesToTranscript messages)
     = (length (List.filter isTurn messages)
        + size (list_to_set (map outputID (carriedRecords messages))
                : gset string))%nat.
Proof.
  assert (Hturns :
    List.filter (fun e => negb (isToolOutput e))
                (convertMessagesToTranscript messages)
    = map entryOf (List.filter isTurn messages)).
  { unfold convertMessagesToTranscript.
    rewrite foldl_appendMessage_turns by apply filter_not_system.
    cbn [List.filter app]. now rewrite filter_turns_not_system. }
  split; [exact Hturns |].
  rewrite (filter_partition_length isToolOutput), Hturns, length_map.
  f_equal. rewrite filter_outputs_length.
  destruct (convertMessagesToTranscript_spec messages) as (-> & _).
  rewrite keepFirstByID_length. f_equal. set_solver.
Qed.

End TranscriptOrder.

Section TrailingPrompt.
Context `{Platform}.



End TrailingPrompt.


Section DroppedToolMessages.
Context `{Platform}.

Lemma appendMessage_no_records (state : list Entry * gset string)
    (message : ChatMessage) :
  isTool message = true ->
  toolOutputRecords message = [] ->
  appendMessage state message = state.
Proof.
  intros Htool Hnone. destruct state as [entries seen].
  unfold appendMessage. unfold isTool in Htool.
  apply String.eqb_eq in Htool. rewrite Htool.
  change (String.eqb "tool" "user") with false.
  change (String.eqb "tool" "assistant") with false.
  change (String.eqb "tool" "tool") with true. cbn iota.
  unfold createToolOutputEntry. rewrite Hnone. cbn.
  now rewrite app_nil_r.
Qed.

(** X2. A message of role [tool] (in any letter case) that carries no
    tool-output record leaves no trace in the transcript. That is so when
    its role is not spelled [tool] in lower case, when it has no content,
    and when its content is not JSON text (the plain-text result of an
    OpenAI-style tool message, say). *)
Theorem tool_message_without_records_dropped
    (before after : list ChatMessage) (message : ChatMessage) :
  isTool message = true ->
  role message <> "tool"
  \/ content message = None
  \/ (exists text description,
        content message = Some text /\ jsonObject text = Threw description) ->
  convertMessagesToTranscript (before ++ message :: after)
  = convertMessagesToTranscript (before ++ after).
Proof.
  intros Htool Hwhy.
  assert (Hnone : toolOutputRecords message = []).
  { unfold toolOutputRecords.
    destruct Hwhy as [Hrole | [Hcontent | (text & description & Hcontent & Hjson)]].
    - apply String.eqb_neq in Hrole. now rewrite Hrole.
    - rewrite Hcontent. now destruct (negb _).
    - rewrite Hcontent, Hjson. now destruct (negb _). }
  assert (Hsys : isSystem message = false).
  { unfold isSystem. unfold isTool in Htool. apply String.eqb_eq in Htool.
    now rewrite Htool. }
  unfold convertMessagesToTranscript.
  rewrite !List.filter_app. cbn [List.filter]. rewrite Hsys. cbn [negb].
  rewrite !foldl_app. cbn [foldl].
  now rewrite appendMessage_no_records.
Qed.

End DroppedToolMessages.

(** A tool message in the OpenAI format, whose content is the plain text
    of the result. *)
Lemma tool_message_without_records_dropped_witness :
  let message :=
    {| role := "tool"; content := Some "4"; name := None;
       tool_call_id := Some "call_1"; tool_calls := None |} in
  convertMessagesToTranscript (H := samplePlatform)
    (sampleMessages ++ message :: [])
  = convertMessagesToTranscript (H := samplePlatform) (sampleMessages ++ []).
Proof.
  intros message.
  apply (tool_message_without_records_dropped (H := samplePlatform)
           sampleMessages [] message).
  - reflexivity.
  - right. right. exists "4", "The data is not in the correct format.".
    split; reflexivity.
Defined.

(** ** More on the dispatcher *)

Section DispatcherReplies.
Context `{Platform}.

Lemma unavailable_context (messagesJsonString : string) (temperature : Q)
    (maxTokens : Z) :
  availability <> available ->
  prepareConversationContext messagesJsonString temperature maxTokens
  = inl (conversationError
           (intelligenceUnavailable (unavailableDescription availability))).
Proof.
  intros Hno. unfold prepareConversationContext.
  destruct availability as [|reason|]; [done | reflexivity | reflexivity].
Qed.

Lemma nulFree_append (text more : string) :
  SwiftString.nulFree (text +:+ more)
  = SwiftString.nulFree text && SwiftString.nulFree more.
Proof.
  induction text as [|c rest IH]; [reflexivity |].
  simpl. rewrite IH. now rewrite andb_assoc.
Qed.

Lemma unavailableDescription_nulFree (a : Availability) (text : string) :
  SwiftString.nulFree text = true ->
  SwiftString.withCString (text +:+ unavailableDescription a)
  = text +:+ unavailableDescription a.
Proof.
  intros Htext. apply withCString_nulFree.
  rewrite nulFree_append, Htext. now destruct a as [|[]|].
Qed.

(** X3. Availability is checked before anything else. When
    [appleAICheckAvailability] does not answer 1, a request of any mode
    fails at once with the reason: it is in no mode, it leaves the
    globals as they are, a request that is not streamed returns the error
    text, and a streamed one emits the error chunk and nothing else. The
    messages are not even decoded. The reason in the error is how the
    text of [appleAIGetAvailabilityReason] begins. *)
Theorem unavailable_model_fails_fast (request : Request) (g : Globals) :
  appleAICheckAvailability <> 1 ->
  let o := appleAIGenerateUnified request g in
  let reason := unavailableDescription availability in
  availability <> available
  /\ String.prefix reason appleAIGetAvailabilityReason = true
  /\ mode o = None /\ globals o = g /\ trapped o = false
  /\ (stream request = false ->
      chunks o = []
      /\ result o
         = Some ("Error: Apple Intelligence not available - " +:+ reason))
  /\ (stream request = true -> onChunk request = true ->
      result o = None
      /\ chunks o
         = [Some (String ERROR_SENTINEL
                    ("Apple Intelligence not available - " +:+ reason))])
  /\ (stream request = true -> onChunk request = false ->
      chunks o = []
      /\ result o
         = Some "Error: Streaming requested but no callback provided").
Proof.
  intros Hcode o reason.
  assert (Hno : availability <> available).
  { intros Ha. apply Hcode. unfold appleAICheckAvailability. now rewrite Ha. }
  split; [exact Hno |].
  split.
  { subst reason. unfold appleAIGetAvailabilityReason.
    destruct availability as [|[]|]; [done | reflexivity..]. }
  subst o. unfold appleAIGenerateUnified.
  rewrite (unavailable_context _ _ _ Hno).
  destruct (stream request), (onChunk request); cbn [andb negb];
    cbn [mode globals trapped chunks result errorResult errorChunk emitError];
    repeat split; try discriminate; try reflexivity; subst reason.
  - cbn [app]. unfold emitError. do 2 f_equal.
    change (SwiftString.withCString (String ERROR_SENTINEL ?text))
      with (String ERROR_SENTINEL (SwiftString.withCString text)).
    f_equal. now apply unavailableDescription_nulFree.
  - f_equal. now apply unavailableDescription_nulFree.
  - f_equal. now apply unavailableDescription_nulFree.
Qed.

End DispatcherReplies.

Lemma unavailable_model_fails_fast_witness :
  let request :=
    {| messagesJson := "not even JSON"; toolsJson := Some "[{}]";
       schemaJson := None; requestTemperature := 0%Q; maxTokens := 0;
       stream := false; stopAfterToolCalls := true; onChunk := false |} in
  let g :=
    {| jsToolCallback := true; forwarded := []; collected := [];
       coordinator := StreamingCoordinator.initial |} in
  result (appleAIGenerateUnified (H := unavailablePlatform) request g)
  = Some "Error: Apple Intelligence not available - AI model not ready".
Proof.
  intros request g.
  refine (proj2 (proj1 (proj2 (proj2 (proj2 (proj2 (proj2
            (unavailable_model_fails_fast (H := unavailablePlatform)
               request g _))))))
            eq_refl)).
  discriminate.
Defined.

Section DispatcherShape.
Context `{Platform}.

Lemma emitError_sentinel (message : string) :
  emitError message
  = Some (String ERROR_SENTINEL (SwiftString.withCString message)).
Proof. reflexivity. Qed.

Lemma deltaChunk_Some (chunk : Chunk) :
  deltaChunk chunk -> exists text, chunk = Some text.
Proof. intros (delta & _ & ->). eauto. Qed.

(** X4. What the caller of [appleAIGenerateUnified] gets back. A request
    that is not streamed returns a string and hands no chunk to the
    callback. A streamed request with a callback returns [nil]; unless the
    process traps, its chunks are strings (never [nil]) followed by exactly
    one last chunk, which is [nil] or an error chunk, and an error chunk is
    a string that begins with the sentinel character, so a stream always
    ends and the two endings cannot be confused. *)
Theorem stream_ends_exactly_once (request : Request) (g : Globals) :
  let o := appleAIGenerateUnified request g in
  (stream request = false ->
   chunks o = [] /\ exists text, result o = Some text)
  /\ (stream request = true -> onChunk request = false ->
      chunks o = []
      /\ result o = Some "Error: Streaming requested but no callback provided")
  /\ (stream request = true -> onChunk request = true ->
      result o = None
      /\ exists data,
           Forall (fun chunk => exists text, chunk = Some text) data
           /\ (trapped o = true -> chunks o = data)
           /\ (trapped o = false ->
               chunks o = data ++ [None]
               \/ exists message,
                    chunks o
                    = data
                      ++ [Some (String ERROR_SENTINEL
                                  (SwiftString.withCString message))])).
Proof.
  intros o. subst o. unfold appleAIGenerateUnified.
  destruct (stream request) eqn:Es; cbn [andb negb].
  - split; [discriminate |].
    destruct (onChunk request) eqn:Ec; cbn [negb].
    2:{ split; [intros _ _; split; reflexivity | discriminate]. }
    split; [discriminate |]. intros _ _.
    assert (Herr : forall e, exists message,
              errorChunk e
              = Some (String ERROR_SENTINEL (SwiftString.withCString message))).
    { intros e. destruct (errorChunk_emitError e) as [message ->]. eauto. }
    destruct (prepareConversationContext _ _ _) as [e|context].
    { cbn. split; [reflexivity |]. exists []. split; [constructor |].
      split; [discriminate |]. intros _. right.
      destruct (Herr e) as [message ->]. eauto. }
    destruct (provided (toolsJson request)) as [toolsStr|].
    + cbn [result chunks trapped]. split; [reflexivity |].
      destruct (handleToolsMode_chunks context toolsStr (messagesJson request)
                  (stopAfterToolCalls request) g)
        as (data & Hdelta & Hend).
      exists data. split.
      { eapply Forall_impl; [exact Hdelta |]. intros c. apply deltaChunk_Some. }
      destruct Hend as [(-> & [text ->] & ->) | (-> & Hend)].
      * split; [discriminate |]. intros _. left. now rewrite app_nil_r.
      * destruct (toolsTrapped _) eqn:Et.
        -- split; [| discriminate]. intros _.
           destruct (toolsResult _); now rewrite app_nil_r.
        -- split; [discriminate |]. intros _.
           destruct Hend as [[e ->] | Hfalse]; [| discriminate].
           right. destruct (Herr e) as [message ->]. eauto.
    + destruct (provided (schemaJson request)) as [schemaStr|].
      * cbn. split; [reflexivity |]. exists []. split; [constructor |].
        split; [discriminate |]. intros _. right. eauto.
      * destruct (handleBasicModeStream_chunks context)
          as (data & Hdelta & Hend).
        destruct (handleBasicModeStream context) as [emitted thrown].
        cbn [fst snd] in Hend. cbn [result chunks trapped].
        split; [reflexivity |]. exists data. split.
        { eapply Forall_impl; [exact Hdelta |]. intros c.
          apply deltaChunk_Some. }
        split; [discriminate |]. intros _.
        destruct Hend as [[-> ->] | [-> [e ->]]].
        -- left. now rewrite app_nil_r.
        -- right. destruct (Herr e) as [message ->]. eauto.
  - split; [| split; discriminate]. intros _.
    destruct (prepareConversationContext _ _ _) as [e|context];
      [cbn; eauto |].
    destruct (provided (toolsJson request)) as [toolsStr|]; [cbn; eauto |].
    destruct (provided (schemaJson request)) as [schemaStr|]; cbn; eauto.
Qed.

End DispatcherShape.

(** ** Tool calls of a session *)

Section ToolCallFacts.
Context `{Platform}.

Lemma extends_refl (g : Globals) : extends g g.
Proof.
  split; [reflexivity |]. exists [], []. rewrite !app_nil_r.
  repeat split. constructor.
Qed.

Lemma extends_trans (g g' g'' : Globals) :
  extends g g' -> extends g' g'' -> extends g g''.
Proof.
  intros (Hcb & sent & records & Hf & Hc & Hids)
         (Hcb' & sent' & records' & Hf' & Hc' & Hids').
  split; [congruence |]. exists (sent ++ sent'), (records ++ records').
  rewrite Hf', Hf, Hc', Hc, !app_assoc. repeat split.
  now apply Forall2_app.
Qed.

Lemma call_extends (tool : JSProxyTool) (arguments : JSON) (g g' : Globals)
    (output : string) :
  call tool arguments g = Some (output, g') -> extends g g'.
Proof.
  unfold call. destruct (jsToolCallback g) eqn:Hcb; cbn [negb].
  2:{ intros [= _ <-]. apply extends_refl. }
  destruct (jsonData arguments) as [description|jsonStr] eqn:Hjson.
  { intros [= _ <-]. apply extends_refl. }
  destruct (StreamingCoordinator.toolCompleted (coordinator g)) as [c|];
    [| discriminate].
  cbn. intros [= _ <-]. split; [cbn; now rewrite Hcb |].
  unfold append. eexists [_], [_]. cbn. repeat split.
  constructor; [| constructor]. exists arguments, jsonStr. cbn.
  split; [exact Hjson |]. split; [reflexivity |].
  now destruct arguments.
Qed.

Lemma callAll_extends (invocations : list (JSProxyTool * JSON))
    (g g' : Globals) :
  callAll invocations g = Some g' -> extends g g'.
Proof.
  revert g. induction invocations as [|[tool arguments] rest IH]; intros g.
  - intros [= <-]. apply extends_refl.
  - cbn [callAll]. destruct (call tool arguments g) as [[output g1]|] eqn:Hcall;
      [| discriminate].
    cbn. intros Hrest. eapply extends_trans; [| apply IH, Hrest].
    eapply call_extends, Hcall.
Qed.

Lemma toolsStreamLoop_extends (stop : bool) (events : list StreamEvent)
    (prev : string) (g : Globals) :
  extends g (toolsStreamLoop stop events prev g).2.
Proof.
  revert prev g. induction events as [|[cumulative|tool arguments] rest IH];
    intros prev g; cbn [toolsStreamLoop].
  - apply extends_refl.
  - destruct (stop && _); [apply extends_refl |].
    specialize (IH cumulative g).
    destruct (toolsStreamLoop stop rest cumulative g) as [[emitted exit] g'].
    now destruct (SwiftString.isEmpty _).
  - destruct (call tool arguments g) as [[output g1]|] eqn:Hcall;
      [| apply extends_refl].
    eapply extends_trans; [eapply call_extends, Hcall | apply IH].
Qed.

(** X5. The tool calls a request reports are the calls it forwarded.
    Unless the request is rejected before a session is made (the globals
    are then untouched), [handleToolsMode] empties the collector first, so
    what an earlier request collected never shows up; after it, the calls
    in the collector are, one for one and in order, the calls this request
    forwarded to the JavaScript callback: each record has the tool id of
    the call forwarded, whose text is the C string of the JSON text of the
    arguments, and holds those arguments when they are a dictionary, and
    the empty dictionary when they are not. The result of a request
    that is not streamed lists exactly the collected calls whenever there
    is one, dropping the text of the model. *)
Theorem reported_calls_are_forwarded_calls (context : ConversationContext)
    (toolsJsonString messagesJsonString : string)
    (streaming stop onChunk : bool) (g : Globals) :
  let o :=
    handleToolsMode context toolsJsonString messagesJsonString streaming
                    stop onChunk g in
  jsToolCallback (toolsGlobals o) = jsToolCallback g
  /\ (toolsGlobals o = g
      \/ exists sent,
           forwarded (toolsGlobals o) = forwarded g ++ sent
           /\ Forall2 sameCall sent (collected (toolsGlobals o)))
  /\ (forall stale,
        let o' :=
          handleToolsMode context toolsJsonString messagesJsonString
                          streaming stop onChunk (withCollector stale g) in
        toolsResult o' = toolsResult o /\ toolsChunks o' = toolsChunks o
        /\ toolsTrapped o' = toolsTrapped o)
  /\ (forall text,
        streaming = false -> toolsTrapped o = false ->
        toolsResult o = inr text ->
        collected (toolsGlobals o) <> [] ->
        jsonData
          (JObject [("text", JString "");
                    ("toolCalls", formattedCalls (collected (toolsGlobals o)))])
        = Returned text).
Proof.
  intros o.
  assert (Hfrom : forall g2,
            extends (withCollector [] g) g2 ->
            jsToolCallback g2 = jsToolCallback g
            /\ (g2 = g
                \/ exists sent,
                     forwarded g2 = forwarded g ++ sent
                     /\ Forall2 sameCall sent (collected g2))).
  { intros g2 (Hcb & sent & records & Hf & Hc & Hids).
    split; [exact Hcb |]. right. exists sent. split; [exact Hf |].
    now rewrite Hc. }
  subst o. unfold handleToolsMode, respondWithTools, streamWithTools.
  destruct (jsonObject toolsJsonString) as [description|value];
    [cbn; repeat split; auto; discriminate |].
  destruct (asDictionaries (Some value)) as [rawToolsArr|];
    [| cbn; repeat split; auto; discriminate].
  destruct (buildTools rawToolsArr) as [description|tools];
    [cbn; repeat split; auto; discriminate |].
  change (withCollector [] (withCollector ?stale g)) with (withCollector [] g).
  destruct streaming; cbn [negb].
  - destruct onChunk; cbn [negb].
    + set (generation := streamResponse _ _ _ _).
      set (g1 := withCoordinator _ _).
      pose proof (toolsStreamLoop_extends stop (streamEvents generation) "" g1)
        as Hext.
      destruct (toolsStreamLoop stop (streamEvents generation) "" g1)
        as [[emitted exit] g2].
      cbn [snd] in Hext.
      assert (Hg2 : extends (withCollector [] g) g2).
      { eapply extends_trans; [| exact Hext]. subst g1.
        split; [reflexivity |]. exists [], []. rewrite !app_nil_r.
        repeat split. constructor. }
      destruct (Hfrom g2 Hg2) as [Hcb Hsent].
      destruct exit, (streamFailure generation); cbn;
        repeat split; auto; discriminate.
    + destruct (Hfrom _ (extends_refl (withCollector [] g))) as [Hcb Hsent].
      cbn -[withCollector]. repeat split; auto; discriminate.
  - set (generation := respond _ _ _ _).
    destruct (callAll (invocations generation) (withCollector [] g))
      as [g1|] eqn:Hcalls.
    2:{ destruct (Hfrom _ (extends_refl (withCollector [] g))) as [Hcb Hsent].
        cbn -[withCollector]. repeat split; auto; discriminate. }
    destruct (Hfrom g1 (callAll_extends _ _ _ Hcalls)) as [Hcb Hsent].
    destruct (generated generation) as [description|content];
      [cbn; repeat split; auto; discriminate |].
    cbn [toolsGlobals toolsResult toolsChunks toolsTrapped].
    repeat split; auto.
    intros text _ _ Hresult Hsome.
    rewrite bool_decide_eq_false_2 in Hresult by exact Hsome.
    cbn [negb] in Hresult.
    destruct (jsonData _) as [description|written]; [discriminate |].
    congruence.
Qed.

End ToolCallFacts.

(** A tool called with an array for arguments: the JSON text of the array
    is forwarded, and the record collected holds the empty dictionary. *)
Example array_arguments_collected_empty :
  let tool :=
    {| toolID := 1; toolName := "add"; toolDescription := "";
       parametersSchema := {| schemaSource := [] |} |} in
  let g :=
    {| jsToolCallback := true; forwarded := []; collected := [];
       coordinator := StreamingCoordinator.initial |} in
  (g' ← snd <$> call (H := samplePlatform) tool
                      (JArray [JNumber 2; JNumber 3]) g;
   Some (forwarded g', map recordArguments (collected g')))
  = Some ([(1, "[2,3]")], [[]]).
Proof. vm_compute. reflexivity. Qed.

Section InertTools.
Context `{Platform}.

Lemma call_without_callback (tool : JSProxyTool) (arguments : JSON)
    (g : Globals) :
  jsToolCallback g = false ->
  call tool arguments g = Some ("Tool system not available", g).
Proof. intros Hcb. unfold call. now rewrite Hcb. Qed.

Lemma callAll_without_callback (invocations : list (JSProxyTool * JSON))
    (g : Globals) :
  jsToolCallback g = false -> callAll invocations g = Some g.
Proof.
  intros Hcb. induction invocations as [|[tool arguments] rest IH];
    [reflexivity |].
  cbn [callAll]. now rewrite call_without_callback.
Qed.

Lemma toolsStreamLoop_without_callback (stop : bool)
    (events : list StreamEvent) (prev : string) (g : Globals) :
  jsToolCallback g = false ->
  stop && StreamingCoordinator.shouldTerminateStream (coordinator g) = false ->
  toolsStreamLoop stop events prev g
  = (basicStreamLoop events prev, exhausted, g).
Proof.
  intros Hcb Hgo. revert prev.
  induction events as [|[cumulative|tool arguments] rest IH]; intros prev;
    cbn [toolsStreamLoop basicStreamLoop].
  - reflexivity.
  - rewrite Hgo, IH. now destruct (SwiftString.isEmpty _).
  - now rewrite call_without_callback.
Qed.

(** X6. Without a registered JavaScript callback the tools of a session
    are inert: a tool call answers that the tool system is not available
    and changes nothing, so no call is forwarded, collected or counted; the
    streaming loop of a tools request then emits what the loop of a basic
    request emits and never stops early; and no request traps or adds to
    the forwarded calls. *)
Theorem tools_inert_without_callback (g : Globals) :
  jsToolCallback g = false ->
  (forall tool arguments,
     call tool arguments g = Some ("Tool system not available", g))
  /\ (forall invocations, callAll invocations g = Some g)
  /\ (forall stop expectedTools events prev,
        toolsStreamLoop stop events prev
          (withCoordinator
             (StreamingCoordinator.reset expectedTools stop (coordinator g)) g)
        = (basicStreamLoop events prev, exhausted,
           withCoordinator
             (StreamingCoordinator.reset expectedTools stop (coordinator g)) g))
  /\ (forall request,
        trapped (appleAIGenerateUnified request g) = false
        /\ forwarded (globals (appleAIGenerateUnified request g))
           = forwarded g
        /\ jsToolCallback (globals (appleAIGenerateUnified request g))
           = false).
Proof.
  intros Hcb.
  split; [intros; now apply call_without_callback |].
  split; [intros; now apply callAll_without_callback |].
  split.
  { intros stop expectedTools events prev.
    apply toolsStreamLoop_without_callback; [exact Hcb |].
    now destruct stop. }
  assert (Htools : forall context toolsStr messagesStr streaming stop onChunk,
            let o :=
              handleToolsMode context toolsStr messagesStr streaming stop
                              onChunk g in
            toolsTrapped o = false
            /\ forwarded (toolsGlobals o) = forwarded g
            /\ jsToolCallback (toolsGlobals o) = false).
  { intros context toolsStr messagesStr streaming stop onChunk o. subst o.
    unfold handleToolsMode, respondWithTools, streamWithTools.
    destruct (jsonObject toolsStr) as [description|value]; [now cbn |].
    destruct (asDictionaries (Some value)) as [rawToolsArr|]; [| now cbn].
    destruct (buildTools rawToolsArr) as [description|tools]; [now cbn |].
    destruct streaming; cbn [negb].
    - destruct onChunk; cbn [negb]; [| now cbn].
      rewrite toolsStreamLoop_without_callback;
        [| exact Hcb | now destruct stop].
      now destruct (streamFailure _).
    - rewrite callAll_without_callback by exact Hcb.
      now destruct (generated _). }
  intros request. unfold appleAIGenerateUnified.
  destruct (stream request && negb (onChunk request)); [now cbn |].
  destruct (stream request); cbn [negb].
  - destruct (prepareConversationContext _ _ _) as [e|context]; [now cbn |].
    destruct (provided (toolsJson request)) as [toolsStr|];
      [cbn; apply Htools |].
    destruct (provided (schemaJson request)) as [schemaStr|]; [now cbn |].
    now destruct (handleBasicModeStream context).
  - destruct (prepareConversationContext _ _ _) as [e|context]; [now cbn |].
    destruct (provided (toolsJson request)) as [toolsStr|];
      [cbn; apply Htools |].
    now destruct (provided (schemaJson request)).
Qed.

End InertTools.

Lemma tools_inert_without_callback_witness :
  let g :=
    {| jsToolCallback := false; forwarded := []; collected := [];
       coordinator := StreamingCoordinator.initial |} in
  let tool :=
    {| toolID := 1; toolName := "add"; toolDescription := "";
       parametersSchema := {| schemaSource := [] |} |} in
  call (H := samplePlatform) tool (JObject []) g
  = Some ("Tool system not available", g).
Proof.
  intros g tool.
  apply (tools_inert_without_callback (H := samplePlatform) g eq_refl).
Defined.

Section EarlyTermination.
Context `{Platform}.

(** The coordinator asks the loop to stop. *)
Lemma toolsStreamLoop_stopped (events : list StreamEvent) (prev : string)
    (g : Globals) :
  StreamingCoordinator.shouldStopAfterTools (coordinator g) = true ->
  0 < StreamingCoordinator.completedToolCount (coordinator g) ->
  (toolsStreamLoop true events prev g).1.1 = [].
Proof.
  revert prev g. induction events as [|[cumulative|tool arguments] rest IH];
    intros prev g Hstop Hcount; cbn [toolsStreamLoop].
  - reflexivity.
  - unfold StreamingCoordinator.shouldTerminateStream. rewrite Hstop.
    apply Z.ltb_lt in Hcount. now rewrite Hcount.
  - unfold call. destruct (jsToolCallback g); cbn [negb]; [| now apply IH].
    destruct (jsonData arguments) as [description|jsonStr]; [now apply IH |].
    unfold StreamingCoordinator.toolCompleted, SwiftInt.succ.
    destruct (Z.ltb_spec (StreamingCoordinator.completedToolCount (coordinator g))
                         SwiftInt.max); [| reflexivity].
    cbn. apply IH; cbn; [exact Hstop | lia].
Qed.

Lemma toolsStreamLoop_app (stop : bool) (events more : list StreamEvent)
    (prev : string) (g : Globals) :
  toolsStreamLoop stop (events ++ more) prev g
  = match toolsStreamLoop stop events prev g with
    | (emitted, exhausted, g') =>
        let '(emitted', exit, g'') :=
          toolsStreamLoop stop more (lastSnapshot prev events) g' in
        (emitted ++ emitted', exit, g'')
    | stopped => stopped
    end.
Proof.
  revert prev g. induction events as [|[cumulative|tool arguments] rest IH];
    intros prev g; cbn [app toolsStreamLoop lastSnapshot].
  - now destruct (toolsStreamLoop stop more prev g) as [[emitted exit] g'].
  - destruct (stop && _); [reflexivity |].
    rewrite IH.
    destruct (toolsStreamLoop stop rest cumulative g) as [[emitted exit] g'].
    destruct (SwiftString.isEmpty _), exit; try reflexivity;
      now destruct (toolsStreamLoop stop more (lastSnapshot cumulative rest) g')
        as [[emitted' exit'] g''].
  - destruct (call tool arguments g) as [[output g1]|]; [apply IH | reflexivity].
Qed.

Lemma call_coordinator (tool : JSProxyTool) (arguments : JSON)
    (g g' : Globals) (output : string) :
  call tool arguments g = Some (output, g') ->
  jsToolCallback g' = jsToolCallback g
  /\ StreamingCoordinator.shouldStopAfterTools (coordinator g')
     = StreamingCoordinator.shouldStopAfterTools (coordinator g)
  /\ StreamingCoordinator.completedToolCount (coordinator g)
     <= StreamingCoordinator.completedToolCount (coordinator g').
Proof.
  unfold call. destruct (negb (jsToolCallback g)).
  { intros [= _ <-]. repeat split; lia. }
  destruct (jsonData arguments) as [description|jsonStr].
  { intros [= _ <-]. repeat split; lia. }
  unfold StreamingCoordinator.toolCompleted, SwiftInt.succ.
  destruct (Z.ltb_spec (StreamingCoordinator.completedToolCount (coordinator g))
                       SwiftInt.max); [| discriminate].
  cbn. intros [= _ <-]. cbn. repeat split; lia.
Qed.

Lemma toolsStreamLoop_coordinator (stop : bool) (events : list StreamEvent)
    (prev : string) (g : Globals) :
  let g' := (toolsStreamLoop stop events prev g).2 in
  jsToolCallback g' = jsToolCallback g
  /\ StreamingCoordinator.shouldStopAfterTools (coordinator g')
     = StreamingCoordinator.shouldStopAfterTools (coordinator g)
  /\ StreamingCoordinator.completedToolCount (coordinator g)
     <= StreamingCoordinator.completedToolCount (coordinator g').
Proof.
  revert prev g. induction events as [|[cumulative|tool arguments] rest IH];
    intros prev g; cbn [toolsStreamLoop].
  - cbn. repeat split; lia.
  - destruct (stop && _); [cbn; repeat split; lia |].
    specialize (IH cumulative g).
    destruct (toolsStreamLoop stop rest cumulative g) as [[emitted exit] g'].
    now destruct (SwiftString.isEmpty _).
  - destruct (call tool arguments g) as [[output g1]|] eqn:Hcall;
      [| cbn; repeat split; lia].
    destruct (call_coordinator _ _ _ _ _ Hcall) as (Hcb & Hstop & Hcount).
    destruct (IH prev g1) as (Hcb' & Hstop' & Hcount').
    cbn zeta. repeat split; try congruence. lia.
Qed.

(** X7. With [stopAfterToolCalls] and a registered callback, no text
    reaches the caller after a tool call: once the runtime has called a
    tool whose arguments could be written as JSON, the loop emits nothing
    more, whatever the runtime reports afterwards. The chunks of a
    generation are those of its events before that tool call. *)
Theorem no_text_after_tool_call (before rest : list StreamEvent)
    (tool : JSProxyTool) (arguments : JSON) (written : string)
    (expectedTools : Z) (g : Globals) :
  jsToolCallback g = true ->
  jsonData arguments = Returned written ->
  let g1 :=
    withCoordinator
      (StreamingCoordinator.reset expectedTools true (coordinator g)) g in
  (toolsStreamLoop true (before ++ toolInvocation tool arguments :: rest)
                   "" g1).1.1
  = (toolsStreamLoop true before "" g1).1.1.
Proof.
  intros Hcb Hjson g1. rewrite toolsStreamLoop_app.
  pose proof (toolsStreamLoop_coordinator true before "" g1) as Hinv.
  destruct (toolsStreamLoop true before "" g1) as [[emitted exit] g2].
  cbn [snd] in Hinv. destruct Hinv as (Hcb2 & Hstop2 & Hcount2).
  destruct exit; [| reflexivity | reflexivity].
  cbn [toolsStreamLoop]. unfold call.
  replace (jsToolCallback g2) with true by (now rewrite Hcb2).
  cbn [negb]. rewrite Hjson.
  unfold StreamingCoordinator.toolCompleted, SwiftInt.succ.
  destruct (Z.ltb_spec (StreamingCoordinator.completedToolCount (coordinator g2))
                       SwiftInt.max); cbn [mbind option_bind].
  2:{ cbn. now rewrite app_nil_r. }
  match goal with |- context [toolsStreamLoop true rest ?p ?g3] =>
    pose proof (toolsStreamLoop_stopped rest p g3) as Hnothing;
    destruct (toolsStreamLoop true rest p g3) as [[emitted' exit'] g4] end.
  cbn [fst] in Hnothing. cbn [fst]. rewrite Hnothing;
    [now rewrite app_nil_r | exact Hstop2 |].
  cbn. cbn in Hcount2. lia.
Qed.

End EarlyTermination.

Lemma no_text_after_tool_call_witness :
  let tool :=
    {| toolID := 1; toolName := "add"; toolDescription := "";
       parametersSchema := {| schemaSource := [] |} |} in
  let g :=
    {| jsToolCallback := true; forwarded := []; collected := [];
       coordinator := StreamingCoordinator.initial |} in
  let g1 :=
    withCoordinator
      (StreamingCoordinator.reset 1 true (coordinator g)) g in
  (toolsStreamLoop (H := samplePlatform) true
     ([snapshot "Let me add"]
      ++ toolInvocation tool (JObject []) :: [snapshot "Let me add: 5"])
     "" g1).1.1
  = (toolsStreamLoop (H := samplePlatform) true [snapshot "Let me add"]
       "" g1).1.1.
Proof.
  intros tool g g1.
  apply (no_text_after_tool_call (H := samplePlatform)
           [snapshot "Let me add"] [snapshot "Let me add: 5"] tool
           (JObject []) "{}" 1 g eq_refl eq_refl).
Defined.

(** ** Reassembling the streamed text *)

Lemma string_append_assoc (a b c : string) : (a +:+ b) +:+ c = a +:+ (b +:+ c).
Proof.
  induction a as [|x a IH]; [reflexivity |].
  change (String x ((a +:+ b) +:+ c) = String x (a +:+ (b +:+ c))).
  now f_equal.
Qed.

Lemma string_append_empty (a : string) : a +:+ "" = a.
Proof.
  induction a as [|x a IH]; [reflexivity |].
  change (String x (a +:+ "") = String x a). now f_equal.
Qed.

Lemma joined_from (text : string) (chunks : list Chunk) :
  foldl (fun fullContent chunk => fullContent +:+ default "" chunk) text chunks
  = text +:+ joined chunks.
Proof.
  unfold joined. revert text. induction chunks as [|chunk rest IH]; intros text.
  - cbn. now rewrite string_append_empty.
  - cbn [foldl]. rewrite IH, (IH ("" +:+ default "" chunk)).
    now rewrite string_append_assoc.
Qed.

Lemma joined_cons (chunk : Chunk) (chunks : list Chunk) :
  joined (chunk :: chunks) = default "" chunk +:+ joined chunks.
Proof. unfold joined at 1. cbn [foldl]. now rewrite joined_from. Qed.

Lemma isEmpty_empty (s : string) : SwiftString.isEmpty s = true -> s = "".
Proof. now destruct s. Qed.

Lemma concat_characters_app (front back : list string) :
  String.concat "" (front ++ back)
  = String.concat "" front +:+ String.concat "" back.
Proof.
  induction front as [|x front IH]; [reflexivity |].
  destruct front as [|y front].
  - cbn [app String.concat]. destruct back as [|z back].
    + now rewrite string_append_empty.
    + reflexivity.
  - change (String.concat "" ((x :: y :: front) ++ back))
      with (x +:+ "" +:+ String.concat "" ((y :: front) ++ back)).
    change (String.concat "" (x :: y :: front))
      with (x +:+ "" +:+ String.concat "" (y :: front)).
    rewrite IH. cbn [String.append]. now rewrite string_append_assoc.
Qed.

Section Reassembly.
Context `{Platform}.

(** The platform's [Character]s of a text make up the text. *)
Hypothesis characters_concat :
  forall text, String.concat "" (characters text) = text.

Lemma extendsText_delta (prev cumulative : string) :
  extendsText prev cumulative = true ->
  prev +:+ delta prev cumulative = cumulative.
Proof.
  unfold extendsText, delta. intros Hfirst.
  apply bool_decide_eq_true_1 in Hfirst.
  remember (length (characters prev)) as n eqn:Hn.
  rewrite <- (characters_concat prev), <- Hfirst.
  rewrite <- concat_characters_app, take_drop.
  apply characters_concat.
Qed.

Lemma delta_nulFree (prev cumulative : string) :
  SwiftString.nulFree cumulative = true ->
  SwiftString.nulFree (delta prev cumulative) = true.
Proof.
  intros Hnul. unfold delta.
  rewrite <- (characters_concat cumulative) in Hnul.
  rewrite <- (take_drop (length (characters prev)) (characters cumulative))
    in Hnul.
  rewrite concat_characters_app, nulFree_append in Hnul.
  now apply andb_true_iff in Hnul as [_ Hnul].
Qed.

Lemma basicStreamLoop_joined (events : list StreamEvent) (prev : string) :
  growing prev events = true ->
  forallb nulFreeEvent events = true ->
  prev +:+ joined (basicStreamLoop events prev) = lastSnapshot prev events.
Proof.
  revert prev. induction events as [|[cumulative|tool arguments] rest IH];
    intros prev Hgrow Hnul; cbn [basicStreamLoop lastSnapshot].
  - apply string_append_empty.
  - cbn [growing] in Hgrow. apply andb_true_iff in Hgrow as [Hfirst Hgrow].
    cbn [forallb nulFreeEvent] in Hnul.
    apply andb_true_iff in Hnul as [Hc Hnul].
    rewrite <- (IH cumulative Hgrow Hnul).
    pose proof (extendsText_delta prev cumulative Hfirst) as Hsplit.
    destruct (SwiftString.isEmpty _) eqn:Hempty.
    + apply isEmpty_empty in Hempty. rewrite Hempty in Hsplit.
      rewrite string_append_empty in Hsplit. now rewrite Hsplit.
    + rewrite joined_cons. cbn [default from_option id].
      rewrite withCString_nulFree by now apply delta_nulFree.
      rewrite <- (string_append_assoc prev). now rewrite Hsplit.
  - cbn [growing] in Hgrow. cbn [forallb nulFreeEvent] in Hnul.
    now apply IH.
Qed.

Lemma toolsStreamLoop_exhausted (stop : bool) (events : list StreamEvent)
    (prev : string) (g : Globals) :
  (toolsStreamLoop stop events prev g).1.2 = exhausted ->
  (toolsStreamLoop stop events prev g).1.1 = basicStreamLoop events prev.
Proof.
  revert prev g. induction events as [|[cumulative|tool arguments] rest IH];
    intros prev g; cbn [toolsStreamLoop basicStreamLoop].
  - reflexivity.
  - destruct (stop && _); [discriminate |].
    specialize (IH cumulative g).
    destruct (toolsStreamLoop stop rest cumulative g) as [[emitted exit] g'].
    cbn [fst snd] in IH.
    destruct (SwiftString.isEmpty _); cbn [fst snd]; intros Hexit;
      now rewrite IH.
  - destruct (call tool arguments g) as [[output g1]|]; [apply IH | discriminate].
Qed.

(** X8. The deltas reassemble the text. Swift cuts the deltas by
    [Character]s. On a platform whose [Character]s of a text make up the
    text, when every snapshot the runtime reports extends the one before
    it by whole [Character]s and none holds a NUL character, appending
    the chunks of the streaming loop, in order, gives back the last
    snapshot: nothing is lost, repeated or reordered. That holds for the
    loop of a basic request and for the loop of a tools request that runs
    to the end of the generation; the chunks of a successful basic request
    are those deltas followed by [nil]. *)
Theorem deltas_reassemble_text (events : list StreamEvent) :
  growing "" events = true ->
  forallb nulFreeEvent events = true ->
  joined (basicStreamLoop events "") = lastSnapshot "" events
  /\ (forall stop g,
        (toolsStreamLoop stop events "" g).1.2 = exhausted ->
        joined (toolsStreamLoop stop events "" g).1.1
        = lastSnapshot "" events)
  /\ (forall context,
        streamResponse (transcriptEntries context) [] (currentPrompt context)
                       (options context)
        = {| streamEvents := events; streamFailure := None |} ->
        exists data,
          handleBasicModeStream context = (data ++ [None], None)
          /\ joined data = lastSnapshot "" events).
Proof.
  intros Hgrow Hnul.
  pose proof (basicStreamLoop_joined events "" Hgrow Hnul) as Hjoined.
  cbn [String.append] in Hjoined.
  split; [exact Hjoined |]. split.
  - intros stop g Hexit. now rewrite toolsStreamLoop_exhausted.
  - intros context Hgen. exists (basicStreamLoop events "").
    split; [| exact Hjoined].
    unfold handleBasicModeStream. now rewrite Hgen.
Qed.

End Reassembly.

(** The [Character]s the sample platform gives make up the text. *)
Lemma sampleCharacters_concat (text : string) :
  String.concat "" (sampleCharacters text) = text.
Proof.
  assert (Hboth : forall c,
            String.concat "" (sampleCharacters text) = text
            /\ String.concat "" (sampleCharacters (String c text))
               = String c text).
  { induction text as [|c' rest IH]; intros c; [split; reflexivity |].
    destruct (IH c') as [Hrest Hthis]. split; [exact Hthis |].
    change (sampleCharacters (String c (String c' rest)))
      with (if Ascii.eqb c (ascii_of_nat 13) && Ascii.eqb c' (ascii_of_nat 10)
            then String c (String c' EmptyString) :: sampleCharacters rest
            else String c EmptyString :: sampleCharacters (String c' rest)).
    destruct (Ascii.eqb c (ascii_of_nat 13) && Ascii.eqb c' (ascii_of_nat 10)).
    - change (String.concat "" (?x :: ?l))
        with (String.concat "" ([x] ++ l)).
      rewrite concat_characters_app, Hrest. reflexivity.
    - change (String.concat "" (?x :: ?l))
        with (String.concat "" ([x] ++ l)).
      rewrite concat_characters_app, Hthis. reflexivity. }
  apply (Hboth "a"%char).
Qed.

Lemma deltas_reassemble_text_witness :
  joined (basicStreamLoop (H := samplePlatform)
            [snapshot "The"; snapshot "The answer"; snapshot "The answer is 4"]
            "")
  = "The answer is 4".
Proof.
  apply (deltas_reassemble_text (H := samplePlatform) sampleCharacters_concat
           [snapshot "The"; snapshot "The answer"; snapshot "The answer is 4"]
           eq_refl eq_refl).
Defined.

(** Without whole [Character]s the text is not reassembled: after the
    snapshot that ends in CR, the snapshot that adds LF has as many
    [Character]s, so its delta is empty and the LF is never sent. *)
Example line_feed_lost :
  let cr := String (ascii_of_nat 13) EmptyString in
  let lf := String (ascii_of_nat 10) EmptyString in
  growing (H := samplePlatform) ""
          [snapshot ("a" +:+ cr); snapshot ("a" +:+ cr +:+ lf)] = false
  /\ basicStreamLoop (H := samplePlatform)
       [snapshot ("a" +:+ cr); snapshot ("a" +:+ cr +:+ lf)] ""
     = [Some ("a" +:+ cr)].
Proof. vm_compute. split; reflexivity. Qed.

(** ** The schema compiler *)

Lemma dictionaryAt_subscript {A : Type} (f : JSON -> A) (dict : Dictionary)
    (key : string) :
  dictionaryAt f dict key
  = (fun fields => f (JObject fields)) <$> asDictionary (subscript dict key).
Proof.
  induction dict as [|[k v] dict IH]; [reflexivity |].
  cbn [dictionaryAt subscript]. destruct (String.eqb k key); [| exact IH].
  now destruct v.
Qed.

Lemma eachDictionary_mapM {A : Type} (f : JSON -> A) (items : list JSON) :
  eachDictionary f items
  = map (fun fields => f (JObject fields))
    <$> mapM (fun item => asDictionary (Some item)) items.
Proof.
  induction items as [|item rest IH]; [reflexivity |].
  cbn [eachDictionary mapM]. destruct item; try reflexivity.
  rewrite IH. cbn. now destruct (mapM _ rest).
Qed.

Lemma dictionariesAt_subscript {A : Type} (f : JSON -> A) (dict : Dictionary)
    (key : string) :
  dictionariesAt f dict key
  = map (fun fields => f (JObject fields))
    <$> asDictionaries (subscript dict key).
Proof.
  induction dict as [|[k v] dict IH]; [reflexivity |].
  cbn [dictionariesAt subscript]. destruct (String.eqb k key); [| exact IH].
  destruct v; try reflexivity. apply eachDictionary_mapM.
Qed.

Lemma propertiesAt_subscript {A : Type} (f : string -> JSON -> A)
    (dict : Dictionary) (key : string) :
  propertiesAt f dict key
  = eachProperty f <$> asDictionary (subscript dict key).
Proof.
  induction dict as [|[k v] dict IH]; [reflexivity |].
  cbn [propertiesAt subscript]. destruct (String.eqb k key); [| exact IH].
  now destruct v.
Qed.

Lemma single_enums_of_pairs {X : Type} (single : Dictionary -> option string)
    (g : Dictionary -> X) (anyOf : list Dictionary) :
  (forall fields, single fields = singleEnum fields) ->
  omap fst (map (fun fields => (single fields, g fields)) anyOf)
  = omap singleEnum anyOf.
Proof.
  intros Hsingle. induction anyOf as [|c rest IH]; [reflexivity |].
  cbn [map].
  change (omap ?f (?x :: ?l))
    with (from_option (fun y => y :: omap f l) (omap f l) (f x)).
  rewrite IH. cbn [fst]. now rewrite Hsingle.
Qed.

Lemma other_choices_of_pairs {X : Type} (single : Dictionary -> option string)
    (g : Dictionary -> X) (anyOf : list Dictionary) :
  (forall fields, single fields = singleEnum fields) ->
  omap (fun choice : option string * X =>
          match fst choice with
          | Some _ => None
          | None => Some (snd choice)
          end)
       (map (fun fields => (single fields, g fields)) anyOf)
  = map g (List.filter notSingleEnum anyOf).
Proof.
  intros Hsingle. induction anyOf as [|c rest IH]; [reflexivity |].
  cbn [map List.filter].
  change (omap ?f (?x :: ?l))
    with (from_option (fun y => y :: omap f l) (omap f l) (f x)).
  rewrite IH. cbn [fst snd]. rewrite Hsingle.
  unfold notSingleEnum. destruct (singleEnum c); reflexivity.
Qed.

Section SchemaCompilerFacts.
Context `{Bridging}.

(** The compiler, as the code reads: its recursive calls are calls of
    [convertJSONSchemaToDynamic] on the dictionaries found. *)
Lemma convertJSONSchemaToDynamic_equation (dict : Dictionary)
    (name : option string) :
  convertJSONSchemaToDynamic dict name
  = match asString (subscript dict "$ref") with
    | Some ref => referenceTo ref
    | None =>
        match asDictionaries (subscript dict "anyOf") with
        | Some anyOf =>
            let stringChoices := omap singleEnum anyOf in
            let dynamicChoices :=
              map (fun choice => convertJSONSchemaToDynamic choice None)
                  (List.filter notSingleEnum anyOf) in
            if negb (bool_decide (stringChoices = []))
               && bool_decide (length dynamicChoices = 0%nat)
            then anyOfStrings (orFreshUUID name)
                              (asString (subscript dict "description"))
                              stringChoices
            else
              anyOfSchemas (orFreshUUID name)
                (asString (subscript dict "description"))
                (if bool_decide (length dynamicChoices = 0%nat)
                 then map (fun choice =>
                             convertJSONSchemaToDynamic choice None) anyOf
                 else dynamicChoices)
        | None =>
            match asStrings (subscript dict "enum") with
            | Some enums =>
                anyOfStrings (orFreshUUID name)
                             (asString (subscript dict "description")) enums
            | None =>
                match asString (subscript dict "type") with
                | None => ofType StringType
                | Some type =>
                    if String.eqb type "string" then ofType StringType
                    else if String.eqb type "number" then ofType DoubleType
                    else if String.eqb type "integer" then ofType IntType
                    else if String.eqb type "boolean" then ofType BoolType
                    else if String.eqb type "array" then
                      match asDictionary (subscript dict "items") with
                      | Some items =>
                          arrayOf (convertJSONSchemaToDynamic items None)
                                  (asInt (subscript dict "minItems"))
                                  (asInt (subscript dict "maxItems"))
                      | None => arrayOf (ofType StringType) None None
                      end
                    else if String.eqb type "object" then
                      let required :=
                        default [] (asStrings (subscript dict "required")) in
                      objectSchema (default "Object" name)
                        (asString (subscript dict "description"))
                        (default []
                           (eachProperty
                              (fun propName subSchema =>
                                 let subSchemaDict :=
                                   default [] (asDictionary (Some subSchema)) in
                                 mkProperty propName
                                   (asString
                                      (subscript subSchemaDict "description"))
                                   (convertJSONSchemaToDynamic subSchemaDict
                                                               (Some propName))
                                   (negb (bool_decide (propName ∈ required))))
                            <$> asDictionary (subscript dict "properties")))
                    else ofType StringType
                end
            end
        end
    end.
Proof.
  match goal with |- _ = ?rhs => set (reading := rhs) end.
  unfold convertJSONSchemaToDynamic. cbn [convertSchema].
  subst reading. unfold convertJSONSchemaToDynamic.
  generalize convertSchema. intros recur.
  destruct (asString (subscript dict "$ref")); [reflexivity |].
  rewrite dictionariesAt_subscript.
  destruct (asDictionaries (subscript dict "anyOf")) as [anyOf|];
    cbn [fmap option_fmap option_map].
  - cbn zeta.
    rewrite !single_enums_of_pairs, !other_choices_of_pairs by reflexivity.
    rewrite map_map. reflexivity.
  - destruct (asStrings (subscript dict "enum")); [reflexivity |].
    destruct (asString (subscript dict "type")) as [type|]; [| reflexivity].
    repeat (destruct (String.eqb type _); [reflexivity |]).
    destruct (String.eqb type "array").
    { rewrite dictionaryAt_subscript.
      now destruct (asDictionary (subscript dict "items")). }
    destruct (String.eqb type "object"); [| reflexivity].
    rewrite propertiesAt_subscript. cbn zeta. f_equal. f_equal.
    destruct (asDictionary (subscript dict "properties")) as [properties|];
      [| reflexivity].
    cbn [fmap option_fmap option_map]. f_equal.
    induction properties as [|[propName subSchema] rest IH]; [reflexivity |].
    cbn [eachProperty]. destruct subSchema; try exact IH. now f_equal.
Qed.

Lemma single_enums_all (anyOf : list Dictionary) :
  forallb (fun choice => negb (notSingleEnum choice)) anyOf = true ->
  List.filter notSingleEnum anyOf = []
  /\ length (omap singleEnum anyOf) = length anyOf.
Proof.
  induction anyOf as [|c rest IH]; [done |]. cbn [forallb List.filter].
  intros [Hc Hrest]%andb_true_iff. destruct (IH Hrest) as [Hnone Hlength].
  apply negb_true_iff in Hc. rewrite Hc. split; [exact Hnone |].
  change (omap ?f (?x :: ?l))
    with (from_option (fun y => y :: omap f l) (omap f l) (f x)).
  unfold notSingleEnum in Hc. destruct (singleEnum c); [| discriminate].
  cbn. now rewrite Hlength.
Qed.

Lemma other_choice_exists (anyOf : list Dictionary) :
  existsb notSingleEnum anyOf = true ->
  List.filter notSingleEnum anyOf <> [].
Proof.
  induction anyOf as [|c rest IH]; [discriminate |].
  cbn [existsb List.filter]. destruct (notSingleEnum c); [discriminate |].
  exact IH.
Qed.

(** X9. What becomes of an [anyOf]. When every choice is an [enum] of
    one string (and there is a choice), the union becomes one schema of
    string choices, one per choice and in order. Otherwise, so as soon as
    one choice is anything else, the union is made of the compiled other
    choices alone: in a mixed union the one-string enums are lost. (The
    branch of the code that compiles every choice runs on the empty union
    only.) *)
Theorem mixed_anyOf_loses_single_enums (dict : Dictionary)
    (name : option string) (anyOf : list Dictionary) :
  asString (subscript dict "$ref") = None ->
  asDictionaries (subscript dict "anyOf") = Some anyOf ->
  let description := asString (subscript dict "description") in
  (anyOf <> [] ->
   forallb (fun choice => negb (notSingleEnum choice)) anyOf = true ->
   convertJSONSchemaToDynamic dict name
   = anyOfStrings (orFreshUUID name) description (omap singleEnum anyOf)
   /\ length (omap singleEnum anyOf) = length anyOf)
  /\ (anyOf = [] \/ existsb notSingleEnum anyOf = true ->
      convertJSONSchemaToDynamic dict name
      = anyOfSchemas (orFreshUUID name) description
          (map (fun choice => convertJSONSchemaToDynamic choice None)
               (List.filter notSingleEnum anyOf))).
Proof.
  intros Href HanyOf description.
  rewrite convertJSONSchemaToDynamic_equation, Href, HanyOf. cbn zeta.
  split.
  - intros Hsome Hall. destruct (single_enums_all anyOf Hall) as [Hnone Hlength].
    split; [| exact Hlength]. rewrite Hnone. cbn [map length].
    rewrite bool_decide_eq_false_2; [reflexivity |].
    intros Hempty. rewrite Hempty in Hlength. now destruct anyOf.
  - intros [-> | Hother]; [reflexivity |].
    apply other_choice_exists in Hother.
    rewrite (bool_decide_eq_false_2 (length _ = 0%nat)).
    + now rewrite andb_false_r.
    + rewrite length_map. now destruct (List.filter notSingleEnum anyOf).
Qed.

(** X10. The compiler reads ten keys of a schema dictionary and no other:
    two dictionaries that agree on those keys compile to the same schema.
    So [format], [pattern], [minimum], [maximum], [minLength], [default],
    [const], [oneOf], [allOf], [additionalProperties] and the like never
    constrain the generation. *)
Theorem only_schema_keys_matter (dict dict' : Dictionary)
    (name : option string) :
  (forall key, In key schemaKeys -> subscript dict key = subscript dict' key) ->
  convertJSONSchemaToDynamic dict name = convertJSONSchemaToDynamic dict' name.
Proof.
  intros Hkeys.
  assert (Hkey : forall key,
            bool_decide (key ∈ schemaKeys) = true ->
            subscript dict key = subscript dict' key).
  { intros key Hin. apply Hkeys, list_elem_of_In.
    now apply bool_decide_eq_true in Hin. }
  rewrite !convertJSONSchemaToDynamic_equation.
  rewrite (Hkey "$ref"), (Hkey "anyOf"), (Hkey "description"), (Hkey "enum"),
    (Hkey "type"), (Hkey "items"), (Hkey "minItems"), (Hkey "maxItems"),
    (Hkey "required"), (Hkey "properties") by reflexivity.
  reflexivity.
Qed.

Lemma prefix_append (text more : string) :
  String.prefix text (text +:+ more) = true.
Proof.
  induction text as [|c text IH]; [now destruct more |].
  change (String.prefix (String c text) (String c (text +:+ more)) = true).
  cbn [String.prefix]. now destruct (ascii_dec c c).
Qed.

Lemma dropFirst_append (text more : string) :
  SwiftString.dropFirst (SwiftString.count text) (text +:+ more) = more.
Proof. induction text as [|c text IH]; [reflexivity | exact IH]. Qed.

(** X11. The root of a schema that names it by reference. For a schema
    whose [$ref] is [#/definitions/] followed by a name (what
    [zodToJsonSchema] writes), the root is the definition of that name,
    compiled under that name, and the dependencies are the other
    definitions that are dictionaries, each compiled under its key: the
    root is not among its own dependencies. When [definitions] has no
    dictionary for the name, the root stays a reference that carries the
    whole text of the [$ref]. *)
Theorem root_reference_resolved (json defs : Dictionary) (rootName : string) :
  asString (subscript json "$ref") = Some ("#/definitions/" +:+ rootName) ->
  asDictionary (subscript json "definitions") = Some defs ->
  let others :=
    omap (fun definition : string * JSON =>
            match definition.2 with
            | JObject subDict =>
                if String.eqb definition.1 rootName then None
                else Some (convertJSONSchemaToDynamic subDict
                                                      (Some definition.1))
            | _ => None
            end)
         defs in
  (forall rootDef,
     asDictionary (subscript defs rootName) = Some rootDef ->
     buildSchemasFromJson json
     = (convertJSONSchemaToDynamic rootDef (Some rootName), others))
  /\ (asDictionary (subscript defs rootName) = None ->
      buildSchemasFromJson json
      = (referenceTo ("#/definitions/" +:+ rootName), others)).
Proof.
  intros Href Hdefs others.
  assert (Hothers : forall definitions : Dictionary,
    omap (fun '(name, subAny) =>
            match subAny with
            | JObject subDict =>
                if bool_decide (Some rootName = Some name) then None
                else Some (convertJSONSchemaToDynamic subDict (Some name))
            | _ => None
            end)
         definitions
    = omap (fun definition : string * JSON =>
              match definition.2 with
              | JObject subDict =>
                  if String.eqb definition.1 rootName then None
                  else Some (convertJSONSchemaToDynamic subDict
                                                        (Some definition.1))
              | _ => None
              end)
           definitions).
  { induction definitions as [|[name sub] rest IH]; [reflexivity |].
    change (omap ?f (?x :: ?l))
      with (from_option (fun y => y :: omap f l) (omap f l) (f x)).
    rewrite IH. cbn [fst snd]. destruct sub; try reflexivity.
    destruct (String.eqb_spec name rootName) as [-> | Hne].
    - now rewrite bool_decide_eq_true_2.
    - rewrite bool_decide_eq_false_2; [reflexivity | congruence]. }
  unfold buildSchemasFromJson. rewrite Href, Hdefs.
  rewrite prefix_append, dropFirst_append. cbn zeta. rewrite Hothers.
  fold others. split.
  - intros rootDef ->. reflexivity.
  - intros ->. rewrite convertJSONSchemaToDynamic_equation, Href. reflexivity.
Qed.

End SchemaCompilerFacts.

Lemma mixed_anyOf_loses_single_enums_witness :
  convertJSONSchemaToDynamic (H := sampleBridging)
    [("anyOf",
      JArray [JObject [("enum", JArray [JString "auto"])];
              JObject [("type", JString "number")]])]
    (Some "size")
  = anyOfSchemas (named "size") None [ofType DoubleType].
Proof.
  refine (proj2
            (mixed_anyOf_loses_single_enums (H := sampleBridging)
               [("anyOf",
                 JArray [JObject [("enum", JArray [JString "auto"])];
                         JObject [("type", JString "number")]])]
               (Some "size")
               [[("enum", JArray [JString "auto"])];
                [("type", JString "number")]]
               eq_refl eq_refl)
            _).
  right. reflexivity.
Defined.

Lemma only_schema_keys_matter_witness :
  convertJSONSchemaToDynamic (H := sampleBridging)
    [("type", JString "string"); ("format", JString "email");
     ("minLength", JNumber 3)]
    None
  = convertJSONSchemaToDynamic (H := sampleBridging)
      [("type", JString "string")] None.
Proof.
  apply (only_schema_keys_matter (H := sampleBridging)).
  intros key Hin. cbn in Hin.
  repeat (destruct Hin as [<- | Hin]; [reflexivity |]). destruct Hin.
Defined.

Lemma root_reference_resolved_witness :
  buildSchemasFromJson (H := sampleBridging)
    [("$ref", JString "#/definitions/Root");
     ("definitions",
      JObject [("Root", JObject [("type", JString "object")]);
               ("Unit", JObject [("enum", JArray [JString "C"; JString "F"])])])]
  = (objectSchema "Root" None [],
     [anyOfStrings (named "Unit") None ["C"; "F"]]).
Proof.
  refine (proj1
            (root_reference_resolved (H := sampleBridging)
               [("$ref", JString "#/definitions/Root");
                ("definitions",
                 JObject [("Root", JObject [("type", JString "object")]);
                          ("Unit",
                           JObject [("enum",
                                     JArray [JString "C"; JString "F"])])])]
               [("Root", JObject [("type", JString "object")]);
                ("Unit", JObject [("enum", JArray [JString "C"; JString "F"])])]
               "Root" eq_refl eq_refl)
            [("type", JString "object")] eq_refl).
Defined.

(** ** More on the TypeScript layer *)

Lemma toolMap_fold (tools : list EphemeralTool) (toolMap : gmap Z EphemeralTool)
    (toolId id : Z) :
  (foldl (fun '(toolMap, toolId) tool =>
            (<[toolId := tool]> toolMap, toolId + 1))
         (toolMap, toolId) tools).1 !! id
  = if bool_decide (toolId <= id < toolId + Z.of_nat (length tools))
    then tools !! Z.to_nat (id - toolId)
    else toolMap !! id.
Proof.
  revert toolMap toolId. induction tools as [|tool rest IH]; intros toolMap toolId.
  - cbn. rewrite bool_decide_eq_false_2 by lia. reflexivity.
  - cbn [foldl length]. rewrite IH.
    repeat case_bool_decide; try lia.
    + replace (Z.to_nat (id - toolId)) with (S (Z.to_nat (id - (toolId + 1))))
        by lia.
      reflexivity.
    + assert (id = toolId) as -> by lia.
      rewrite lookup_insert_eq. now rewrite Z.sub_diag.
    + rewrite lookup_insert_ne by lia. reflexivity.
Qed.

Lemma toolMapOf_toolAt (tools : list EphemeralTool) (id : Z) :
  toolMapOf tools !! id = toolAt tools id.
Proof.
  unfold toolMapOf, toolAt. rewrite toolMap_fold, lookup_empty.
  destruct (Z.leb_spec 0 (id - 1)); case_bool_decide; try lia; try reflexivity.
  symmetry. apply lookup_ge_None. lia.
Qed.

Section ToolIds.
Context `{Platform}.

Lemma buildTools_schemas (tools : list EphemeralTool) (offset : nat)
    (proxies : list JSProxyTool) :
  Z.of_nat (offset + length tools) < 2 ^ 64 ->
  buildTools
    (imap (fun idx tool =>
             [("id", JNumber (Z.of_nat (offset + idx) + 1));
              ("name", JString (ephemeralName tool));
              ("description",
               JString (default "" (ephemeralDescription tool)));
              ("parameters", jsonSchema tool)])
          tools)
  = Returned proxies ->
  map (fun proxy => (toolID proxy, toolName proxy, toolDescription proxy))
      proxies
  = imap (fun idx tool =>
            (Z.of_nat (offset + idx) + 1, ephemeralName tool,
             default "" (ephemeralDescription tool)))
         tools.
Proof.
  revert offset proxies. induction tools as [|tool rest IH];
    intros offset proxies Hsmall.
  - cbn. now intros [= <-].
  - cbn [imap buildTools subscript String.eqb Ascii.eqb Bool.eqb asUInt64
         asString length].
    cbn [length] in Hsmall.
    replace ((0 <=? Z.of_nat (offset + 0) + 1)
             && (Z.of_nat (offset + 0) + 1 <? 2 ^ 64)) with true
      by (symmetry; apply andb_true_iff; split;
          [apply Z.leb_le | apply Z.ltb_lt]; lia).
    destruct (schemaError _) as [description|]; [discriminate |].
    destruct (buildTools _) as [description|built] eqn:Hbuilt; [discriminate |].
    intros [= <-]. cbn [map]. f_equal.
    specialize (IH (S offset) built).
    rewrite (imap_ext _ (fun idx tool =>
               [("id", JNumber (Z.of_nat (S offset + idx) + 1));
                ("name", JString (ephemeralName tool));
                ("description",
                 JString (default "" (ephemeralDescription tool)));
                ("parameters", jsonSchema tool)])) in Hbuilt.
    2:{ intros idx t _. cbn. do 3 f_equal. lia. }
    rewrite IH; [| lia | exact Hbuilt].
    apply imap_ext. intros idx t _. cbn. do 3 f_equal. lia.
Qed.

(** X12. Tool ids survive the round trip. The TypeScript layer numbers
    the tools of a request from 1 in the descriptions it sends; the proxy
    tools the Swift layer builds from those descriptions carry the same
    ids, names and descriptions, in the same order and none is skipped; and
    the id a proxy forwards with a call leads the callbacks back to the
    tool it was made for, whether they look it up in [toolMap] or at
    [tools[id - 1]]. *)
Theorem tool_ids_round_trip (tools : list EphemeralTool)
    (proxies : list JSProxyTool) :
  Z.of_nat (length tools) < 2 ^ 64 ->
  buildTools (toolSchemas tools) = Returned proxies ->
  map (fun proxy => (toolID proxy, toolName proxy, toolDescription proxy))
      proxies
  = imap (fun idx tool =>
            (Z.of_nat idx + 1, ephemeralName tool,
             default "" (ephemeralDescription tool)))
         tools
  /\ (forall idx tool,
        tools !! idx = Some tool ->
        toolAt tools (Z.of_nat idx + 1) = Some tool
        /\ toolMapOf tools !! (Z.of_nat idx + 1) = Some tool)
  /\ (forall id, toolMapOf tools !! id = toolAt tools id).
Proof.
  intros Hsmall Hbuilt. split; [| split].
  - apply (buildTools_schemas tools 0 proxies); [exact Hsmall | exact Hbuilt].
  - intros idx tool Hidx.
    assert (Hat : toolAt tools (Z.of_nat idx + 1) = Some tool).
    { unfold toolAt. replace (Z.of_nat idx + 1 - 1) with (Z.of_nat idx) by lia.
      rewrite (proj2 (Z.leb_le 0 (Z.of_nat idx))) by lia.
      now rewrite Nat2Z.id. }
    split; [exact Hat |]. now rewrite toolMapOf_toolAt.
  - apply toolMapOf_toolAt.
Qed.

End ToolIds.

Lemma tool_ids_round_trip_witness :
  map (fun proxy => (toolID proxy, toolName proxy, toolDescription proxy))
      [{| toolID := 1; toolName := "add"; toolDescription := "";
          parametersSchema :=
            {| schemaSource := [("type", JString "object")] |} |}]
  = imap (fun idx tool =>
            (Z.of_nat idx + 1, ephemeralName tool,
             default "" (ephemeralDescription tool)))
         [sampleTool].
Proof.
  refine (proj1 (tool_ids_round_trip (H := samplePlatform) [sampleTool] _
                   _ eq_refl)).
  reflexivity.
Defined.

Section BridgeInvariant.
Context `{JavaScript}.

Lemma toolResult_accounted (id : Z) (resultJson : string) (b : Bridge) :
  accounted (toolResult id resultJson b) = S (accounted b)
  /\ pendingToolCalls (toolResult id resultJson b) = pendingToolCalls b
  /\ registered (toolResult id resultJson b) = registered b.
Proof.
  unfold accounted. cbn. rewrite length_app. cbn. repeat split; lia.
Qed.

Lemma tool_call_key_inj (uuid uuid' : string) :
  "tool-call-" +:+ uuid = "tool-call-" +:+ uuid' -> uuid = uuid'.
Proof. intros Hkey. vm_compute in Hkey. now injection Hkey. Qed.

Lemma externalToolCallback_accounted (tools : list EphemeralTool)
    (err : option string) (id : Z) (argsJson uuid : string) (b : Bridge) :
  pendingToolCalls b !! ("tool-call-" +:+ uuid) = None ->
  let b' := externalToolCallback tools err id argsJson uuid b in
  accounted b' = S (accounted b)
  /\ registered b' = registered b
  /\ dom (pendingToolCalls b')
     ⊆ dom (pendingToolCalls b) ∪ {["tool-call-" +:+ uuid]}.
Proof.
  intros Hfresh b'. subst b'. unfold externalToolCallback.
  assert (Hanswer : forall resultJson,
            accounted (toolResult id resultJson b) = S (accounted b)
            /\ registered (toolResult id resultJson b) = registered b
            /\ dom (pendingToolCalls (toolResult id resultJson b))
               ⊆ dom (pendingToolCalls b) ∪ {["tool-call-" +:+ uuid]}).
  { intros resultJson.
    destruct (toolResult_accounted id resultJson b) as (-> & -> & ->).
    repeat split. set_solver. }
  destruct err; [apply Hanswer |].
  destruct (toolAt tools id) as [tool|]; [| apply Hanswer].
  destruct (JSON_parse argsJson) as [error|args]; [apply Hanswer |].
  unfold accounted. cbn. rewrite map_size_insert_None by exact Hfresh.
  repeat split; [lia |]. rewrite dom_insert. set_solver.
Qed.

Lemma injectToolResult_accounted (toolCallId : string) (result : JSValue)
    (b : Bridge) :
  let b' := injectToolResult toolCallId result b in
  accounted b' = accounted b
  /\ registered b' = registered b
  /\ dom (pendingToolCalls b') ⊆ dom (pendingToolCalls b).
Proof.
  intros b'. subst b'. unfold injectToolResult.
  destruct (pendingToolCalls b !! toolCallId) as [pendingCall|] eqn:Hpending;
    [| done].
  unfold resumeWith.
  assert (Hanswer : forall resultJson,
            let b1 := toolResult (pendingToolId pendingCall) resultJson b in
            accounted
              {| toolResults := toolResults b1;
                 pendingToolCalls := delete toolCallId (pendingToolCalls b1);
                 readable := readable b1; destroyed := destroyed b1;
                 registered := registered b1 |}
            = accounted b
            /\ registered b1 = registered b
            /\ dom (delete toolCallId (pendingToolCalls b1))
               ⊆ dom (pendingToolCalls b)).
  { intros resultJson b1. subst b1. unfold accounted. cbn.
    rewrite length_app, map_size_delete, Hpending. cbn.
    assert (size (pendingToolCalls b) <> 0%nat).
    { intros Hzero. apply map_size_empty_inv in Hzero.
      rewrite Hzero, lookup_empty in Hpending. discriminate. }
    repeat split; [lia |]. rewrite dom_delete. set_solver. }
  destruct (stringifyOrNull result) as [error|resultJson]; apply Hanswer.
Qed.

Lemma externalStreamCallback_accounted (err : option string)
    (chunk : option string) (b : Bridge) :
  let b' := externalStreamCallback err chunk b in
  accounted b' = accounted b
  /\ pendingToolCalls b' = pendingToolCalls b
  /\ registered b'
     = (if endsStream (streamed err chunk) then false else registered b).
Proof.
  unfold externalStreamCallback, accounted.
  destruct err; [done |]. now destruct chunk as [[|c rest]|].
Qed.

Lemma bridge_accounted (tools : list EphemeralTool)
    (events : list BridgeEvent) (b : Bridge) :
  NoDup (uuidsDrawn events) ->
  (forall uuid, uuid ∈ uuidsDrawn events ->
                pendingToolCalls b !! ("tool-call-" +:+ uuid) = None) ->
  accounted (foldl (fun b e => bridgeStep tools e b) b events)
  = (accounted b
     + if registered b then invocationsBeforeEnd events else 0)%nat.
Proof.
  revert b. induction events as [|e rest IH]; intros b Hnodup Hfresh.
  - cbn. destruct (registered b); lia.
  - cbn [foldl].
    destruct e as [err id argsJson uuid | err chunk | toolCallId result].
    + cbn [uuidsDrawn omap list_omap] in Hnodup, Hfresh.
      change (omap ?f rest) with (uuidsDrawn rest) in Hnodup, Hfresh.
      apply NoDup_cons in Hnodup as [Hnew Hnodup].
      cbn [bridgeStep invocationsBeforeEnd endsStream].
      destruct (registered b) eqn:Hreg.
      * destruct (externalToolCallback_accounted tools err id argsJson uuid b)
          as (Hcount & Hreg' & Hdom).
        { apply Hfresh. set_solver. }
        rewrite IH; [rewrite Hcount, Hreg', Hreg; lia | exact Hnodup |].
        intros uuid' Hin. apply not_elem_of_dom. intros Hkey.
        apply Hdom in Hkey. apply elem_of_union in Hkey as [Hkey | Hkey].
        -- apply elem_of_dom in Hkey as [pending Hkey].
           rewrite Hfresh in Hkey by set_solver. discriminate.
        -- apply elem_of_singleton in Hkey.
           apply tool_call_key_inj in Hkey. subst uuid'. contradiction.
      * rewrite IH; [now rewrite Hreg | exact Hnodup |].
        intros uuid' Hin. apply Hfresh. set_solver.
    + cbn [bridgeStep].
      destruct (externalStreamCallback_accounted err chunk b)
        as (Hcount & Hpending & Hreg').
      change (uuidsDrawn (streamed err chunk :: rest)) with (uuidsDrawn rest)
        in Hnodup, Hfresh.
      rewrite IH; [| exact Hnodup | now rewrite Hpending].
      rewrite Hcount, Hreg'. cbn [invocationsBeforeEnd].
      destruct (endsStream (streamed err chunk)); [destruct (registered b); lia |].
      reflexivity.
    + cbn [bridgeStep].
      destruct (injectToolResult_accounted toolCallId result b)
        as (Hcount & Hreg' & Hdom).
      change (uuidsDrawn (injected toolCallId result :: rest))
        with (uuidsDrawn rest) in Hnodup, Hfresh.
      rewrite IH; [now rewrite Hcount, Hreg' | exact Hnodup |].
      intros uuid' Hin. apply not_elem_of_dom. intros Hkey.
      apply Hdom, elem_of_dom in Hkey as [pending Hkey].
      rewrite Hfresh in Hkey by exact Hin. discriminate.
Qed.

(** X13. No tool call of [streamChatWithExternalTools] is lost or
    answered twice. Whatever the order of tool invocations, stream chunks
    and injected results, and as long as the UUIDs drawn are distinct, the
    number of results handed to the native layer plus the number of pending
    calls is the number of tool invocations that came before the end of
    the stream: each of them is answered once or is still pending, and
    injecting a result for an id that is unknown or already answered does
    nothing. *)
Theorem calls_answered_once_or_pending (tools : list EphemeralTool)
    (events : list BridgeEvent) :
  NoDup (uuidsDrawn events) ->
  (length (toolResults (bridgeRun tools events))
   + size (pendingToolCalls (bridgeRun tools events)))%nat
  = invocationsBeforeEnd events
  /\ (forall toolCallId result result',
        let b := bridgeRun tools events in
        (pendingToolCalls b !! toolCallId = None ->
         injectToolResult toolCallId result b = b)
        /\ injectToolResult toolCallId result'
             (injectToolResult toolCallId result b)
           = injectToolResult toolCallId result b).
Proof.
  intros Hnodup. split.
  - unfold bridgeRun.
    pose proof (bridge_accounted tools events started Hnodup) as Hcount.
    unfold accounted in Hcount. rewrite Hcount; [reflexivity |].
    intros uuid _. apply lookup_empty.
  - intros toolCallId result result' b.
    assert (Hnone : forall b0 r,
              pendingToolCalls b0 !! toolCallId = None ->
              injectToolResult toolCallId r b0 = b0).
    { intros b0 r Hpending. unfold injectToolResult. now rewrite Hpending. }
    split; [apply Hnone |].
    apply Hnone. unfold injectToolResult.
    destruct (pendingToolCalls b !! toolCallId) eqn:Hpending;
      [| exact Hpending].
    cbn. apply lookup_delete_eq.
Qed.

End BridgeInvariant.

Lemma calls_answered_once_or_pending_witness :
  (length (toolResults
             (bridgeRun (H := sampleJavaScript) [sampleTool]
                [toolInvoked None 1 "{}" "7f3c"; toolInvoked None 2 "{}" "81aa";
                 injected "tool-call-7f3c" (jsonValue (JNumber 5));
                 streamed None None; toolInvoked None 1 "{}" "93bd"]))
   + size (pendingToolCalls
             (bridgeRun (H := sampleJavaScript) [sampleTool]
                [toolInvoked None 1 "{}" "7f3c"; toolInvoked None 2 "{}" "81aa";
                 injected "tool-call-7f3c" (jsonValue (JNumber 5));
                 streamed None None; toolInvoked None 1 "{}" "93bd"])))%nat
  = 2%nat.
Proof.
  refine (proj1 (calls_answered_once_or_pending (H := sampleJavaScript)
                   [sampleTool]
                   [toolInvoked None 1 "{}" "7f3c";
                    toolInvoked None 2 "{}" "81aa";
                    injected "tool-call-7f3c" (jsonValue (JNumber 5));
                    streamed None None; toolInvoked None 1 "{}" "93bd"]
                   _)).
  cbn. repeat constructor; set_solver.
Defined.

(** ** The consumer of [streamResponse] *)

Lemma consume_snoc (events : list IteratorEvent) (e : IteratorEvent) :
  consume (events ++ [e]) = consumerStep (consume events) e.
Proof. unfold consume. now rewrite foldl_app. Qed.

Lemma textArrived_snoc (events : list IteratorEvent) (e : IteratorEvent) :
  textArrived (events ++ [e])
  = textArrived events
    ++ match e with
       | chunkArrived None (Some (String c rest)) => [String c rest]
       | _ => []
       end.
Proof.
  unfold textArrived. rewrite omap_app. f_equal.
  destruct e as [[e|] [[|c rest]|]|]; reflexivity.
Qed.

Lemma valuesOf_snoc (results : list IteratorResult) (r : IteratorResult) :
  valuesOf (results ++ [r])
  = valuesOf results
    ++ match r with yielded value => [value] | _ => [] end.
Proof. unfold valuesOf. rewrite omap_app. f_equal. now destruct r. Qed.

Lemma consume_consistent (events : list IteratorEvent) :
  consistent (consume events) events.
Proof.
  induction events as [|e events IH] using rev_ind.
  - repeat split; try done.
  - rewrite consume_snoc. destruct IH as (Hwait & Hpending & Herror & Hfifo).
    destruct (consume events) as [it waiting got]. cbn in *.
    unfold consistent. rewrite textArrived_snoc, <- Hfifo.
    assert (Hwaiting : pendingResolve it = true ->
              pendingReject it = true /\ queue it = [] /\ done it = false
              /\ error it = None).
    { intros Hresolve. destruct (Hpending Hresolve) as (? & ? & Hdone).
      repeat split; try done. destruct (error it) eqn:Herr; [| done].
      rewrite Herror in Hdone; done. }
    clear Hpending.
    destruct e as [err chunk|].
    + unfold consumerStep, handleChunk. cbn [iterator].
      destruct err as [e|]; [| destruct chunk as [[|c rest]|]];
        destruct (pendingResolve it) eqn:Hresolve;
        try (destruct (Hwaiting eq_refl) as (Hreject & Hqueue & Hdone & Herr);
             rewrite ?Hreject, ?Hqueue);
        try (destruct (pendingReject it) eqn:Hreject');
        cbn [signalled];
        rewrite ?drop_app_length, ?drop_all; subst waiting;
        cbn [iterator unsettled received queue done error pendingResolve
             pendingReject];
        rewrite ?valuesOf_snoc, ?app_nil_r, ?app_assoc;
        repeat split; try done.
    + unfold consumerStep, next. cbn [iterator]. rewrite app_nil_r.
      destruct (queue it) as [|value rest] eqn:Hqueue.
      * destruct (done it) eqn:Hdone.
        { cbn. rewrite valuesOf_snoc, Hqueue. cbn.
          rewrite !app_nil_r. repeat split; try done.
          all: destruct (Hwaiting ltac:(assumption)) as (? & ? & ? & ?); done. }
        destruct (error it) as [e|] eqn:Herr.
        { exfalso. assert (false = true) by now apply Herror. discriminate. }
        cbn. rewrite app_nil_r. repeat split; try done.
      * cbn. rewrite valuesOf_snoc. cbn. rewrite <- app_assoc.
        repeat split; try done.
        all: destruct (Hwaiting ltac:(assumption)) as (? & ? & ? & ?);
          congruence.
Qed.

Lemma drain_queue (values : list string) (it : StreamIterator)
    (waiting : bool) (got : list IteratorResult) :
  queue it = values ->
  received
    (foldl consumerStep
           {| iterator := it; unsettled := waiting; received := got |}
           (replicate (length values) nextCalled))
  = got ++ map yielded values.
Proof.
  revert it got. induction values as [|value rest IH]; intros it got Hqueue.
  - cbn. now rewrite app_nil_r.
  - cbn [length replicate foldl]. unfold consumerStep at 2, next.
    cbn [iterator]. rewrite Hqueue. cbn [unsettled received].
    rewrite IH by reflexivity. now rewrite <- app_assoc.
Qed.

Lemma valuesOf_app (results more : list IteratorResult) :
  valuesOf (results ++ more) = valuesOf results ++ valuesOf more.
Proof. apply omap_app. Qed.

Lemma valuesOf_yielded (values : list string) :
  valuesOf (map yielded values) = values.
Proof. induction values as [|v rest IH]; [done |]. cbn. now f_equal. Qed.

(** X14. [streamResponse] delivers the text in order and loses none of
    it. Whatever the order in which chunks arrive and the consumer calls
    [next()], the values the consumer has got, followed by the values still
    queued, are the non-empty chunks that have arrived, in their order; and
    as many further calls of [next()] as values are queued hand over the
    rest. *)
Theorem stream_response_is_fifo (events : list IteratorEvent) :
  valuesOf (received (consume events)) ++ queue (iterator (consume events))
  = textArrived events
  /\ valuesOf
       (received
          (consume
             (events
              ++ replicate (length (queue (iterator (consume events))))
                           nextCalled)))
     = textArrived events.
Proof.
  destruct (consume_consistent events) as (_ & _ & _ & Hfifo).
  split; [exact Hfifo |].
  unfold consume at 1. rewrite foldl_app. fold (consume events).
  destruct (consume events) as [it waiting got]. cbn [iterator] in *.
  rewrite (drain_queue (queue it)) by reflexivity.
  now rewrite valuesOf_app, valuesOf_yielded.
Qed.

(** After an error that found nobody waiting. *)
Lemma ended_quietly (c : Consumer) (more : list IteratorEvent) :
  done (iterator c) = true ->
  unsettled c = false ->
  List.filter isThrown (received (foldl consumerStep c more))
  = List.filter isThrown (received c).
Proof.
  revert c. induction more as [|e more IH]; intros c Hdone Hsettled; [done |].
  cbn [foldl]. destruct c as [it waiting got]. cbn in Hdone, Hsettled.
  subst waiting.
  destruct e as [err chunk|].
  - unfold consumerStep, handleChunk. cbn [iterator unsettled received].
    destruct err as [e|]; [| destruct chunk as [[|c rest]|]];
      try destruct (pendingReject it); try destruct (pendingResolve it);
      cbn [signalled]; rewrite ?drop_app_length, ?drop_all;
      rewrite IH; try done.
  - unfold consumerStep, next. cbn [iterator unsettled received].
    destruct (queue it) as [|value rest].
    + rewrite Hdone. rewrite IH by done. cbn [received].
      rewrite List.filter_app. cbn. now rewrite app_nil_r.
    + rewrite IH by done. cbn [received].
      rewrite List.filter_app. cbn. now rewrite app_nil_r.
Qed.

(** X15. An error of the native layer reaches the consumer of
    [streamResponse] only if it arrives while the consumer waits in
    [next()]. It is then the result of that call. An error that arrives
    at any other time is never reported: [next()] hands over what is
    queued and then reports the end of the stream, as after a complete
    response, because it tests [done], which the error also sets, before
    it looks at the error. *)
Theorem error_reported_only_while_waiting (events : list IteratorEvent)
    (e : string) (chunk : option string) :
  let c := consume events in
  (forall e', (next (iterator c)).2 <> Some (thrown e'))
  /\ (unsettled c = true ->
      received (consume (events ++ [chunkArrived (Some e) chunk]))
      = received c ++ [thrown e])
  /\ (unsettled c = false ->
      forall more,
        List.filter isThrown
          (received (consume (events ++ chunkArrived (Some e) chunk :: more)))
        = List.filter isThrown (received c)).
Proof.
  intros c. subst c.
  destruct (consume_consistent events) as (Hwait & Hpending & Herror & _).
  split; [| split].
  - intros e'. unfold next. destruct (queue _); [| done].
    destruct (done _) eqn:Hdone; [done |].
    destruct (error _) eqn:Herr; [| done].
    exfalso. assert (false = true) by now apply Herror. discriminate.
  - intros Hwaiting. rewrite consume_snoc.
    destruct (consume events) as [it waiting got]. cbn in *. subst waiting.
    destruct (Hpending Hwaiting) as (Hreject & _).
    unfold consumerStep, handleChunk. cbn [iterator unsettled received].
    rewrite Hreject, Hwaiting. cbn [signalled]. now rewrite drop_app_length.
  - intros Hsettled more. unfold consume at 1.
    rewrite foldl_app. fold (consume events). cbn [foldl].
    destruct (consume events) as [it waiting got].
    cbn [iterator unsettled received] in *. subst waiting.
    assert (Hstep :
      consumerStep {| iterator := it; unsettled := pendingResolve it;
                      received := got |} (chunkArrived (Some e) chunk)
      = {| iterator := handleChunk (Some e) chunk it; unsettled := false;
           received := got |}).
    { unfold consumerStep, handleChunk. cbn [iterator unsettled received].
      rewrite Hsettled.
      destruct (pendingReject it); cbn [signalled];
        now rewrite ?drop_app_length, ?drop_all, ?Hsettled. }
    rewrite Hstep. now rewrite ended_quietly.
Qed.

(** ** [streamChatForVercelAISDK] *)

Section VercelTheorems.
Context `{JavaScript}.

Lemma vercel_goes_on (tools : list EphemeralTool) (events : list VercelEvent)
    (v : Vercel) :
  forallb goesOn events = true ->
  vercelRegistered v = true ->
  let v' := foldl (vercelStep tools) v events in
  vercelToolResults v'
  = vercelToolResults v ++ map (fun id => (id, "{}")) (invokedIds events)
  /\ collectedToolCalls v'
     = collectedToolCalls v ++ collectable tools events
  /\ vercelReadable v'
     = vercelReadable v ++ map textPart (streamedTexts events)
  /\ vercelDestroyed v' = vercelDestroyed v
  /\ generationComplete v' = generationComplete v
  /\ vercelRegistered v' = true.
Proof.
  revert v. induction events as [|e rest IH]; intros v Hon Hreg.
  - cbn. now rewrite !app_nil_r.
  - cbn [forallb] in Hon. apply andb_true_iff in Hon as [He Hon].
    cbn [foldl].
    assert (Hstep :
      vercelRegistered (vercelStep tools v e) = true
      /\ vercelToolResults (vercelStep tools v e)
         = vercelToolResults v
           ++ map (fun id => (id, "{}")) (invokedIds [e])
      /\ collectedToolCalls (vercelStep tools v e)
         = collectedToolCalls v ++ collectable tools [e]
      /\ vercelReadable (vercelStep tools v e)
         = vercelReadable v ++ map textPart (streamedTexts [e])
      /\ vercelDestroyed (vercelStep tools v e) = vercelDestroyed v
      /\ generationComplete (vercelStep tools v e) = generationComplete v).
    { destruct e as [err id argsJson | err chunk randomUUID].
      - cbn [vercelStep]. rewrite Hreg. unfold vercelToolCallback.
        destruct err as [e|]; [cbn; now rewrite !app_nil_r |].
        cbn [collectable omap list_omap].
        destruct (toolAt tools id) as [tool|];
          [| cbn; now rewrite !app_nil_r].
        destruct (JSON_parse argsJson) as [error|args];
          cbn; now rewrite ?app_nil_r.
      - destruct err as [e|]; [discriminate |].
        destruct chunk as [[|c text]|]; try discriminate.
        cbn. now rewrite !app_nil_r. }
    destruct Hstep as (Hreg' & Hresults & Hcollected & Hreadable & Hdestroyed
                       & Hcomplete).
    destruct (IH (vercelStep tools v e) Hon Hreg')
      as (-> & -> & -> & -> & -> & ->).
    rewrite Hresults, Hcollected, Hreadable, Hdestroyed, Hcomplete.
    change (e :: rest) with ([e] ++ rest).
    unfold invokedIds, collectable, streamedTexts.
    rewrite !omap_app, !map_app, !app_assoc. repeat split.
Qed.

Lemma enqueuedParts_texts (texts : list string)
    (pushed : list Pushed) :
  enqueuedParts (map textPart texts ++ pushed)
  = map textStreamPart texts ++ enqueuedParts pushed.
Proof.
  induction texts as [|text rest IH]; [reflexivity |]. cbn. now rewrite IH.
Qed.

Lemma enqueuedParts_calls (randomUUID : nat -> string)
    (calls : list CollectedToolCall) :
  enqueuedParts
    (imap (fun k call =>
             toolCallPart ("tool-call-" +:+ randomUUID k)
                          (collectedToolName call) (collectedArgs call))
          calls
     ++ [endOfStream])
  = imap (fun k call =>
            toolCallStreamPart ("tool-call-" +:+ randomUUID k)
                               (collectedToolName call)
                               (JSON_stringify (collectedArgs call)))
         calls
    ++ [finishStreamPart "stop"].
Proof.
  revert randomUUID. induction calls as [|call rest IH]; intros randomUUID;
    [reflexivity |].
  cbn [imap app enqueuedParts]. f_equal.
  apply (IH (fun k => randomUUID (S k))).
Qed.

(** X16. [streamChatForVercelAISDK] defers the tool calls to the end of
    the stream. While the generation goes on, every tool invocation is
    answered at once with the placeholder [{}], whether or not it names a
    tool and its arguments parse, and nothing but text is pushed. When the
    end of the stream arrives, one tool-call part is pushed for every
    invocation that named a tool of the request with arguments that
    parse, in the order of the invocations and each under a fresh id,
    after all the text and before the end of the stream; the callback is
    cleared; and a second end of stream changes nothing. The stream the
    AI SDK model makes of it holds the text parts, then the tool-call
    parts with the JSON text of their arguments, then one finish part. *)
Theorem vercel_tool_calls_deferred (tools : list EphemeralTool)
    (events : list VercelEvent) (randomUUID randomUUID' : nat -> string) :
  forallb goesOn events = true ->
  let v := vercelRun tools (events ++ [vercelStreamed None None randomUUID]) in
  vercelReadable (vercelRun tools events)
  = map textPart (streamedTexts events)
  /\ vercelReadable v
     = map textPart (streamedTexts events)
       ++ imap (fun k call =>
                  toolCallPart ("tool-call-" +:+ randomUUID k)
                               (collectedToolName call) (collectedArgs call))
               (collectable tools events)
       ++ [endOfStream]
  /\ vercelToolResults v = map (fun id => (id, "{}")) (invokedIds events)
  /\ vercelRegistered v = false
  /\ vercelStep tools v (vercelStreamed None None randomUUID') = v
  /\ createStreamFromEvents (vercelReadable v) (vercelDestroyed v)
     = Returned
         (map textStreamPart (streamedTexts events)
          ++ imap (fun k call =>
                     toolCallStreamPart ("tool-call-" +:+ randomUUID k)
                                        (collectedToolName call)
                                        (JSON_stringify (collectedArgs call)))
                  (collectable tools events)
          ++ [finishStreamPart "stop"]).
Proof.
  intros Hon v. subst v. unfold vercelRun. rewrite foldl_app.
  destruct (vercel_goes_on tools events vercelStarted Hon eq_refl)
    as (Hresults & Hcollected & Hreadable & Hdestroyed & Hcomplete & Hreg).
  cbn [vercelStarted vercelToolResults collectedToolCalls vercelReadable
       vercelDestroyed generationComplete app] in *.
  split; [exact Hreadable |].
  cbn [foldl vercelStep vercelStreamCallback]. unfold finishWithToolCalls.
  rewrite Hcomplete. cbn. rewrite Hreadable, Hcollected, Hresults.
  repeat split.
  unfold createStreamFromEvents. rewrite Hdestroyed.
  now rewrite enqueuedParts_texts, enqueuedParts_calls.
Qed.

End VercelTheorems.

Lemma vercel_tool_calls_deferred_witness :
  vercelReadable
    (vercelRun (H := sampleJavaScript) [sampleTool]
       ([vercelStreamed None (Some "Let me add. ") (fun _ => "");
         vercelToolInvoked None 1 "{}";
         vercelStreamed None (Some "One moment.") (fun _ => "")]
        ++ [vercelStreamed None None (fun _ => "7f3c")]))
  = [textPart "Let me add. "; textPart "One moment.";
     toolCallPart "tool-call-7f3c" "add" (JObject []); endOfStream].
Proof.
  refine (proj1 (proj2
            (vercel_tool_calls_deferred (H := sampleJavaScript) [sampleTool]
               [vercelStreamed None (Some "Let me add. ") (fun _ => "");
                vercelToolInvoked None 1 "{}";
                vercelStreamed None (Some "One moment.") (fun _ => "")]
               (fun _ => "7f3c") (fun _ => "") eq_refl))).
Defined.

(** A generation that fails after some text: the stream was destroyed,
    and the stream the AI SDK model makes of it is in error. *)
Example destroyed_stream_is_in_error :
  let v :=
    vercelRun (H := sampleJavaScript) [sampleTool]
      [vercelStreamed None (Some "Let me add. ") (fun _ => "");
       vercelStreamed (Some "native failure") None (fun _ => "")] in
  createStreamFromEvents (H := sampleJavaScript) (vercelReadable v)
                         (vercelDestroyed v)
  = Threw "native failure".
Proof. vm_compute. reflexivity. Qed.

(** ** From the messages of the AI SDK to the transcript *)

Section ChatModelTheorems.
Context `{Platform} `{JavaScript}.

Lemma mapM_objects {A : Type} (fields : A -> Dictionary) (l : list A) :
  mapM (fun item => asDictionary (Some item))
       (map (fun x => JObject (fields x)) l)
  = Some (map fields l).
Proof.
  induction l as [|x rest IH]; [reflexivity |].
  cbn [map mapM]. rewrite IH. reflexivity.
Qed.

(** The records a tool message of the AI SDK stands for. *)
Lemma toolOutputRecords_convertToolMessage (parts : list ToolResultPart) :
  jsonObject (JSON_stringify (toolCallsObject parts))
  = Returned (toolCallsObject parts) ->
  toolOutputRecords (convertToolMessage parts)
  = map (fun part =>
           {| outputID := resultToolCallId part;
              outputToolName := resultToolName part;
              outputSegments :=
                [textSegment (JSON_stringify (resultOutput part))] |})
        parts.
Proof.
  intros Hread. unfold toolOutputRecords, convertToolMessage.
  cbn [role content String.eqb Ascii.eqb Bool.eqb negb].
  rewrite Hread. unfold toolCallsObject.
  cbn [asDictionary subscript String.eqb Ascii.eqb Bool.eqb asDictionaries].
  rewrite (mapM_objects
             (fun part =>
                [("id", JString (resultToolCallId part));
                 ("toolName", JString (resultToolName part));
                 ("segments",
                  JArray
                    [JObject
                       [("type", JString "text");
                        ("text",
                         JString (JSON_stringify (resultOutput part)))]])])).
  clear Hread. induction parts as [|part rest IH]; [reflexivity |].
  cbn [map].
  change (omap ?f (?x :: ?l))
    with (from_option (fun y => y :: omap f l) (omap f l) (f x)).
  rewrite IH. reflexivity.
Qed.

(** X17. The tool results of the AI SDK reach the transcript. When the
    Swift layer reads back the JSON text [convertToolMessage] writes, the
    tool message stands for one tool output per [tool-result] part, in
    order: its id is the id of the tool call, its tool name the name of
    the tool, and its one segment the JSON text of the output. In the
    transcript, the outputs whose id was not seen before are kept. *)
Theorem tool_results_reach_transcript (parts : list ToolResultPart)
    (before : list ChatMessage) :
  jsonObject (JSON_stringify (toolCallsObject parts))
  = Returned (toolCallsObject parts) ->
  let outputs :=
    map (fun part =>
           {| outputID := resultToolCallId part;
              outputToolName := resultToolName part;
              outputSegments :=
                [textSegment (JSON_stringify (resultOutput part))] |})
        parts in
  createToolOutputEntry (convertToolMessage parts)
  = map toolOutputEntry outputs
  /\ emittedToolOutputs
       (convertMessagesToTranscript (before ++ [convertToolMessage parts]))
     = keepFirstByID ∅ (carriedRecords before ++ outputs)
  /\ (NoDup (map resultToolCallId parts) ->
      convertMessagesToTranscript [convertToolMessage parts]
      = map toolOutputEntry outputs).
Proof.
  intros Hread outputs.
  pose proof (toolOutputRecords_convertToolMessage parts Hread) as Hrecords.
  fold outputs in Hrecords.
  split; [unfold createToolOutputEntry; now rewrite Hrecords |].
  split.
  - destruct (convertMessagesToTranscript_spec
                (before ++ [convertToolMessage parts])) as (-> & _).
    unfold carriedRecords. rewrite flat_map_app. cbn [flat_map].
    now rewrite Hrecords, app_nil_r.
  - intros Hnodup. unfold convertMessagesToTranscript.
    change (List.filter _ [convertToolMessage parts])
      with [convertToolMessage parts].
    cbn [foldl]. unfold appendMessage.
    change (SwiftString.lowercased (role (convertToolMessage parts)))
      with "tool".
    change (String.eqb "tool" "user") with false.
    change (String.eqb "tool" "assistant") with false.
    change (String.eqb "tool" "tool") with true. cbn iota.
    unfold createToolOutputEntry. rewrite Hrecords.
    rewrite filterSeen_records. cbn [fst app]. f_equal.
    assert (Hkeep : forall seen,
              (forall part, part ∈ parts -> resultToolCallId part ∉ seen) ->
              keepFirstByID seen outputs = outputs).
    { subst outputs. clear Hrecords Hread.
      induction parts as [|part rest IH]; intros seen Hfresh; [reflexivity |].
      cbn [map keepFirstByID outputID].
      apply NoDup_cons in Hnodup as [Hnew Hnodup].
      destruct (decide (resultToolCallId part ∈ seen)) as [Hin|_].
      - exfalso. apply (Hfresh part); [left | exact Hin].
      - f_equal. apply IH; [exact Hnodup |].
        intros part' Hin' Hseen. apply elem_of_union in Hseen as [Hseen|Hseen].
        + apply elem_of_singleton in Hseen. apply Hnew. rewrite <- Hseen.
          now apply (list_elem_of_fmap_2 resultToolCallId).
        + apply (Hfresh part'); [now right | exact Hseen]. }
    apply Hkeep. intros part _. set_solver.
Qed.

(** The tool calls of an assistant message with a function name. *)
Lemma assistantToolCalls_named (parts : list AssistantPart) :
  forallb namesFunction (assistantToolCalls parts) = true.
Proof.
  induction parts as [|part rest IH]; [reflexivity |].
  destruct part; exact IH.
Qed.

Lemma convertOpenAIToolCalls_one (toolCallId toolName written : string)
    (input : JSON) :
  jsonObject (JSON_stringify input) = Returned input ->
  jsonData (JObject (default [] (asDictionary (Some input))))
  = Returned written ->
  convertOpenAIToolCalls
    [[("id", JString toolCallId); ("type", JString "function");
      ("function",
       JObject [("name", JString toolName);
                ("arguments", JString (JSON_stringify input))])]]
  = [{| callID := toolCallId; callToolName := toolName;
        callArguments := written; callDescription := "" |}].
Proof.
  intros Hinput Hwritten. unfold convertOpenAIToolCalls, parsedArguments.
  cbn. rewrite Hinput. unfold createGeneratedContentFromDictionary.
  cbn in Hwritten. cbn. rewrite Hwritten. reflexivity.
Qed.

Lemma convertOpenAIToolCalls_cons (call : Dictionary)
    (calls : list Dictionary) :
  convertOpenAIToolCalls (call :: calls)
  = convertOpenAIToolCalls [call] ++ convertOpenAIToolCalls calls.
Proof.
  unfold convertOpenAIToolCalls. change (call :: calls) with ([call] ++ calls).
  apply omap_app.
Qed.

(** X18. The tool calls of the AI SDK reach the transcript. An assistant
    message with at least one [tool-call] part becomes a tool-calls entry
    and nothing else: the text parts of the message are left out. When
    the Swift layer reads back the JSON text of every input and can write
    the arguments it read, the entry holds one call per [tool-call] part,
    in order, under the id of the part and the name of its tool, the ids
    under which [convertToolMessage] files the results. *)
Theorem tool_calls_reach_transcript (parts : list AssistantPart) :
  toolCallParts parts <> [] ->
  Forall (fun call =>
            jsonObject (JSON_stringify call.2) = Returned call.2
            /\ exists written,
                 jsonData (JObject (default [] (asDictionary (Some call.2))))
                 = Returned written)
         (toolCallParts parts) ->
  exists toolCalls,
    createAssistantEntry (convertAssistantMessage (inr parts))
    = toolCallsEntry toolCalls
    /\ map (fun call => (callID call, callToolName call)) toolCalls
       = map fst (toolCallParts parts).
Proof.
  intros Hsome Hread.
  assert (Hcalls : assistantToolCalls parts <> []).
  { intros Hnone. apply Hsome. clear Hread Hsome.
    induction parts as [|part rest IH]; [reflexivity |].
    destruct part; try (now apply IH). discriminate. }
  exists (convertOpenAIToolCalls (assistantToolCalls parts)).
  split.
  - unfold createAssistantEntry, convertAssistantMessage.
    destruct (assistantToolCalls parts) as [|toolCall rest] eqn:Hcalled;
      [done |].
    cbn [tool_calls]. rewrite bool_decide_eq_false_2 by done.
    rewrite <- Hcalled, assistantToolCalls_named. reflexivity.
  - clear Hsome Hcalls. induction parts as [|part rest IH]; [reflexivity |].
    destruct part as [text | text | toolCallId toolName input | type];
      try (now apply IH).
    cbn [toolCallParts omap list_omap] in Hread.
    change (omap _ rest) with (toolCallParts rest) in Hread.
    apply Forall_cons in Hread as [[Hinput [written Hwritten]] Hread].
    cbn [snd] in Hinput, Hwritten.
    change (toolCallParts (assistantToolCall toolCallId toolName input :: rest))
      with ((toolCallId, toolName, input) :: toolCallParts rest).
    change (assistantToolCalls
              (assistantToolCall toolCallId toolName input :: rest))
      with ([("id", JString toolCallId); ("type", JString "function");
             ("function",
              JObject [("name", JString toolName);
                       ("arguments", JString (JSON_stringify input))])]
            :: assistantToolCalls rest).
    rewrite convertOpenAIToolCalls_cons.
    rewrite (convertOpenAIToolCalls_one _ _ written) by assumption.
    cbn [app map fst]. f_equal. apply IH, Hread.
Qed.

End ChatModelTheorems.

Lemma tool_results_reach_transcript_witness :
  createToolOutputEntry (H := samplePlatform)
    (convertToolMessage (H := sampleJavaScript)
       [{| resultToolCallId := "call_1"; resultToolName := "add";
           resultOutput := JNumber 5 |}])
  = [toolOutputEntry {| outputID := "call_1"; outputToolName := "add";
                        outputSegments := [textSegment "5"] |}].
Proof.
  refine (proj1
            (tool_results_reach_transcript (H := samplePlatform)
               (H0 := sampleJavaScript)
               [{| resultToolCallId := "call_1"; resultToolName := "add";
                   resultOutput := JNumber 5 |}]
               [] _)).
  vm_compute. reflexivity.
Defined.

Lemma tool_calls_reach_transcript_witness :
  exists toolCalls,
    createAssistantEntry (H := samplePlatform)
      (convertAssistantMessage (H := sampleJavaScript)
         (inr [assistantText "Let me look that up.";
               assistantToolCall "call_1" "describe" sampleSchema]))
    = toolCallsEntry toolCalls
    /\ map (fun call => (callID call, callToolName call)) toolCalls
       = [("call_1", "describe")].
Proof.
  refine (tool_calls_reach_transcript (H := samplePlatform)
            (H0 := sampleJavaScript)
            [assistantText "Let me look that up.";
             assistantToolCall "call_1" "describe" sampleSchema] _ _).
  - discriminate.
  - repeat constructor. cbn. eauto.
Defined.

(** ** The stream of a chat without tools *)

Lemma chatFeed_cons (chunk : option string) (chunks : list (option string))
    (it : ChatIterator) :
  chatFeed (chunk :: chunks) it
  = chatFeed chunks (chatHandleChunk None chunk it).
Proof. reflexivity. Qed.

Lemma chatFeed_app (chunks more : list (option string)) (it : ChatIterator) :
  chatFeed (chunks ++ more) it = chatFeed more (chatFeed chunks it).
Proof. unfold chatFeed. apply foldl_app. Qed.

Lemma chatFeed_texts (data : list string) (it : ChatIterator) :
  Forall (fun text => text <> "") data ->
  chatPendingResolve it = false ->
  isFirstChunk it = false ->
  chatFeed (map Some data) it
  = {| chatQueue := chatQueue it ++ map (contentChunk false) data;
       chatDone := chatDone it; isFirstChunk := false;
       chatError := chatError it; chatPendingResolve := false;
       chatPendingReject := chatPendingReject it;
       chatSignalled := chatSignalled it |}.
Proof.
  revert it. induction data as [|text rest IH]; intros it Hdata Hresolve Hfirst.
  - cbn. rewrite app_nil_r. destruct it. cbn in *. now subst.
  - apply Forall_cons in Hdata as [Htext Hdata].
    cbn [map]. rewrite chatFeed_cons.
    destruct text as [|c text]; [done |].
    rewrite IH; try done.
    + unfold chatHandleChunk. rewrite Hresolve, Hfirst. cbn.
      now rewrite <- app_assoc.
    + unfold chatHandleChunk. now rewrite Hresolve.
    + unfold chatHandleChunk. now rewrite Hresolve.
Qed.

Lemma chunkLoop_step (calls : nat) (it : ChatIterator) :
  chunkLoop (S calls) it
  = match chatNext it with
    | (it', Some (chatYielded chunk)) =>
        let '(parts, ended) := chunkLoop calls it' in
        match deltaContent chunk with
        | Some (String c rest) =>
            (textStreamPart (String c rest) :: parts, ended)
        | _ => (parts, ended)
        end
    | (_, Some chatFinished) => ([], true)
    | (_, _) => ([], false)
    end.
Proof. reflexivity. Qed.

Lemma chunkLoop_queue (queue : list ChatCompletionChunk) (it : ChatIterator)
    (extra : nat) :
  chatQueue it = queue ->
  chatDone it = true ->
  chunkLoop (S (length queue + extra)) it
  = (omap (fun chunk =>
             match deltaContent chunk with
             | Some (String c rest) => Some (textStreamPart (String c rest))
             | _ => None
             end)
          queue,
     true).
Proof.
  revert it. induction queue as [|chunk rest IH]; intros it Hqueue Hdone.
  - cbn. unfold chatNext. now rewrite Hqueue, Hdone.
  - change (S (length (chunk :: rest) + extra))
      with (S (S (length rest + extra))).
    rewrite chunkLoop_step. unfold chatNext at 1. rewrite Hqueue.
    rewrite IH by done.
    change (omap ?f (?x :: ?l))
      with (from_option (fun y => y :: omap f l) (omap f l) (f x)).
    cbn beta. now destruct (deltaContent chunk) as [[|c text]|].
Qed.

Lemma texts_of_chunks (first : bool) (data : list string) :
  Forall (fun text => text <> "") data ->
  omap (fun chunk =>
          match deltaContent chunk with
          | Some (String c rest) => Some (textStreamPart (String c rest))
          | _ => None
          end)
       (map (contentChunk first) data)
  = map textStreamPart data.
Proof.
  induction data as [|text rest IH]; intros Hdata; [reflexivity |].
  apply Forall_cons in Hdata as [Htext Hdata]. cbn [map].
  change (omap ?f (?x :: ?l))
    with (from_option (fun y => y :: omap f l) (omap f l) (f x)).
  rewrite IH by done. destruct text; [done | reflexivity].
Qed.

(** X19. The stream of a chat without tools, from the native chunks to
    the parts of the AI SDK. For the non-empty chunks of a response
    followed by the end marker, [streamChatCompletion] queues one chunk
    per text, of which the first alone carries the role [assistant], and
    then one final chunk with an empty delta and the finish reason
    [stop]; and [createStreamFromChunks] turns them into one text part per
    chunk of the response, in order, followed by one finish part: the
    final chunk adds no text. *)
Theorem chat_stream_parts (data : list string) (calls : nat) :
  Forall (fun text => text <> "") data ->
  (length data + 1 < calls)%nat ->
  let it := chatFeed (map Some data ++ [None]) newChatIterator in
  chatQueue it = contentChunks data ++ [stopChunk]
  /\ chatDone it = true
  /\ createStreamFromChunks calls it
     = Some (map textStreamPart data ++ [finishStreamPart "stop"]).
Proof.
  intros Hdata Hcalls it.
  assert (Hfed :
    it = {| chatQueue := contentChunks data ++ [stopChunk]; chatDone := true;
            isFirstChunk := match data with [] => true | _ => false end;
            chatError := None; chatPendingResolve := false;
            chatPendingReject := false; chatSignalled := [] |}).
  { subst it. rewrite chatFeed_app.
    destruct data as [|text rest]; [reflexivity |].
    apply Forall_cons in Hdata as [Htext Hdata].
    destruct text as [|c text]; [done |].
    cbn [map]. rewrite (chatFeed_cons (Some (String c text))).
    rewrite chatFeed_texts by done. reflexivity. }
  rewrite Hfed. cbn [chatQueue chatDone]. split; [reflexivity |].
  split; [reflexivity |].
  unfold createStreamFromChunks.
  replace calls
    with (S (length (contentChunks data ++ [stopChunk])
             + (calls - length data - 2))).
  2:{ rewrite length_app. cbn [length].
      destruct data; cbn [contentChunks length] in *; rewrite ?length_map;
        lia. }
  rewrite (chunkLoop_queue (contentChunks data ++ [stopChunk])) by reflexivity.
  rewrite omap_app. cbn [omap list_omap stopChunk deltaContent].
  rewrite app_nil_r. do 2 f_equal.
  destruct data as [|text rest]; [reflexivity |].
  apply (texts_of_chunks true (text :: rest)) in Hdata as Htexts.
  cbn [contentChunks].
  change (omap ?f (?x :: ?l))
    with (from_option (fun y => y :: omap f l) (omap f l) (f x)).
  apply Forall_cons in Hdata as [Htext Hdata].
  rewrite (texts_of_chunks false rest Hdata).
  destruct text; [done | reflexivity].
Qed.

Lemma chat_stream_parts_witness :
  createStreamFromChunks 4
    (chatFeed (map Some ["The"; " answer"] ++ [None]) newChatIterator)
  = Some [textStreamPart "The"; textStreamPart " answer";
          finishStreamPart "stop"].
Proof.
  refine (proj2 (proj2 (chat_stream_parts ["The"; " answer"] 4 _ _))).
  - repeat constructor; discriminate.
  - cbn. lia.
Defined.
